(** * Biomedical inventory dashboard (VC.py): model and verified properties

    A shallow embedding of the dashboard's credential store, inventory
    store, expiry monitor and admin gate, followed by the properties
    proved about them.

    Conventions of the embedding.
    - A Python [str] is a [string]; the characters modelled are ASCII, so
      [s.encode("utf-8")] is the byte list of the string.
    - [bytes] is [list byte].
    - A pandas cell is [option cell]: [None] is NaN / NaT, [Some (Str s)]
      a text cell, [Some (Int z)] an integer cell.  A datetime64 cell is
      held as [Int] of its microseconds since the epoch.
    - A DataFrame is its column labels plus a list of rows, each row a
      finite map from column label to cell; a label missing from the map
      reads as NaN.
    - Files, the session and the screen live in a [World] threaded through
      a state-and-exception monad. *)

From Stdlib Require Import ZArith NArith QArith Lia List Ascii String.
From Stdlib.Strings Require Import Byte.
From Stdlib Require Import DecimalString DecimalN DecimalZ DecimalPos.
From stdpp Require Import gmap strings list.

Local Open Scope Z_scope.

(* ===================================================================== *)
(** ** Python strings, bytes and number formatting *)
(* ===================================================================== *)

Module Py.

(** [s.encode("utf-8")] and [b.decode("utf-8")] on ASCII text. *)
Definition encode (s : string) : list byte := list_byte_of_string s.
Definition decode (b : list byte) : string := string_of_list_byte b.

Definition byte_val (b : byte) : Z := Z.of_N (Byte.to_N b).

Definition byte_of_Z (z : Z) : byte :=
  match Byte.of_N (Z.to_N (z mod 256)) with
  | Some b => b
  | None => x00
  end.

Definition code (c : ascii) : Z := Z.of_N (N_of_ascii c).

(** [c.isdigit()] on one ASCII character. *)
Definition is_digit (c : ascii) : bool := (48 <=? code c) && (code c <=? 57).

(** [s.isdigit()]: non-empty and every character a digit. *)
Fixpoint all_digits (s : string) : bool :=
  match s with
  | EmptyString => true
  | String c r => is_digit c && all_digits r
  end.

Definition isdigit (s : string) : bool :=
  match s with
  | EmptyString => false
  | _ => all_digits s
  end.

(** [c.upper()] on one ASCII character. *)
Definition upper_char (c : ascii) : ascii :=
  if (97 <=? code c) && (code c <=? 122)
  then ascii_of_N (Z.to_N (code c - 32)) else c.

Fixpoint upper (s : string) : string :=
  match s with
  | EmptyString => EmptyString
  | String c r => String (upper_char c) (upper r)
  end.

(** [s.startswith(p)]. *)
Definition startswith (p s : string) : bool := String.prefix p s.

(** [s[n:]]. *)
Fixpoint slice_from (n : nat) (s : string) : string :=
  match n, s with
  | O, _ => s
  | S k, EmptyString => EmptyString
  | S k, String _ r => slice_from k r
  end.

(** [s.replace(old, new)] for a single-character [old]. *)
Fixpoint replace_char (old new : ascii) (s : string) : string :=
  match s with
  | EmptyString => EmptyString
  | String c r =>
      String (if Ascii.eqb c old then new else c) (replace_char old new r)
  end.

(** [str(n)] for an integer. *)
Definition str_of_N (n : N) : string := NilEmpty.string_of_uint (N.to_uint n).

Definition str_of_Z (z : Z) : string :=
  if z <? 0 then String "-" (str_of_N (Z.to_N (- z))) else str_of_N (Z.to_N z).

(** [int(s)] on a string already known to be all digits. *)
Definition int_of_digits (s : string) : option N :=
  match NilEmpty.uint_of_string s with
  | Some d => Some (N.of_uint d)
  | None => None
  end.

(** An optional sign followed by decimal digits, and nothing else: the
    exponent of a numeral. *)
Definition int_of_str (s : string) : option Z :=
  match s with
  | String "-" r =>
      if isdigit r then option_map (fun n => - Z.of_N n) (int_of_digits r) else None
  | String "+" r =>
      if isdigit r then option_map Z.of_N (int_of_digits r) else None
  | _ => if isdigit s then option_map Z.of_N (int_of_digits s) else None
  end.

(** The blanks a number parser skips before and after a numeral: the
    space and the control characters from tab to carriage return. *)
Definition is_blank (c : ascii) : bool :=
  (code c =? 32) || ((9 <=? code c) && (code c <=? 13)).

Fixpoint skip_blanks (s : string) : string :=
  match s with
  | EmptyString => EmptyString
  | String c r => if is_blank c then skip_blanks r else s
  end.

Fixpoint drop_trailing_blanks (s : string) : string :=
  match s with
  | EmptyString => EmptyString
  | String c r =>
      match drop_trailing_blanks r with
      | EmptyString => if is_blank c then EmptyString else String c EmptyString
      | r' => String c r'
      end
  end.

(** [c.isspace()] on one ASCII character: the blanks and the four
    separators from file to unit separator. *)
Definition is_space (c : ascii) : bool :=
  let n := code c in
  ((9 <=? n) && (n <=? 13)) || ((28 <=? n) && (n <=? 32)).

Fixpoint lstrip (s : string) : string :=
  match s with
  | EmptyString => EmptyString
  | String c r => if is_space c then lstrip r else s
  end.

Fixpoint rstrip (s : string) : string :=
  match s with
  | EmptyString => EmptyString
  | String c r =>
      match rstrip r with
      | EmptyString => if is_space c then EmptyString else String c EmptyString
      | r' => String c r'
      end
  end.

(** [s.strip()]. *)
Definition strip (s : string) : string := rstrip (lstrip s).

(** The digits of a decimal literal, in which single underscores may
    separate digits; [None] when the text is not of that form. *)
Fixpoint literal_digits (s : string) : option string :=
  match s with
  | EmptyString => None
  | String c r =>
      if is_digit c then
        match r with
        | EmptyString => Some (String c EmptyString)
        | String u r' =>
            if Ascii.eqb u "_"
            then option_map (String c) (literal_digits r')
            else option_map (String c) (literal_digits r)
        end
      else None
  end.

(** [int(s)] on text, as the interpreter reads it: blanks on either
    side, an optional sign, then a decimal literal.  Anything else is a
    [ValueError], rendered here as [None].  (The interpreter's cap on the
    number of digits, 4300 by default, is not modelled.) *)
Definition int_literal (s : string) : option Z :=
  let number (sign : Z) (t : string) : option Z :=
    match literal_digits t with
    | Some ds => option_map (fun n => sign * Z.of_N n) (int_of_digits ds)
    | None => None
    end in
  match drop_trailing_blanks (skip_blanks s) with
  | String "-" r => number (-1) r
  | String "+" r => number 1 r
  | t => number 1 t
  end.

(** [format(n, "03d")]: decimal, left-padded with zeros to width 3. *)
Fixpoint zeros (k : nat) : string :=
  match k with
  | O => EmptyString
  | S j => String "0" (zeros j)
  end.

Definition zfill (width : nat) (s : string) : string :=
  String.append (zeros (width - String.length s)) s.

Definition format_03d (n : N) : string := zfill 3 (str_of_N n).

(** *** binascii *)

Definition hex_char (n : Z) : ascii :=
  if n <? 10 then ascii_of_N (Z.to_N (48 + n)) else ascii_of_N (Z.to_N (87 + n)).

Definition hex_val (c : ascii) : option Z :=
  let n := code c in
  if (48 <=? n) && (n <=? 57) then Some (n - 48)
  else if (97 <=? n) && (n <=? 102) then Some (n - 87)
  else if (65 <=? n) && (n <=? 70) then Some (n - 55)
  else None.

(** [binascii.hexlify(b).decode("utf-8")]. *)
Fixpoint hexlify (b : list byte) : string :=
  match b with
  | [] => EmptyString
  | x :: r =>
      String (hex_char (byte_val x / 16))
        (String (hex_char (byte_val x mod 16)) (hexlify r))
  end.

(** [binascii.unhexlify(s.encode("utf-8"))]; [None] is [binascii.Error]
    (odd length or a character that is not a hexadecimal digit). *)
Fixpoint unhexlify (s : string) : option (list byte) :=
  match s with
  | EmptyString => Some []
  | String _ EmptyString => None
  | String c1 (String c2 r) =>
      match hex_val c1, hex_val c2, unhexlify r with
      | Some h, Some l, Some bs => Some (byte_of_Z (16 * h + l) :: bs)
      | _, _, _ => None
      end
  end.

End Py.

(* ===================================================================== *)
(** ** hashlib: SHA-256, HMAC and PBKDF2 *)
(* ===================================================================== *)

(** [hashlib.pbkdf2_hmac("sha256", ...)] is a library primitive; it is
    written out here (FIPS 180-4, RFC 2104, RFC 8018) so that statements
    about passwords are statements about the digests the code compares. *)

Module Hashlib.
Import Py.

Definition w32 (x : Z) : Z := x mod 2 ^ 32.
Definition add32 (x y : Z) : Z := w32 (x + y).
Definition rotr (n x : Z) : Z := Z.lor (Z.shiftr x n) (w32 (Z.shiftl x (32 - n))).
Definition not32 (x : Z) : Z := Z.lxor x (2 ^ 32 - 1).

Definition Ch (x y z : Z) : Z := Z.lxor (Z.land x y) (Z.land (not32 x) z).
Definition Maj (x y z : Z) : Z :=
  Z.lxor (Z.lxor (Z.land x y) (Z.land x z)) (Z.land y z).
Definition bsig0 (x : Z) : Z := Z.lxor (Z.lxor (rotr 2 x) (rotr 13 x)) (rotr 22 x).
Definition bsig1 (x : Z) : Z := Z.lxor (Z.lxor (rotr 6 x) (rotr 11 x)) (rotr 25 x).
Definition ssig0 (x : Z) : Z := Z.lxor (Z.lxor (rotr 7 x) (rotr 18 x)) (Z.shiftr x 3).
Definition ssig1 (x : Z) : Z := Z.lxor (Z.lxor (rotr 17 x) (rotr 19 x)) (Z.shiftr x 10).

(** The round constants are the first 32 bits of the fractional parts of
    the cube roots of the first 64 primes, the initial hash value those of
    the square roots of the first 8 primes; both are computed here. *)
Definition is_prime (n : Z) : bool :=
  (1 <? n) && forallb (fun d => negb (n mod Z.of_nat d =? 0))
                      (seq 2 (Z.to_nat n - 2)).

Definition primes : list Z :=
  Eval vm_compute in
    List.filter is_prime (map Z.of_nat (seq 2 310)).

(** Integer cube root, one bit at a time from the top. *)
Fixpoint cube_root_bits (k : nat) (n acc : Z) : Z :=
  match k with
  | O => acc
  | S j =>
      let cand := acc + 2 ^ Z.of_nat j in
      cube_root_bits j n (if cand * cand * cand <=? n then cand else acc)
  end.

Definition cube_root (n : Z) : Z := cube_root_bits 48 n 0.

Definition K256 : list Z :=
  Eval vm_compute in
    map (fun p => w32 (cube_root (p * 2 ^ 96))) (firstn 64 primes).

Definition H0 : list Z :=
  Eval vm_compute in
    map (fun p => w32 (Z.sqrt (p * 2 ^ 64))) (firstn 8 primes).

(** Big-endian packing of bytes into 32-bit words and back. *)
Fixpoint words_of_bytes (b : list Z) : list Z :=
  match b with
  | b0 :: b1 :: b2 :: b3 :: r =>
      (((b0 * 256 + b1) * 256 + b2) * 256 + b3) :: words_of_bytes r
  | _ => []
  end.

Definition bytes_of_word (x : Z) : list Z :=
  [ (x / 2 ^ 24) mod 256; (x / 2 ^ 16) mod 256; (x / 2 ^ 8) mod 256; x mod 256 ].

Definition be64 (n : Z) : list Z :=
  bytes_of_word ((n / 2 ^ 32) mod 2 ^ 32) ++ bytes_of_word (n mod 2 ^ 32).

(** Message padding: a 1 bit, zeros, and the bit length on 64 bits. *)
Definition pad (msg : list Z) : list Z :=
  let len := Z.of_nat (length msg) in
  let k := (55 - len) mod 64 in
  msg ++ [0x80] ++ repeat 0 (Z.to_nat k) ++ be64 (8 * len).

(** Message schedule: [w] holds W_0 .. W_{t-1}; extend it to 64 words. *)
Fixpoint schedule (n : nat) (w : list Z) : list Z :=
  match n with
  | O => w
  | S m =>
      let t := length w in
      let at_ (i : nat) := nth (t - i) w 0 in
      schedule m
        (w ++ [add32 (add32 (ssig1 (at_ 2%nat)) (at_ 7%nat))
                     (add32 (ssig0 (at_ 15%nat)) (at_ 16%nat))])
  end.

Record regs := Regs { ra : Z; rb : Z; rc : Z; rd : Z; re : Z; rf : Z; rg : Z; rh : Z }.

Definition round (s : regs) (kw : Z * Z) : regs :=
  let t1 := add32 (add32 (add32 (rh s) (bsig1 (re s))) (Ch (re s) (rf s) (rg s)))
                  (add32 (fst kw) (snd kw)) in
  let t2 := add32 (bsig0 (ra s)) (Maj (ra s) (rb s) (rc s)) in
  Regs (add32 t1 t2) (ra s) (rb s) (rc s) (add32 (rd s) t1) (re s) (rf s) (rg s).

Definition regs_of (h : list Z) : regs :=
  Regs (nth 0 h 0) (nth 1 h 0) (nth 2 h 0) (nth 3 h 0)
       (nth 4 h 0) (nth 5 h 0) (nth 6 h 0) (nth 7 h 0).

Definition list_of (s : regs) : list Z :=
  [ra s; rb s; rc s; rd s; re s; rf s; rg s; rh s].

Definition compress (h : list Z) (block : list Z) : list Z :=
  let w := schedule 48 (words_of_bytes block) in
  let s := fold_left round (combine K256 w) (regs_of h) in
  zip_with add32 h (list_of s).

(** The padded message is consumed 64 bytes at a time. *)
Fixpoint blocks (fuel : nat) (h : list Z) (msg : list Z) : list Z :=
  match fuel with
  | O => h
  | S f =>
      match msg with
      | [] => h
      | _ => blocks f (compress h (firstn 64 msg)) (skipn 64 msg)
      end
  end.

Definition sha256 (msg : list byte) : list byte :=
  let p := pad (map byte_val msg) in
  map byte_of_Z (concat (map bytes_of_word (blocks (length p) H0 p))).

(** *** HMAC-SHA256 (block size 64) *)

Definition xor_bytes (a b : list byte) : list byte :=
  zip_with (fun x y => byte_of_Z (Z.lxor (byte_val x) (byte_val y))) a b.

Definition hmac_key (key : list byte) : list byte :=
  let k := if (64 <? Z.of_nat (length key)) then sha256 key else key in
  k ++ repeat x00 (64 - length k).

Definition hmac_sha256 (key msg : list byte) : list byte :=
  let k := hmac_key key in
  let ipad := map (fun x => byte_of_Z (Z.lxor (byte_val x) 0x36)) k in
  let opad := map (fun x => byte_of_Z (Z.lxor (byte_val x) 0x5c)) k in
  sha256 (opad ++ sha256 (ipad ++ msg)).

(** *** PBKDF2 with the digest's own output length (one block) *)

Definition pbkdf2_step (password : list byte) (ut : list byte * list byte)
  : list byte * list byte :=
  let u := hmac_sha256 password (fst ut) in
  (u, xor_bytes (snd ut) u).

Definition pbkdf2_block (password salt : list byte) (c : positive) : list byte :=
  let u1 := hmac_sha256 password (salt ++ [x00; x00; x00; x01]) in
  match c with
  | xH => u1
  | _ => snd (Pos.iter (pbkdf2_step password) (u1, u1) (Pos.pred c))
  end.

Inductive error := NotCLong | IterationsTooSmall | IterationsTooGreat.

(** [hashlib.pbkdf2_hmac("sha256", password, salt, iterations)].  The
    count is first converted to a C [long], of 64 bits here, which is an
    [OverflowError] for a Python integer outside that range; then a
    [ValueError] below one iteration and an [OverflowError] above
    [INT_MAX]. *)
Definition pbkdf2_hmac (password salt : list byte) (iterations : Z)
  : error + list byte :=
  if (iterations <? - 2 ^ 63) || (2 ^ 63 - 1 <? iterations) then inl NotCLong
  else if iterations <? 1 then inl IterationsTooSmall
  else if 2 ^ 31 - 1 <? iterations then inl IterationsTooGreat
  else inr (pbkdf2_block password salt (Z.to_pos iterations)).

End Hashlib.

(* ===================================================================== *)
(** ** pandas: cells, frames, CSV and numeric coercion *)
(* ===================================================================== *)

Module Pandas.
Import Py.

Inductive cell :=
  | Str (s : string)
  | Int (z : Z).

#[global] Instance cell_eq_dec : EqDecision cell.
Proof. solve_decision. Defined.

(** A row maps column labels to cells; an absent label is NaN. *)
Record DataFrame := Frame {
  columns : list string;
  rows : list (gmap string cell)
}.

(** [pd.DataFrame(columns=cols)]. *)
Definition empty_frame (cols : list string) : DataFrame := Frame cols [].

(** [pd.DataFrame([row])] for a dict given in insertion order. *)
Definition frame_of_record (kvs : list (string * cell)) : DataFrame :=
  Frame (kvs.*1) [list_to_map kvs].

(** [df.empty]: some axis has length zero. *)
Definition df_empty (df : DataFrame) : bool :=
  match rows df, columns df with
  | [], _ => true
  | _, [] => true
  | _, _ => false
  end.

(** [c in df.columns]. *)
Definition has_column (c : string) (df : DataFrame) : bool :=
  bool_decide (c ∈ columns df).

(** [df[c]] as the list of its values, top to bottom. *)
Definition col (c : string) (df : DataFrame) : list (option cell) :=
  (fun r : gmap string cell => r !! c) <$> rows df.

(** [df.get(c, pd.Series(dtype=str))]. *)
Definition get (c : string) (df : DataFrame) : list (option cell) :=
  if has_column c df then col c df else [].

Definition set_cell (c : string) (v : option cell) (r : gmap string cell)
  : gmap string cell :=
  match v with
  | Some x => <[c := x]> r
  | None => delete c r
  end.

(** [df[c] = series]: values align on the row position; a position the
    series lacks becomes NaN.  A new label is appended to the columns. *)
Definition assign (c : string) (vals : list (option cell)) (df : DataFrame)
  : DataFrame :=
  Frame (if has_column c df then columns df else columns df ++ [c])
        (imap (fun i r => set_cell c (mjoin (vals !! i)) r) (rows df)).

(** [df[c] = scalar]. *)
Definition assign_scalar (c : string) (v : cell) (df : DataFrame) : DataFrame :=
  assign c (replicate (length (rows df)) (Some v)) df.

(** [df[cols]] for a list of labels all present in [df]. *)
Definition select (cols : list string) (df : DataFrame) : DataFrame :=
  Frame cols
        ((fun r : gmap string cell =>
            foldr (fun c acc => set_cell c (r !! c) acc) ∅ cols) <$> rows df).

(** [pd.concat([a, b], ignore_index=True)]: rows of [a] then rows of [b],
    over the union of the columns. *)
Definition concat (a b : DataFrame) : DataFrame :=
  Frame (columns a ++ List.filter (fun c => negb (has_column c a)) (columns b))
        (rows a ++ rows b).

(** [df[mask]]: the rows whose mask entry is true, each with the position
    it had in [df] (its index label until [reset_index]). *)
Definition boolean_index (mask : list bool) (df : DataFrame)
  : list (nat * gmap string cell) :=
  List.filter (fun ir => default false (mask !! fst ir))
              (imap (fun i r => (i, r)) (rows df)).

(** [df[mask].reset_index(drop=True)]. *)
Definition filter_rows (mask : list bool) (df : DataFrame) : DataFrame :=
  Frame (columns df) ((boolean_index mask df).*2).

(** [df.head()]: the first five rows. *)
Definition head (df : DataFrame) : DataFrame :=
  Frame (columns df) (firstn 5 (rows df)).

(** [series.astype(str)] on one value. *)
Definition astype_str (v : option cell) : string :=
  match v with
  | None => "nan"
  | Some (Str s) => s
  | Some (Int z) => str_of_Z z
  end.

(** *** Reading and writing tables *)

(** The spellings the readers take for a missing value
    ([keep_default_na=True]). *)
Definition na_values : list string :=
  [ ""; "#N/A"; "#N/A N/A"; "#NA"; "-1.#IND"; "-1.#QNAN"; "-NaN"; "-nan";
    "1.#IND"; "1.#QNAN"; "<NA>"; "N/A"; "NA"; "NULL"; "NaN"; "None";
    "n/a"; "nan"; "null" ].

Definition is_na (s : string) : bool := bool_decide (s ∈ na_values).

Definition na_filter (s : string) : option cell :=
  if is_na s then None else Some (Str s).

(** A CSV file seen as its header line and its records, field by field.
    The text layer (delimiters, quoting, line ends) is not modelled; a
    field is whatever text was written, which is how fields without line
    breaks come back. *)
Record Csv := MkCsv {
  header : list string;
  records : list (list string)
}.

Definition row_of_fields (hdr : list string) (fields : list string)
  : gmap string cell :=
  foldr (fun cf acc => set_cell (fst cf) (na_filter (snd cf)) acc) ∅
        (zip hdr fields).

(** [pd.read_csv(path, dtype=str)]. *)
Definition read_csv (f : Csv) : DataFrame :=
  Frame (header f) (row_of_fields (header f) <$> records f).

Definition csv_field (v : option cell) : string :=
  match v with
  | None => ""
  | Some (Str s) => s
  | Some (Int z) => str_of_Z z
  end.

(** [df.to_csv(path, index=False)]. *)
Definition to_csv (df : DataFrame) : Csv :=
  MkCsv (columns df)
        ((fun r : gmap string cell =>
            (fun c => csv_field (r !! c)) <$> columns df) <$> rows df).

(** A worksheet: a frame whose cells are text or integers, empty cells
    being absent. *)
Abbreviation Sheet := DataFrame (only parsing).

(** [pd.read_excel(path, engine="openpyxl")]: text cells pass the
    missing-value filter, numbers stay numbers. *)
Definition read_excel_cell (v : cell) : option cell :=
  match v with
  | Str s => na_filter s
  | Int z => Some (Int z)
  end.

Definition read_excel (f : Sheet) : DataFrame :=
  Frame (columns f)
        ((fun r : gmap string cell => omap read_excel_cell r) <$> rows f).

(** [pd.read_excel(path, engine="openpyxl", dtype=str)]: every value that
    is not missing becomes text. *)
Definition read_excel_str_cell (v : cell) : option cell :=
  match v with
  | Str s => na_filter s
  | Int z => Some (Str (str_of_Z z))
  end.

Definition read_excel_str (f : Sheet) : DataFrame :=
  Frame (columns f)
        ((fun r : gmap string cell => omap read_excel_str_cell r) <$> rows f).

(** [df.to_excel(path, index=False, engine="openpyxl")]. *)
Definition to_excel (df : DataFrame) : Sheet := df.

(** *** Numeric coercion *)

(** A float64 value that is not NaN: a finite number, held as the exact
    rational, or an infinity. *)
Inductive float :=
  | Finite (q : Q)
  | Infinite (negative : bool).

(** The longest prefix of digits, and what follows it. *)
Fixpoint span_digits (s : string) : string * string :=
  match s with
  | EmptyString => (EmptyString, EmptyString)
  | String c r =>
      if is_digit c
      then let p := span_digits r in (String c (fst p), snd p)
      else (EmptyString, s)
  end.

Definition pow10 (k : Z) : Q :=
  if 0 <=? k then inject_Z (10 ^ k) else Qmake 1 (Z.to_pos (10 ^ (- k))).

(** Decimal notation: sign, digits, fraction and exponent. *)
Definition parse_decimal (s : string) : option Q :=
  let sg := match s with
            | String "-" r => (-1, r)
            | String "+" r => (1, r)
            | _ => (1, s)
            end in
  let ip := span_digits (snd sg) in
  let fp := match snd ip with
            | String "." r => span_digits r
            | _ => (EmptyString, snd ip)
            end in
  let ds := String.append (fst ip) (fst fp) in
  let ex := match snd fp with
            | EmptyString => Some 0
            | String c r =>
                if Ascii.eqb c "e" || Ascii.eqb c "E" then int_of_str r else None
            end in
  match int_of_digits ds, ex with
  | Some m, Some e =>
      if isdigit ds
      then Some (Qmult (inject_Z (fst sg * Z.of_N m))
                       (pow10 (e - Z.of_nat (String.length (fst fp)))))
      else None
  | _, _ => None
  end.

(** The spellings of infinity, in any case, with the sign they carry. *)
Definition parse_infinity (s : string) : option bool :=
  let u := upper s in
  if bool_decide (u ∈ ["INF"; "+INF"; "INFINITY"; "+INFINITY"]) then Some false
  else if bool_decide (u ∈ ["-INF"; "-INFINITY"]) then Some true
  else None.

(** Text read as a number by [pd.to_numeric]; [None] is NaN, which is
    what [errors="coerce"] makes of any other text.  A numeral may stand
    between blanks, a spelling of infinity may not.  The value is the
    exact one, where the library holds the nearest double: the two agree
    on the integers up to 2^53 in size. *)
Definition parse_number (s : string) : option float :=
  match parse_decimal (drop_trailing_blanks (skip_blanks s)) with
  | Some q => Some (Finite q)
  | None => Infinite <$> parse_infinity s
  end.

(** [pd.to_numeric(series, errors="coerce")] on one value. *)
Definition to_numeric_cell (v : option cell) : option float :=
  match v with
  | None => None
  | Some (Int z) => Some (Finite (inject_Z z))
  | Some (Str s) => parse_number s
  end.

Definition to_numeric (s : list (option cell)) : list (option float) :=
  to_numeric_cell <$> s.

(** [series.fillna(0)]. *)
Definition fillna (d : float) (s : list (option float)) : list float :=
  default d <$> s.

(** The integer part of a rational, rounding toward zero. *)
Definition trunc (q : Q) : Z := Z.quot (Qnum q) (Zpos (Qden q)).

Definition int64_ok (z : Z) : bool := (- 2 ^ 63 <=? z) && (z <? 2 ^ 63).

(** One value under [astype(int)].  There is no result for an infinity,
    where the library raises, nor for a number beyond 64 bits, which the
    library wraps around in a way that is not modelled. *)
Definition to_int64 (x : float) : option Z :=
  match x with
  | Finite q => if int64_ok (trunc q) then Some (trunc q) else None
  | Infinite _ => None
  end.

(** [series.astype(int)]. *)
Definition astype_int (s : list float) : option (list (option cell)) :=
  fmap (M := option) (fmap (M := list) (fun z => Some (Int z))) (mapM to_int64 s).

(** [pd.to_numeric(df[c], errors="coerce").fillna(0).astype(int)]. *)
Definition coerce_int (s : list (option cell)) : option (list (option cell)) :=
  astype_int (fillna (Finite 0) (to_numeric s)).

End Pandas.

(* ===================================================================== *)
(** ** Calendar arithmetic for [datetime] *)
(* ===================================================================== *)

Module Datetime.
Import Py.

(** Microseconds in a day; timestamps count microseconds since the epoch. *)
Definition day_us : Z := 86400 * 1000000.

(** Days since 1970-01-01 of a proleptic Gregorian date. *)
Definition days_from_civil (y m d : Z) : Z :=
  let y' := if m <=? 2 then y - 1 else y in
  let era := y' / 400 in
  let yoe := y' - era * 400 in
  let mp := if 2 <? m then m - 3 else m + 9 in
  let doy := (153 * mp + 2) / 5 + d - 1 in
  let doe := yoe * 365 + yoe / 4 - yoe / 100 + doy in
  era * 146097 + doe - 719468.

(** The inverse: year, month and day of a day count. *)
Definition civil_from_days (n : Z) : Z * Z * Z :=
  let z := n + 719468 in
  let era := z / 146097 in
  let doe := z - era * 146097 in
  let yoe := (doe - doe / 1460 + doe / 36524 - doe / 146096) / 365 in
  let doy := doe - (365 * yoe + yoe / 4 - yoe / 100) in
  let mp := (5 * doy + 2) / 153 in
  let d := doy - (153 * mp + 2) / 5 + 1 in
  let m := if mp <? 10 then mp + 3 else mp - 9 in
  (if m <=? 2 then yoe + era * 400 + 1 else yoe + era * 400, m, d).

Definition pad_num (width : nat) (z : Z) : string := zfill width (str_of_Z z).

(** [t.strftime("%Y-%m-%d")]. *)
Definition strftime_date (t : Z) : string :=
  let '(y, m, d) := civil_from_days (t / day_us) in
  String.append (pad_num 4 y)
    (String "-" (String.append (pad_num 2 m) (String "-" (pad_num 2 d)))).

(** [t.strftime("%Y-%m-%d %H:%M:%S")]. *)
Definition strftime_datetime (t : Z) : string :=
  let s := (t mod day_us) / 1000000 in
  String.append (strftime_date t)
    (String " " (String.append (pad_num 2 (s / 3600))
       (String ":" (String.append (pad_num 2 ((s / 60) mod 60))
          (String ":" (pad_num 2 (s mod 60))))))).

(** Midnight of the day a timestamp falls on. *)
Definition start_of_day (t : Z) : Z := t - t mod day_us.

(** [(a - b).days] of a [Timedelta]: whole days, rounded down. *)
Definition timedelta_days (delta : Z) : Z := delta / day_us.

(** A reader for the [DATE_FMT] layout ["%Y-%m-%d"], the one the
    dashboard itself writes: four, two and two digits. *)
Definition parse_ymd (s : string) : option Z :=
  let y := String.substring 0 4 s in
  let m := String.substring 5 2 s in
  let d := String.substring 8 2 s in
  if (String.length s =? 10)%nat
     && String.eqb (String.substring 4 1 s) "-"
     && String.eqb (String.substring 7 1 s) "-"
     && isdigit y && isdigit m && isdigit d
  then
    match int_of_digits y, int_of_digits m, int_of_digits d with
    | Some yy, Some mm, Some dd =>
        let n := days_from_civil (Z.of_N yy) (Z.of_N mm) (Z.of_N dd) in
        if decide (civil_from_days n = (Z.of_N yy, Z.of_N mm, Z.of_N dd))
        then Some (n * day_us) else None
    | _, _, _ => None
    end
  else None.

End Datetime.

(* ===================================================================== *)
(** ** The dashboard script (VC.py) *)
(* ===================================================================== *)

Module VC.
Import Py Pandas Datetime.

Definition PBKDF2_ITER_DEFAULT : Z := 200000.

(** Exceptions.  [Rerun] and [Stop] are the control-flow signals of
    [st.experimental_rerun()] and [st.stop()]; they derive from
    [BaseException], so [except Exception] lets them through. *)
Inductive exn :=
  | ValueError (msg : string)
  | OverflowError (msg : string)
  | AttributeError (msg : string)
  | BinasciiError (msg : string)
  | KeyError (msg : string)
  | IndexError (msg : string)
  | Rerun
  | Stop.

Definition is_Exception (e : exn) : bool :=
  match e with
  | Rerun | Stop => false
  | _ => true
  end.

(** What the page shows, in order of emission (message texts without
    their emoji). *)
Inductive element :=
  | st_markdown (s : string)
  | st_subheader (s : string)
  | st_write (s : string)
  | st_info (s : string)
  | st_success (s : string)
  | st_warning (s : string)
  | st_error (s : string)
  | st_toast (s : string)
  | st_dataframe (df : DataFrame)
  | st_form (name : string).

(** Files on disk, the session state, the page, the wall clock and the
    operating system's random bytes. *)
Record World := MkWorld {
  users_csv : option Csv;             (* users.csv *)
  inventory_xlsx : option DataFrame;  (* biomedical_lab_inventory.xlsx *)
  audit_log : list string;            (* audit_log.csv, one entry each *)
  session_username : option string;   (* st.session_state["username"] *)
  session_inventory : option DataFrame; (* st.session_state["inventory_df"] *)
  page : list element;
  clock : Z;
  entropy : nat -> byte;
  entropy_pos : nat
}.

(** *** State and exceptions *)

Definition M (A : Type) : Type := World -> (exn + A) * World.

Definition ret {A} (a : A) : M A := fun w => (inr a, w).
Definition raise {A} (e : exn) : M A := fun w => (inl e, w).
Definition bind {A B} (m : M A) (k : A -> M B) : M B :=
  fun w =>
    match m w with
    | (inr a, w') => k a w'
    | (inl e, w') => (inl e, w')
    end.

Notation "x <- m ;; k" := (bind m (fun x => k))
  (at level 100, m at next level, right associativity).
Notation "m ;;; k" := (bind m (fun _ => k))
  (at level 100, right associativity).

(** [try: body  except Exception as e: handler(e)]. *)
Definition try_except {A} (body : M A) (handler : exn -> M A) : M A :=
  fun w =>
    match body w with
    | (inl e, w') => if is_Exception e then handler e w' else (inl e, w')
    | r => r
    end.

Definition gets {A} (f : World -> A) : M A := fun w => (inr (f w), w).
Definition modify (f : World -> World) : M unit := fun w => (inr tt, f w).

(** A computation that only raises or returns. *)
Definition lift {A} (r : exn + A) : M A := fun w => (r, w).

Definition pure_bind {A B} (r : exn + A) (k : A -> exn + B) : exn + B :=
  match r with
  | inr a => k a
  | inl e => inl e
  end.

Definition set_users_csv (f : Csv) (w : World) : World :=
  MkWorld (Some f) (inventory_xlsx w) (audit_log w) (session_username w)
          (session_inventory w) (page w) (clock w) (entropy w) (entropy_pos w).

Definition set_inventory_xlsx (f : DataFrame) (w : World) : World :=
  MkWorld (users_csv w) (Some f) (audit_log w) (session_username w)
          (session_inventory w) (page w) (clock w) (entropy w) (entropy_pos w).

Definition append_audit_log (line : string) (w : World) : World :=
  MkWorld (users_csv w) (inventory_xlsx w) (audit_log w ++ [line])
          (session_username w) (session_inventory w) (page w) (clock w)
          (entropy w) (entropy_pos w).

Definition set_session_username (u : string) (w : World) : World :=
  MkWorld (users_csv w) (inventory_xlsx w) (audit_log w) (Some u)
          (session_inventory w) (page w) (clock w) (entropy w) (entropy_pos w).

Definition set_session_inventory (df : DataFrame) (w : World) : World :=
  MkWorld (users_csv w) (inventory_xlsx w) (audit_log w) (session_username w)
          (Some df) (page w) (clock w) (entropy w) (entropy_pos w).

Definition emit (e : element) (w : World) : World :=
  MkWorld (users_csv w) (inventory_xlsx w) (audit_log w) (session_username w)
          (session_inventory w) (page w ++ [e]) (clock w) (entropy w)
          (entropy_pos w).

Definition advance_entropy (n : nat) (w : World) : World :=
  MkWorld (users_csv w) (inventory_xlsx w) (audit_log w) (session_username w)
          (session_inventory w) (page w) (clock w) (entropy w)
          (entropy_pos w + n).

Definition render (e : element) : M unit := modify (emit e).

(** [os.urandom(n)]. *)
Definition urandom (n : nat) : M (list byte) :=
  fun w => (inr (map (entropy w) (seq (entropy_pos w) n)), advance_entropy n w).

(** [str(e)] of an exception, as the messages print it. *)
Definition exn_text (e : exn) : string :=
  match e with
  | ValueError m | OverflowError m | AttributeError m | BinasciiError m
  | KeyError m | IndexError m => m
  | Rerun | Stop => ""
  end.

(** *** Python operators on cells *)

(** [cell == s] for a [str] [s]. *)
Definition eq_str (v : option cell) (s : string) : bool :=
  match v with
  | Some (Str t) => String.eqb t s
  | _ => false
  end.

(** [a == b] on two cells; NaN equals nothing. *)
Definition eq_cell (a b : option cell) : bool :=
  match a, b with
  | Some x, Some y => bool_decide (x = y)
  | _, _ => false
  end.

(** [s in values] for a [str] [s]. *)
Definition str_in (s : string) (values : list (option cell)) : bool :=
  existsb (fun v => eq_str v s) values.

(** [int(v)]. *)
Definition py_int (v : option cell) : exn + Z :=
  match v with
  | None => inl (ValueError "cannot convert float NaN to integer")
  | Some (Int z) => inr z
  | Some (Str s) =>
      match int_literal s with
      | Some z => inr z
      | None => inl (ValueError "invalid literal for int() with base 10")
      end
  end.

(** [v.encode("utf-8")]: only a [str] has the method. *)
Definition str_encode (v : option cell) : exn + list byte :=
  match v with
  | Some (Str s) => inr (encode s)
  | _ => inl (AttributeError "object has no attribute 'encode'")
  end.

Definition binascii_unhexlify (s : string) : exn + list byte :=
  match unhexlify s with
  | Some b => inr b
  | None => inl (BinasciiError "Non-hexadecimal digit found")
  end.

Definition hashlib_pbkdf2_hmac (password salt : list byte) (iterations : Z)
  : exn + list byte :=
  match Hashlib.pbkdf2_hmac password salt iterations with
  | inr dk => inr dk
  | inl Hashlib.NotCLong =>
      inl (OverflowError "Python int too large to convert to C long")
  | inl Hashlib.IterationsTooSmall =>
      inl (ValueError "iteration value must be greater than 0.")
  | inl Hashlib.IterationsTooGreat =>
      inl (OverflowError "iteration value is too great.")
  end.

(** *** Credential store *)

Definition user_columns : list string := ["username"; "salt"; "hash"; "iterations"].

Definition load_users : M DataFrame :=
  f <- gets users_csv ;;
  match f with
  | None => ret (empty_frame user_columns)
  | Some csv =>
      ret (foldl (fun df c =>
                    if has_column c df then df else assign_scalar c (Str "") df)
                 (read_csv csv) user_columns)
  end.

Definition verify_password_pbkdf2
    (password : string) (salt_hex hash_hex : option cell) (iterations : Z)
  : exn + bool :=
  let attempt :=
    pure_bind (str_encode salt_hex) (fun b => binascii_unhexlify (decode b)) in
  let salt :=
    match attempt with
    | inr b => inr b
    | inl e => if is_Exception e then str_encode salt_hex else inl e
    end in
  pure_bind salt (fun salt =>
  pure_bind (hashlib_pbkdf2_hmac (encode password) salt iterations) (fun dk =>
  inr (eq_str hash_hex (hexlify dk)))).

Definition add_user_to_csv (username password : string) (iterations : Z)
  : M unit :=
  rnd <- urandom 16 ;;
  let salt := hexlify rnd in
  salt_bytes <- lift (binascii_unhexlify salt) ;;
  dk <- lift (hashlib_pbkdf2_hmac (encode password) salt_bytes iterations) ;;
  let hash_hex := hexlify dk in
  let row := [ ("username", Str username); ("salt", Str salt);
               ("hash", Str hash_hex); ("iterations", Str (str_of_Z iterations)) ] in
  f <- gets users_csv ;;
  df <- match f with
        | Some csv =>
            let df := read_csv csv in
            if str_in username (get "username" df)
            then raise (ValueError "Username already exists.")
            else ret (concat df (frame_of_record row))
        | None => ret (frame_of_record row)
        end ;;
  modify (set_users_csv (to_csv df)).

Definition delete_user_from_csv (username : string) : M unit :=
  df <- load_users ;;
  if negb (str_in username (col "username" df))
  then raise (ValueError "Username not found.")
  else
    let df := filter_rows ((fun v => negb (eq_str v username)) <$> col "username" df) df in
    modify (set_users_csv (to_csv df)).

(** The sidebar login form: the two text inputs and the button.  The
    messages of the sidebar are recorded on the page like the others.
    Reading the users cannot fail here, so the handler around
    [load_users] has nothing to catch. *)
Definition login_ui (username password : string) (login_btn : bool)
  : M (bool * option string) :=
  if login_btn then
    users_df <- load_users ;;
    let row := filter_rows ((fun v => eq_str v username) <$> col "username" users_df)
                           users_df in
    if df_empty row then
      render (st_error "Invalid username or password.") ;;;
      ret (false, None)
    else
      match rows row with
      | [] => raise (IndexError "single positional indexer is out-of-bounds")
      | r :: _ =>
          it <- lift (py_int (r !! "iterations")) ;;
          ok <- lift (verify_password_pbkdf2 password (r !! "salt") (r !! "hash") it) ;;
          if ok then
            modify (set_session_username username) ;;;
            render (st_success (String.append "Signed in as " username)) ;;;
            ret (true, Some username)
          else
            render (st_error "Invalid username or password.") ;;;
            ret (false, None)
      end
  else ret (false, None).

Definition is_admin_user (username : string) : M bool :=
  df <- load_users ;;
  if df_empty df then ret false
  else
    match rows df with
    | [] => raise (IndexError "single positional indexer is out-of-bounds")
    | r :: _ => ret (eq_str (r !! "username") username)
    end.

(** *** Inventory store *)

Definition default_cols : list string :=
  [ "Item ID"; "Item Name"; "Category"; "Quantity"; "Unit"; "Reorder Level";
    "Supplier"; "Last Restocked"; "Expiry Date"; "Storage Location"; "Remarks" ].

Definition numeric_cols : list string := ["Quantity"; "Reorder Level"].

(** [df[c] = pd.to_numeric(df[c], errors="coerce").fillna(0).astype(int)]
    guarded by [if c in df.columns]. *)
Definition coerce_column (c : string) (df : DataFrame) : exn + DataFrame :=
  if has_column c df then
    match coerce_int (col c df) with
    | Some vals => inr (assign c vals df)
    | None =>
        inl (ValueError "Cannot convert non-finite values (NA or inf) to integer")
    end
  else inr df.

(** The function is wrapped in [st.cache_data(ttl=600)]; what is modelled
    is the function body, the value a fresh evaluation returns. *)
Definition load_inventory : M DataFrame :=
  f <- gets inventory_xlsx ;;
  match f with
  | None => ret (empty_frame default_cols)
  | Some sheet =>
      let df := read_excel_str sheet in
      df <- lift (coerce_column "Quantity" df) ;;
      df <- lift (coerce_column "Reorder Level" df) ;;
      let df :=
        foldl (fun df c =>
                 if has_column c df then df
                 else assign_scalar c
                        (if bool_decide (c ∈ numeric_cols) then Int 0 else Str "")
                        df)
              df default_cols in
      ret (select default_cols df)
  end.

Definition newline : string := String (ascii_of_N 10) EmptyString.
Definition LF : ascii := ascii_of_N 10.
Definition CR : ascii := ascii_of_N 13.

Definition log_action (user action_desc details : string) : M unit :=
  t <- gets clock ;;
  let now := strftime_datetime t in
  let details_clean := replace_char CR " " (replace_char LF " " details) in
  let entry := String.append now (String.append ", "
                 (String.append user (String.append ", " action_desc))) in
  let entry := if String.eqb details_clean EmptyString then entry
               else String.append entry (String.append ", " details_clean) in
  modify (append_audit_log (String.append entry newline)).

(** [max(nums)] for a non-empty list of naturals. *)
Definition py_max (nums : list N) : N := foldr N.max 0%N nums.

(** One turn of the loop over the existing ids. *)
Definition scan_id (nums : list N) (v : string) : list N :=
  if startswith "LAB" (upper v) && isdigit (slice_from 3 v)
  then match int_of_digits (slice_from 3 v) with
       | Some n => nums ++ [n]
       | None => nums
       end
  else nums.

Definition next_item_id (df : DataFrame) : string :=
  let existing := astype_str <$> get "Item ID" df in
  let nums := foldl scan_id [] existing in
  let n := match nums with
           | [] => 1%N
           | _ => (py_max nums + 1)%N
           end in
  String.append "LAB" (format_03d n).

Definition save_inventory (df : DataFrame) (action_desc details : string)
  : M unit :=
  modify (set_inventory_xlsx (to_excel df)) ;;;
  modify (set_session_inventory df) ;;;
  u <- gets session_username ;;
  log_action (default "Unknown User" u) action_desc details ;;;
  render (st_toast "Inventory updated!") ;;;
  raise Rerun.

(** *** Manage Inventory tab *)

Definition cat (l : list string) : string := foldr String.append EmptyString l.

(** The widgets of the Add Item form; the number inputs have
    [min_value=0]. *)
Record AddForm := MkAddForm {
  add_name : string;
  add_cat : string;
  add_qty : N;
  add_unit : string;
  add_reorder : N;
  add_supplier : string;
  add_rest : Z;
  add_exp : string;
  add_loc : string;
  add_remarks : string;
  add_submitted : bool
}.

Definition add_item_row (new_id : string) (f : AddForm) : list (string * cell) :=
  [ ("Item ID", Str new_id);
    ("Item Name", Str (add_name f));
    ("Category", Str (add_cat f));
    ("Quantity", Int (Z.of_N (add_qty f)));
    ("Unit", Str (add_unit f));
    ("Reorder Level", Int (Z.of_N (add_reorder f)));
    ("Supplier", Str (add_supplier f));
    ("Last Restocked", Str (strftime_date (add_rest f)));
    ("Expiry Date", Str (if String.eqb (add_exp f) EmptyString then "N/A" else add_exp f));
    ("Storage Location", Str (add_loc f));
    ("Remarks", Str (add_remarks f)) ].

(** The table the Add Item form hands to [save_inventory]. *)
Definition add_item_table (df : DataFrame) (f : AddForm) : DataFrame :=
  concat df (frame_of_record (add_item_row (next_item_id df) f)).

Definition add_item (df : DataFrame) (f : AddForm) : M unit :=
  let new_id := next_item_id df in
  if add_submitted f then
    let df' := add_item_table df f in
    let details :=
      cat [ "ItemID="; new_id; "; Name="; add_name f;
            "; Qty="; str_of_N (add_qty f); "; Unit="; add_unit f;
            "; Reorder="; str_of_N (add_reorder f); "; Category="; add_cat f;
            "; Supplier="; add_supplier f ] in
    save_inventory df'
      (cat ["Added new item: "; new_id; " ("; add_name f; ")"]) details
  else ret tt.

(** [if v:] on a selectbox value. *)
Definition truthy (v : option cell) : bool :=
  match v with
  | Some (Str s) => negb (String.eqb s EmptyString)
  | Some (Int z) => negb (z =? 0)
  | None => true
  end.

(** [int(v) if pd.notna(v) else 0]. *)
Definition int_or_zero (v : option cell) : exn + Z :=
  match v with
  | None => inr 0
  | _ => py_int v
  end.

Record EditForm := MkEditForm {
  e_qty : N;
  e_reorder : N;
  e_remarks : string;
  save_btn : bool
}.

(** [df.loc[df["Item ID"] == sel_id, ["Quantity","Reorder Level","Remarks"]] = ...]
    on a table that has the three columns, as it has once the reads of
    the selected row have passed. *)
Definition edit_item_table (df : DataFrame) (sel_id : option cell) (f : EditForm)
  : DataFrame :=
  Frame (columns df)
        ((fun r : gmap string cell =>
            if eq_cell (r !! "Item ID") sel_id
            then <["Remarks" := Str (e_remarks f)]>
                   (<["Reorder Level" := Int (Z.of_N (e_reorder f))]>
                      (<["Quantity" := Int (Z.of_N (e_qty f))]> r))
            else r) <$> rows df).

Definition arrow : string :=
  String (ascii_of_N 226) (String (ascii_of_N 134) (String (ascii_of_N 146) EmptyString)).

Definition join_changes (changes : list string) : string :=
  match changes with
  | [] => "No changes made"
  | c :: r => foldl (fun acc x => cat [acc; "; "; x]) c r
  end.

(** [row[c]] on a row of [df]: a [KeyError] for a label the table lacks. *)
Definition row_get (df : DataFrame) (row : gmap string cell) (c : string)
  : exn + option cell :=
  if has_column c df then inr (row !! c) else inl (KeyError c).

(** What the Edit Item form reads off the selected row before it is
    drawn, in the order of the script: the name, the quantity, the
    reorder level and the remarks. *)
Definition edit_reads (df : DataFrame) (row : gmap string cell)
  : exn + (string * Z * Z * string) :=
  pure_bind (row_get df row "Item Name") (fun name =>
  pure_bind (row_get df row "Quantity") (fun qty =>
  pure_bind (int_or_zero qty) (fun old_qty =>
  pure_bind (row_get df row "Reorder Level") (fun reorder =>
  pure_bind (int_or_zero reorder) (fun old_reorder =>
  pure_bind (row_get df row "Remarks") (fun remarks =>
  inr (astype_str name, old_qty, old_reorder,
       match remarks with
       | None => EmptyString
       | v => astype_str v
       end))))))).

Definition edit_item (df : DataFrame) (sel_id : option cell) (f : EditForm)
  : M unit :=
  if df_empty df then render (st_info "No items to edit.")
  else if negb (has_column "Item ID" df) then raise (KeyError "Item ID")
  else if truthy sel_id then
    match rows (filter_rows ((fun v => eq_cell v sel_id) <$> col "Item ID" df) df) with
    | [] => raise (IndexError "single positional indexer is out-of-bounds")
    | row :: _ =>
        old <- lift (edit_reads df row) ;;
        let '(old_name, old_qty, old_reorder, old_remarks) := old in
        render (st_form (String.append "edit_form_" (astype_str sel_id))) ;;;
        if save_btn f then
          let df' := edit_item_table df sel_id f in
          let changes :=
            (if old_qty =? Z.of_N (e_qty f) then []
             else [cat ["Quantity: "; str_of_Z old_qty; " "; arrow; " "; str_of_N (e_qty f)]])
            ++ (if old_reorder =? Z.of_N (e_reorder f) then []
                else [cat ["Reorder Level: "; str_of_Z old_reorder; " "; arrow; " ";
                           str_of_N (e_reorder f)]])
            ++ (if String.eqb old_remarks (e_remarks f) then []
                else [cat ["Remarks: '"; old_remarks; "' "; arrow; " '"; e_remarks f; "'"]]) in
          save_inventory df'
            (cat ["Edited item "; astype_str sel_id; " ("; old_name; ")"])
            (join_changes changes)
        else ret tt
    end
  else ret tt.

(** [df[df["Item ID"] != del_id].reset_index(drop=True)]. *)
Definition delete_item_table (df : DataFrame) (del_id : option cell) : DataFrame :=
  filter_rows ((fun v => negb (eq_cell v del_id)) <$> col "Item ID" df) df.

(** What Delete Item reads off the row it is about to delete: the name
    and the quantity. *)
Definition delete_reads (df : DataFrame) (item_row : gmap string cell)
  : exn + (string * Z) :=
  pure_bind (row_get df item_row "Item Name") (fun name =>
  pure_bind (row_get df item_row "Quantity") (fun qty =>
  pure_bind (int_or_zero qty) (fun item_qty =>
  inr (astype_str name, item_qty)))).

Definition delete_item (df : DataFrame) (del_id : option cell) (clicked : bool)
  : M unit :=
  if df_empty df then render (st_info "No items to delete.")
  else if negb (has_column "Item ID" df) then raise (KeyError "Item ID")
  else if truthy del_id && clicked then
    details <-
      match rows (filter_rows ((fun v => eq_cell v del_id) <$> col "Item ID" df) df) with
      | [] => ret (String.append "ItemID=" (astype_str del_id))
      | item_row :: _ =>
          item <- lift (delete_reads df item_row) ;;
          ret (cat [ "ItemID="; astype_str del_id; "; Name="; fst item;
                     "; Qty="; str_of_Z (snd item) ])
      end ;;
    save_inventory (delete_item_table df del_id)
      (String.append "Deleted item: " (astype_str del_id)) details
  else ret tt.

(** The table a confirmed upload hands to [save_inventory]. *)
Definition bulk_upload_table (new_df : DataFrame) : exn + DataFrame :=
  pure_bind (coerce_column "Quantity" new_df) (coerce_column "Reorder Level").

(** Bulk Upload: the file picker's content, if any, and the
    "Save uploaded inventory" button. *)
Definition bulk_upload (uploaded : option DataFrame) (save_clicked : bool)
    (username : string) : M unit :=
  match uploaded with
  | None => ret tt
  | Some file =>
      try_except
        (let new_df := read_excel file in
         render (st_write "Preview of uploaded file:") ;;;
         render (st_dataframe (head new_df)) ;;;
         if save_clicked then
           if negb (has_column "Item ID" new_df) then
             render (st_error "Uploaded file must contain 'Item ID' column.")
           else
             let n := length (rows new_df) in
             new_df <- lift (bulk_upload_table new_df) ;;
             save_inventory new_df
               (String.append "Bulk inventory upload by " username)
               (String.append "Rows=" (str_of_N (N.of_nat n)))
         else ret tt)
        (fun e => render (st_error (String.append "Could not read uploaded file: " (exn_text e))))
  end.

(** *** User Management tab *)

Record UserForm := MkUserForm {
  new_username : string;
  new_password : string;
  create_sub : bool;
  sel_del : string;
  delete_clicked : bool
}.

Definition user_management (admin_mode : bool) (username : string) (f : UserForm)
  : M unit :=
  render (st_markdown "User Management") ;;;
  (if negb admin_mode then
     render (st_warning "Only the admin can manage users.") ;;;
     raise Stop
   else ret tt) ;;;
  render (st_subheader "Existing users") ;;;
  users <- load_users ;;
  render (st_dataframe users) ;;;
  render (st_markdown "### Create new user") ;;;
  render (st_form "create_user_form") ;;;
  (if create_sub f then
     try_except
       (add_user_to_csv (new_username f) (new_password f) PBKDF2_ITER_DEFAULT ;;;
        log_action username (String.append "Created new user: " (new_username f))
                   EmptyString ;;;
        render (st_success (cat ["User '"; new_username f; "' created."])) ;;;
        raise Rerun)
       (fun e => render (st_error (String.append "Could not create user: " (exn_text e))))
   else ret tt) ;;;
  render (st_markdown "### Delete user") ;;;
  (if negb (String.eqb (sel_del f) EmptyString) && delete_clicked f then
     try_except
       (delete_user_from_csv (sel_del f) ;;;
        log_action username (String.append "Deleted user: " (sel_del f)) EmptyString ;;;
        render (st_success (cat ["User '"; sel_del f; "' deleted."])) ;;;
        raise Rerun)
       (fun e => render (st_error (String.append "Could not delete user: " (exn_text e))))
   else ret tt) ;;;
  render (st_markdown "</div>").

(** The script computes [admin_mode = is_admin_user(username)] before it
    draws the selected tab; this is the run with the fifth tab selected. *)
Definition script_user_management (username : string) (f : UserForm) : M unit :=
  admin_mode <- is_admin_user username ;;
  user_management admin_mode username f.

(** *** Expiry Monitor tab *)

Section ExpiryMonitor.

(** [pd.to_datetime(series, errors="coerce")]: the library chooses how to
    read the column; all that is used of it is the timestamp, or NaT, it
    gives at each position. *)
Variable to_datetime : list (option cell) -> list (option Z).

Definition days_to_expiry (now : Z) (parsed : option cell) : option cell :=
  match parsed with
  | Some (Int t) => Some (Int (timedelta_days (t - now)))
  | _ => None
  end.

(** [exp_df] with its two derived columns. *)
Definition expiry_frame (now : Z) (df : DataFrame) : DataFrame :=
  let exp_df := df in
  let exp_df :=
    assign "Expiry Parsed"
           ((fun t : option Z => Int <$> t) <$> to_datetime (col "Expiry Date" exp_df))
           exp_df in
  assign "Days to Expiry" (days_to_expiry now <$> col "Expiry Parsed" exp_df) exp_df.

Definition notna (v : option cell) : bool :=
  match v with
  | Some _ => true
  | None => false
  end.

(** [series <= k] and [series > k] on a numeric column: false on NaN. *)
Definition le_num (k : Z) (v : option cell) : bool :=
  match v with
  | Some (Int d) => d <=? k
  | _ => false
  end.

Definition gt_num (k : Z) (v : option cell) : bool :=
  match v with
  | Some (Int d) => k <? d
  | _ => false
  end.

Definition expiry_mask (exp_filter : string) (exp_df : DataFrame) : list bool :=
  let days := col "Days to Expiry" exp_df in
  if String.eqb exp_filter "All with expiry dates" then
    notna <$> col "Expiry Parsed" exp_df
  else if String.eqb exp_filter "Expired (<=0 days)" then
    le_num 0 <$> days
  else if String.eqb exp_filter "Expiring <30 days" then
    (fun v => gt_num 0 v && le_num 30 v) <$> days
  else
    (fun v => gt_num 0 v && le_num 90 v) <$> days.

(** [pd.cut(x, bins=bins, labels=labels)] on one value: the label of the
    half-open interval (lo, hi] that holds it, NaN outside all of them. *)
Fixpoint cut (bins : list Z) (labels : list string) (x : Z) : option string :=
  match bins, labels with
  | lo :: ((hi :: _) as rest), lab :: labs =>
      if (lo <? x) && (x <=? hi) then Some lab else cut rest labs x
  | _, _ => None
  end.

Definition bins : list Z := [-99999; 0; 30; 90; 365; 999999].
Definition labels : list string :=
  ["Expired"; "<30 days"; "30-90 days"; "3-12 months"; ">1 year"].

Definition expiry_status (days : option cell) : option cell :=
  let x := match days with
           | Some (Int d) => d
           | _ => 999999
           end in
  Str <$> cut bins labels x.

Record ExpiryView := MkExpiryView {
  exp_df : DataFrame;
  show : list (nat * gmap string cell);
  status_counts : list (string * nat)
}.

Definition expiry_monitor (now : Z) (df : DataFrame) (exp_filter : string)
  : exn + ExpiryView :=
  if has_column "Expiry Date" df then
    let exp_df := expiry_frame now df in
    let show := boolean_index (expiry_mask exp_filter exp_df) exp_df in
    let exp_df :=
      assign "Expiry Status" (expiry_status <$> col "Days to Expiry" exp_df) exp_df in
    let counts :=
      (fun lab =>
         (lab, length (List.filter (fun v => eq_str v lab) (col "Expiry Status" exp_df))))
        <$> labels in
    inr (MkExpiryView exp_df show counts)
  else inl (KeyError "Expiry Date").

End ExpiryMonitor.

(** A column reader for [to_datetime] that accepts the ["%Y-%m-%d"]
    layout and nothing else. *)
Definition to_datetime_ymd (s : list (option cell)) : list (option Z) :=
  (fun v => match v with
            | Some (Str x) => parse_ymd x
            | _ => None
            end) <$> s.

End VC.

(* ===================================================================== *)
(** ** Vocabulary of the statements, and sample data *)
(* ===================================================================== *)

Module Obs.
Import Py Pandas Datetime VC.

(** The value a computation returns, if it returns. *)
Definition returned {A} (m : M A) (w : World) : option A :=
  match fst (m w) with
  | inr a => Some a
  | inl _ => None
  end.

(** The table [load_inventory] returns in a given world. *)
Definition loaded (w : World) : DataFrame :=
  default (empty_frame []) (returned load_inventory w).

(** The table [load_users] returns in a given world. *)
Definition users_table (w : World) : DataFrame :=
  match fst (load_users w) with
  | inr df => df
  | inl _ => empty_frame []
  end.

(** The random bytes the next [os.urandom(16)] yields. *)
Definition next_salt (w : World) : list byte :=
  map (entropy w) (seq (entropy_pos w) 16).

(** The record [add_user_to_csv] appends. *)
Definition user_record (username : string) (salt dk : list byte) (iterations : Z)
  : list (string * cell) :=
  [ ("username", Str username); ("salt", Str (hexlify salt));
    ("hash", Str (hexlify dk)); ("iterations", Str (str_of_Z iterations)) ].

(** A row as it comes back from [to_csv] followed by [read_csv]. *)
Definition reread (cols : list string) (r : gmap string cell) : gmap string cell :=
  row_of_fields cols ((fun c => csv_field (r !! c)) <$> cols).

(** The key PBKDF2 derives from a password under a salt. *)
Definition derived_key (password : string) (salt : list byte) (iterations : Z)
  : list byte :=
  Hashlib.pbkdf2_block (encode password) salt (Z.to_pos iterations).

(** The field a record of a CSV file holds under a header label; of two
    columns with the same label the first counts. *)
Fixpoint csv_lookup (k : string) (hdr fields : list string) : option string :=
  match hdr, fields with
  | c :: hdr', x :: fields' =>
      if String.eqb c k then Some x else csv_lookup k hdr' fields'
  | _, _ => None
  end.

(** The number the scan of [next_item_id] reads off one id, if any. *)
Definition lab_number (v : string) : option N :=
  if startswith "LAB" (upper v) && isdigit (slice_from 3 v)
  then int_of_digits (slice_from 3 v)
  else None.

(** The id pattern in words: the letters L, A, B in either case, then one
    or more decimal digits, which spell the number. *)
Inductive lab_pattern : string -> N -> Prop :=
  | lab_pattern_intro (l a b : ascii) (ds : string) (n : N) :
      upper_char l = "L"%char ->
      upper_char a = "A"%char ->
      upper_char b = "B"%char ->
      isdigit ds = true ->
      int_of_digits ds = Some n ->
      lab_pattern (String l (String a (String b ds))) n.

(** The Item ID column as text, the way [next_item_id] reads it. *)
Definition existing_ids (df : DataFrame) : list string :=
  astype_str <$> get "Item ID" df.

(** No two rows share an Item ID. *)
Definition unique_ids (df : DataFrame) : Prop := NoDup (col "Item ID" df).

(** [z] is the integer a cell is coerced to: what [astype(int)] makes of
    the number the cell reads as, or of 0 when it reads as none. *)
Definition coerces_to (v : option cell) (z : Z) : Prop :=
  to_int64 (default (Finite 0) (to_numeric_cell v)) = Some z.

(** [dst] holds, row by row, the integers the cells of [src] are coerced
    to. *)
Definition coerced_col (src dst : list (option cell)) : Prop :=
  length dst = length src
  /\ forall i v, src !! i = Some v ->
                 exists z, dst !! i = Some (Some (Int z)) /\ coerces_to v z.

(** A text of blanks only, the empty one included. *)
Fixpoint blank (s : string) : bool :=
  match s with
  | EmptyString => true
  | String c r => is_blank c && blank r
  end.

(** The cell holds the integer [n]: as a number, or as its decimal text,
    which may stand between blanks. *)
Definition holds_integer (v : option cell) (n : Z) : Prop :=
  v = Some (Int n)
  \/ exists a b, blank a = true /\ blank b = true
                 /\ v = Some (Str (String.append a (String.append (str_of_Z n) b))).

(** One turn of the loop of [load_inventory] that supplies the columns
    the sheet lacks. *)
Definition ensure_col (df : DataFrame) (c : string) : DataFrame :=
  if has_column c df then df
  else assign_scalar c (if bool_decide (c ∈ numeric_cols) then Int 0 else Str "") df.

(** The value that loop gives a column it has to create. *)
Definition default_cell (c : string) : cell :=
  if bool_decide (c ∈ numeric_cols) then Int 0 else Str "".

(** The timestamp, or NaT, a column reader gives the row at position [i]. *)
Definition parsed_at (to_datetime : list (option cell) -> list (option Z))
    (df : DataFrame) (i : nat) : option Z :=
  mjoin (to_datetime (col "Expiry Date" df) !! i).

(** A computation only ever adds to the page. *)
Definition page_extends {A} (m : M A) : Prop :=
  forall w, exists tail, page (snd (m w)) = page w ++ tail.

(** *** Sample worlds and tables *)

Definition no_entropy : nat -> byte := fun _ => x00.

(** Nothing on disk, nobody signed in. *)
Definition fresh_world : World :=
  MkWorld None None [] None None [] 0 no_entropy 0.

Definition world_with_inventory (sheet : DataFrame) : World :=
  MkWorld None (Some sheet) [] None None [] 0 no_entropy 0.

Definition world_with_users (csv : Csv) : World :=
  MkWorld (Some csv) None [] None None [] 0 no_entropy 0.

(** The password "pw" followed by one NUL character. *)
Definition pw_nul : string := String "p" (String "w" (String Ascii.zero EmptyString)).

Definition item (id : string) : gmap string cell := {[ "Item ID" := Str id ]}.

Definition stocked (id qty : string) : gmap string cell :=
  <["Quantity" := Str qty]> (item id).

Definition dated (id expiry : string) : gmap string cell :=
  <["Expiry Date" := Str expiry]> (item id).

(** One item whose quantity cell holds the text "-5". *)
Definition negative_sheet : DataFrame :=
  Frame ["Item ID"; "Quantity"] [stocked "LAB001" "-5"].

(** One item whose quantity cell holds the text " 7 ", blanks included. *)
Definition padded_sheet : DataFrame :=
  Frame ["Item ID"; "Quantity"] [stocked "LAB001" " 7 "].

(** Two rows with the same id. *)
Definition duplicate_sheet : DataFrame :=
  Frame ["Item ID"] [item "LAB001"; item "LAB001"].


Definition two_items : DataFrame :=
  Frame default_cols [item "LAB001"; item "LAB003"].

Definition one_user : Csv :=
  MkCsv user_columns [["alice"; "00"; "ab"; "1"]].

Definition two_users : Csv :=
  MkCsv user_columns [["alice"; "00"; "ab"; "1"]; ["bob"; "01"; "cd"; "1"]].

(** 2025-10-22 at 01:00, and a table with a date ninety days on and a
    text that is no date. *)
Definition sample_now : Z := 20383 * day_us + 3600 * 1000000.

Definition dated_items : DataFrame :=
  Frame default_cols [dated "LAB001" "2026-01-20"; dated "LAB002" "soon"].

End Obs.

(* ===================================================================== *)
(** ** The top of the dashboard script: login gate and session table *)
(* ===================================================================== *)

Module Script.
Import Py Pandas Datetime VC.

(** The widgets of the sidebar: the login form, drawn when the session
    has no username, and the Logout button, drawn when it has one. *)
Record Sidebar := MkSidebar {
  login_username : string;
  login_password : string;
  login_btn : bool;
  logout_btn : bool
}.

(** [del st.session_state["username"]]. *)
Definition del_session_username (w : World) : World :=
  MkWorld (users_csv w) (inventory_xlsx w) (audit_log w) None
          (session_inventory w) (page w) (clock w) (entropy w) (entropy_pos w).

(** The block under "enforce login"; the value is what the variable
    [username] holds when the script goes on. *)
Definition enforce_login (s : Sidebar) : M (option string) :=
  u <- gets session_username ;;
  match u with
  | None =>
      r <- login_ui (login_username s) (login_password s) (login_btn s) ;;
      let '(logged_in, username) := r in
      if negb logged_in then
        render (st_info "Please log in from the sidebar to view or manage inventory.") ;;;
        raise Stop
      else ret username
  | Some username =>
      render (st_write (cat ["Signed in as **"; username; "**"])) ;;;
      (if logout_btn s then modify del_session_username ;;; raise Rerun
       else ret tt) ;;;
      ret (Some username)
  end.

(** The block under "LOAD DATA INTO SESSION", up to
    [df = st.session_state["inventory_df"].copy()]. *)
Definition load_session_inventory : M DataFrame :=
  s <- gets session_inventory ;;
  (match s with
   | None =>
       try_except
         (df <- load_inventory ;; modify (set_session_inventory df))
         (fun e =>
            render (st_error (String.append "Could not load inventory: " (exn_text e))) ;;;
            raise Stop)
   | Some _ => ret tt
   end) ;;;
  s <- gets session_inventory ;;
  match s with
  | Some df => ret df
  | None => raise (KeyError "inventory_df")
  end.

(** The script from the login gate to the table the tabs work on. *)
Definition prelude (s : Sidebar) : M (option string * DataFrame) :=
  username <- enforce_login s ;;
  df <- load_session_inventory ;;
  ret (username, df).

End Script.

(* ===================================================================== *)
(** ** create_users.py *)
(* ===================================================================== *)

Module CreateUsers.
Import Py Pandas Datetime VC.

Definition ITERATIONS : Z := 200000.

(** The terminal the script runs in: the lines still to be typed and the
    text printed so far. *)
Record Console := MkConsole {
  stdin : list string;
  stdout : list string
}.

(** The exceptions of the dashboard, and the one [input] raises at the
    end of the input. *)
Inductive error :=
  | Raised (e : exn)
  | EOFError.

Definition P (A : Type) : Type := Console * World -> (error + A) * (Console * World).

Definition pret {A} (a : A) : P A := fun s => (inr a, s).
Definition praise {A} (e : error) : P A := fun s => (inl e, s).
Definition pbind {A B} (m : P A) (k : A -> P B) : P B :=
  fun s =>
    match m s with
    | (inr a, s') => k a s'
    | (inl e, s') => (inl e, s')
    end.

Declare Scope proc_scope.
Delimit Scope proc_scope with proc.
Notation "x <- m ;; k" := (pbind m (fun x => k))
  (at level 100, m at next level, right associativity) : proc_scope.
Notation "m ;;; k" := (pbind m (fun _ => k))
  (at level 100, right associativity) : proc_scope.

(** A computation on the files, run from the script. *)
Definition on_files {A} (m : M A) : P A :=
  fun s =>
    match m (snd s) with
    | (inr a, w') => (inr a, (fst s, w'))
    | (inl e, w') => (inl (Raised e), (fst s, w'))
    end.

(** [print(s)]. *)
Definition print (s : string) : P unit :=
  fun st =>
    (inr tt, (MkConsole (stdin (fst st)) (stdout (fst st) ++ [String.append s newline]),
              snd st)).

(** [input(prompt)]: the prompt is printed and one line is read. *)
Definition input (prompt : string) : P string :=
  fun st =>
    let out := stdout (fst st) ++ [prompt] in
    match stdin (fst st) with
    | [] => (inl EOFError, (MkConsole [] out, snd st))
    | line :: rest => (inr line, (MkConsole rest out, snd st))
    end.

Local Open Scope proc_scope.

(** The message printed at the end is kept without its emoji. *)
Definition create_user (username password : string) : P unit :=
  rnd <- on_files (urandom 16) ;;
  let salt := hexlify rnd in
  salt_bytes <- on_files (lift (binascii_unhexlify salt)) ;;
  dk <- on_files (lift (hashlib_pbkdf2_hmac (encode password) salt_bytes ITERATIONS)) ;;
  let hash_hex := hexlify dk in
  let new_row := [ ("username", Str username); ("salt", Str salt);
                   ("hash", Str hash_hex); ("iterations", Str (str_of_Z ITERATIONS)) ] in
  f <- on_files (gets users_csv) ;;
  df <- match f with
        | Some csv =>
            let df := read_csv csv in
            if str_in username (get "username" df)
            then praise (Raised (ValueError (cat ["User '"; username; "' already exists."])))
            else pret (concat df (frame_of_record new_row))
        | None => pret (frame_of_record new_row)
        end ;;
  on_files (modify (set_users_csv (to_csv df))) ;;;
  print (cat ["User '"; username; "' created successfully."]).

(** The body of [if __name__ == "__main__":]. *)
Definition main : P unit :=
  line <- input "Enter new username: " ;;
  let username := strip line in
  line <- input "Enter password: " ;;
  let password := strip line in
  create_user username password.

End CreateUsers.

(* ===================================================================== *)
(** ** update_expiry_dates.py *)
(* ===================================================================== *)

Module UpdateExpiryDates.
Import Py Pandas Datetime VC.

(** [datetime(2025, 10, 22)]. *)
Definition TODAY : Z := days_from_civil 2025 10 22 * day_us.

(** [timedelta(days=k)]. *)
Definition days (k : Z) : Z := k * day_us.

Inductive error :=
  | FileNotFoundError (msg : string).

Section Script.

(** The generator of [random]: the number drawn by the [n]-th call is
    [randint n a b] when the call is [random.randint(a, b)] and
    [random n] when it is [random.random()]. *)
Variable randint : nat -> Z -> Z -> Z.
Variable random : nat -> Q.

(** Computations that draw numbers: the state counts the calls made. *)
Definition G (A : Type) : Type := nat -> A * nat.

Definition gret {A} (a : A) : G A := fun n => (a, n).
Definition gbind {A B} (m : G A) (k : A -> G B) : G B :=
  fun n => let '(a, n') := m n in k a n'.

Declare Scope gen_scope.
Delimit Scope gen_scope with gen.
Notation "x <- m ;; k" := (gbind m (fun x => k))
  (at level 100, m at next level, right associativity) : gen_scope.
Local Open Scope gen_scope.

Definition Qlt_bool (x y : Q) : bool := negb (Qle_bool y x).

Definition draw_randint (a b : Z) : G Z := fun n => (randint n a b, S n).
Definition draw_random : G Q := fun n => (random n, S n).

(** [[m for _ in range(k)]]. *)
Fixpoint repeat_draw {A} (k : nat) (m : G A) : G (list A) :=
  match k with
  | O => gret []
  | S j => x <- m ;; r <- repeat_draw j m ;; gret (x :: r)
  end.

Definition random_date_within (days_past days_future : Z) : G Z :=
  delta_days <- draw_randint (- days_past) days_future ;;
  gret (TODAY + days delta_days).

(** One turn of the loop over the expiry dates.  The thresholds 0.2 and
    0.5 are compared as exact numbers, which on doubles is the
    comparison the script makes. *)
Definition expiry_date : G Z :=
  chance <- draw_random ;;
  if Qlt_bool chance (1 # 5) then
    k <- draw_randint 1 90 ;; gret (TODAY - days k)
  else if Qlt_bool chance (1 # 2) then
    k <- draw_randint 1 90 ;; gret (TODAY + days k)
  else
    k <- draw_randint 120 720 ;; gret (TODAY + days k).

Definition date_cell (t : Z) : option cell := Some (Str (strftime_date t)).

(** The section "UPDATE DATES". *)
Definition update_dates (df : DataFrame) : G DataFrame :=
  df <- (if has_column "Last Restocked" df then
           vals <- repeat_draw (length (rows df))
                     (t <- random_date_within 90 180 ;; gret (date_cell t)) ;;
           gret (assign "Last Restocked" vals df)
         else gret df) ;;
  df <- (if has_column "Expiry Date" df then
           vals <- repeat_draw (length (rows df))
                     (t <- expiry_date ;; gret (date_cell t)) ;;
           gret (assign "Expiry Date" vals df)
         else gret df) ;;
  gret df.

(** The script: from the input file, if there is one, to the output file
    and the line printed. *)
Definition script (input_file : option DataFrame)
  : error + (DataFrame * list string) :=
  match input_file with
  | None => inl (FileNotFoundError "Could not find biomedical_lab_inventory.xlsx")
  | Some sheet =>
      let df := read_excel sheet in
      let df := fst (update_dates df 0%nat) in
      inr (to_excel df,
           [String.append "Updated inventory saved as biomedical_lab_inventory_updated.xlsx"
                          newline])
  end.

End Script.

End UpdateExpiryDates.

(* ===================================================================== *)
(** ** The Overview tab: the two counts behind its cards *)
(* ===================================================================== *)

Module Overview.
Import Py Pandas Datetime VC.

(** The exceptions of the dashboard, and the one a comparison of text
    with a number raises. *)
Inductive error :=
  | Raised (e : exn)
  | TypeError (msg : string).

(** [a <= b] on two cells of object columns: false when either is NaN,
    the order of the integers or of the texts otherwise. *)
Definition le_cell (a b : option cell) : error + bool :=
  match a, b with
  | None, _ | _, None => inr false
  | Some (Int x), Some (Int y) => inr (x <=? y)
  | Some (Str x), Some (Str y) => inr (String.leb x y)
  | _, _ => inl (TypeError "'<=' not supported between instances of 'str' and 'int'")
  end.

(** [(a <= b).sum()] on two columns of the same table. *)
Fixpoint count_le (a b : list (option cell)) : error + Z :=
  match a, b with
  | x :: a', y :: b' =>
      match le_cell x y, count_le a' b' with
      | inl e, _ => inl e
      | _, inl e => inl e
      | inr t, inr n => inr (if t then n + 1 else n)
      end
  | _, _ => inr 0
  end.

(** [series <= t] on a column of timestamps: false on NaT. *)
Definition le_timestamp (t : Z) (v : option cell) : bool :=
  match v with
  | Some (Int x) => x <=? t
  | _ => false
  end.

Section Cards.

Variable to_datetime : list (option cell) -> list (option Z).

(** [low_stock_count] and [soon_count] as the tab computes them, at the
    instant [now] that [datetime.today()] returns. *)
Definition overview_counts (now : Z) (df : DataFrame) : error + (Z * Z) :=
  match
    (if has_column "Quantity" df && has_column "Reorder Level" df
     then count_le (col "Quantity" df) (col "Reorder Level" df)
     else inr 0)
  with
  | inl e => inl e
  | inr low_stock_count =>
      if has_column "Expiry Date" df then
        let exp_df :=
          assign "Expiry Parsed"
                 ((fun t : option Z => Int <$> t) <$> to_datetime (col "Expiry Date" df))
                 df in
        let soon_count :=
          if has_column "Expiry Date" exp_df
          then Z.of_nat (length (rows (filter_rows
                                         (le_timestamp (now + 90 * day_us)
                                            <$> col "Expiry Parsed" exp_df)
                                         exp_df)))
          else 0 in
        inr (low_stock_count, soon_count)
      else inl (Raised (KeyError "Expiry Date"))
  end.

End Cards.

End Overview.

(* ===================================================================== *)
(** ** The page header: the logo as a data URI *)
(* ===================================================================== *)

Module Header.
Import Py.

(** The character of a 6-bit value in the Base64 alphabet. *)
Definition b64_char (n : Z) : ascii :=
  if n <? 26 then ascii_of_N (Z.to_N (65 + n))
  else if n <? 52 then ascii_of_N (Z.to_N (71 + n))
  else if n <? 62 then ascii_of_N (Z.to_N (n - 4))
  else if n =? 62 then "+"%char
  else "/"%char.

(** [base64.b64encode(b).decode()]: three bytes give four characters,
    and the last group is padded with "=". *)
Fixpoint b64encode (b : list byte) : string :=
  match b with
  | [] => EmptyString
  | [x] =>
      let n := byte_val x in
      String (b64_char (n / 4))
        (String (b64_char (n mod 4 * 16)) (String "=" (String "=" EmptyString)))
  | [x; y] =>
      let n := byte_val x in
      let m := byte_val y in
      String (b64_char (n / 4))
        (String (b64_char (n mod 4 * 16 + m / 16))
           (String (b64_char (m mod 16 * 4)) (String "=" EmptyString)))
  | x :: y :: z :: r =>
      let n := byte_val x in
      let m := byte_val y in
      let k := byte_val z in
      String (b64_char (n / 4))
        (String (b64_char (n mod 4 * 16 + m / 16))
           (String (b64_char (m mod 16 * 4 + k / 64))
              (String (b64_char (k mod 64)) (b64encode r))))
  end.

(** [get_base64_of_image(path)] on the bytes of the file; without the
    file, [open] fails. *)
Definition get_base64_of_image (file : option (list byte)) : option string :=
  b64encode <$> file.

(** [logo_html], given the logo file if it exists. *)
Definition logo_html (logo : option (list byte)) : string :=
  match logo with
  | None => EmptyString
  | Some _ =>
      match get_base64_of_image logo with
      | Some logo_base64 =>
          VC.cat [ "<img src='data:image/png;base64,"; logo_base64;
                   "' width='170' style='display:block;margin:0 auto 8px auto;'>" ]
      | None => EmptyString
      end
  end.

End Header.

(* ===================================================================== *)
(** ** Vocabulary of the further properties, and sample data *)
(* ===================================================================== *)

Module Props.
Import Py Pandas Datetime VC Obs.

(** The text holds a line break. *)
Fixpoint has_break (s : string) : bool :=
  match s with
  | EmptyString => false
  | String c r => Ascii.eqb c LF || Ascii.eqb c CR || has_break r
  end.

(** The line [log_action] writes, given the details as they are written
    (none when the text is empty). *)
Definition audit_entry (now : Z) (user action_desc details : string) : string :=
  cat [ strftime_datetime now; ", "; user; ", "; action_desc;
        (if String.eqb details EmptyString then EmptyString
         else String.append ", " details);
        newline ].

(** Two worlds that differ at most in the page shown and in the random
    bytes consumed. *)
Definition same_stores (w0 w : World) : Prop :=
  users_csv w0 = users_csv w
  /\ inventory_xlsx w0 = inventory_xlsx w
  /\ session_inventory w0 = session_inventory w
  /\ session_username w0 = session_username w
  /\ audit_log w0 = audit_log w
  /\ clock w0 = clock w.

(** An operation of the Manage Inventory tab, seen from the stores: it
    writes nothing, or it saves one table to the file and the session,
    logs one entry under the signed-in user and asks for a rerun. *)
Definition saves_or_leaves (m : M unit) (w : World) : Prop :=
  let w' := snd (m w) in
  users_csv w' = users_csv w
  /\ session_username w' = session_username w
  /\ ((fst (m w) <> inl Rerun
       /\ inventory_xlsx w' = inventory_xlsx w
       /\ session_inventory w' = session_inventory w
       /\ audit_log w' = audit_log w)
      \/ (fst (m w) = inl Rerun
          /\ exists df action_desc details,
               inventory_xlsx w' = Some df
               /\ session_inventory w' = Some df
               /\ has_break details = false
               /\ audit_log w'
                  = audit_log w
                    ++ [audit_entry (clock w)
                          (default "Unknown User" (session_username w))
                          action_desc details])).

(** The User Management tab, seen from the stores, where [r] is the
    outcome of a run started in [w]: the inventory and the session are
    untouched, and the users file changes only together with one entry
    of the audit log under the name of the signed-in user. *)
Definition users_audited (username : string) (f : UserForm) (admin_mode : bool)
    (w : World) (r : (exn + unit) * World) : Prop :=
  inventory_xlsx (snd r) = inventory_xlsx w
  /\ session_inventory (snd r) = session_inventory w
  /\ session_username (snd r) = session_username w
  /\ ((fst r <> inl Rerun
       /\ users_csv (snd r) = users_csv w
       /\ audit_log (snd r) = audit_log w)
      \/ (fst r = inl Rerun
          /\ admin_mode = true
          /\ exists action,
               (action = String.append "Created new user: " (new_username f)
                \/ action = String.append "Deleted user: " (sel_del f))
               /\ audit_log (snd r)
                  = audit_log w ++ [audit_entry (clock w) username action EmptyString])).

(** The status [pd.cut] gives a number of days, by its range. *)
Definition status_of_days (d : Z) : option string :=
  if d <=? -99999 then None
  else if d <=? 0 then Some "Expired"
  else if d <=? 30 then Some "<30 days"
  else if d <=? 90 then Some "30-90 days"
  else if d <=? 365 then Some "3-12 months"
  else if d <=? 999999 then Some ">1 year"
  else None.

(** The number a status badge of the Expiry Monitor shows. *)
Definition badge (v : ExpiryView) (lab : string) : nat :=
  default 0%nat (snd <$> List.find (fun p => String.eqb (fst p) lab) (status_counts v)).

(** A character a Base64 text may hold: a letter, a digit, "+", "/" or
    the padding "=". *)
Definition is_b64_char (c : ascii) : bool :=
  let n := code c in
  ((65 <=? n) && (n <=? 90)) || ((97 <=? n) && (n <=? 122))
  || ((48 <=? n) && (n <=? 57)) || (n =? 43) || (n =? 47) || (n =? 61).

Fixpoint all_b64 (s : string) : bool :=
  match s with
  | EmptyString => true
  | String c r => is_b64_char c && all_b64 r
  end.

(** The 6-bit value a character of the alphabet stands for. *)
Definition b64_val (c : ascii) : Z :=
  let n := code c in
  if (65 <=? n) && (n <=? 90) then n - 65
  else if (97 <=? n) && (n <=? 122) then n - 71
  else if (48 <=? n) && (n <=? 57) then n + 4
  else if n =? 43 then 62
  else if n =? 47 then 63
  else -1.

(** A restock date and an expiry date as update_expiry_dates.py draws
    them: a day at a distance from [TODAY] in the ranges of the script. *)
Definition restocked (v : option cell) : Prop :=
  exists k, -90 <= k <= 180
            /\ v = Some (Str (strftime_date
                                (UpdateExpiryDates.TODAY + UpdateExpiryDates.days k))).

Definition expiring (v : option cell) : Prop :=
  exists k, (-90 <= k <= -1 \/ 1 <= k <= 90 \/ 120 <= k <= 720)
            /\ v = Some (Str (strftime_date
                                (UpdateExpiryDates.TODAY + UpdateExpiryDates.days k))).

(** *** Sample data *)

(** Nothing on disk, and a session signed in under a name. *)
Definition signed_in (name : string) : World :=
  MkWorld None None [] (Some name) None [] 0 no_entropy 0.

(** A generator that always draws the lowest number allowed. *)
Definition lowest : nat -> Z -> Z -> Z := fun _ a _ => a.
Definition no_chance : nat -> Q := fun _ => 0%Q.

(** The dated sample table as update_expiry_dates.py rewrites it with
    that generator. *)
Definition updated_items : DataFrame :=
  match UpdateExpiryDates.script lowest no_chance (Some dated_items) with
  | inr (out, _) => out
  | inl _ => empty_frame []
  end.


(** A users file whose only record has no iteration count. *)
Definition blank_iterations : Csv :=
  MkCsv user_columns [["alice"; "00"; "ab"; ""]].

Definition edit_form : EditForm := MkEditForm 5 1 "checked" true.

(** A sheet whose quantity reads as an infinity. *)
Definition infinite_sheet : DataFrame :=
  Frame ["Item ID"; "Quantity"] [stocked "LAB001" "inf"].

End Props.

(* ===================================================================== *)
(** ** Facts about strings, hexadecimal and decimal text *)
(* ===================================================================== *)

Module PyFacts.
Import Py.

Lemma append_cons (c : ascii) (a b : string) :
  String.append (String c a) b = String c (String.append a b).
Proof. reflexivity. Qed.

Lemma append_nil (b : string) : String.append EmptyString b = b.
Proof. reflexivity. Qed.

Lemma append_length (a b : string) :
  String.length (String.append a b) = (String.length a + String.length b)%nat.
Proof.
  induction a as [|c a IH]; [reflexivity|].
  rewrite append_cons. cbn [String.length]. now rewrite IH.
Qed.

Lemma decode_encode (s : string) : decode (encode s) = s.
Proof. apply string_of_list_byte_of_string. Qed.

Lemma hex_byte_roundtrip (x : byte) :
  hex_val (hex_char (byte_val x / 16)) = Some (byte_val x / 16)
  /\ hex_val (hex_char (byte_val x mod 16)) = Some (byte_val x mod 16)
  /\ byte_of_Z (16 * (byte_val x / 16) + byte_val x mod 16) = x.
Proof. destruct x; repeat split; reflexivity. Qed.

Lemma unhexlify_hexlify (b : list byte) : unhexlify (hexlify b) = Some b.
Proof.
  induction b as [|x r IH]; [reflexivity|].
  cbn [hexlify unhexlify].
  destruct (hex_byte_roundtrip x) as (-> & -> & ->).
  now rewrite IH.
Qed.

Lemma hexlify_inj (a b : list byte) : hexlify a = hexlify b -> a = b.
Proof.
  intros H. apply (f_equal unhexlify) in H.
  rewrite !unhexlify_hexlify in H. congruence.
Qed.

Lemma hexlify_length (b : list byte) :
  String.length (hexlify b) = (2 * length b)%nat.
Proof. induction b as [|x r IH]; cbn [hexlify String.length length]; lia. Qed.

(** *** Decimal text *)

Lemma all_digits_string_of_uint (d : Decimal.uint) :
  all_digits (NilEmpty.string_of_uint d) = true.
Proof. induction d; cbn; auto. Qed.

Lemma str_of_N_nonempty (n : N) : str_of_N n <> EmptyString.
Proof.
  unfold str_of_N. destruct n as [|p]; [discriminate|].
  cbn [N.to_uint].
  pose proof (DecimalPos.Unsigned.to_uint_nonnil p) as Hn.
  destruct (Pos.to_uint p); [congruence | discriminate ..].
Qed.

Lemma isdigit_all_digits (s : string) :
  s <> EmptyString -> all_digits s = true -> isdigit s = true.
Proof. destruct s; [congruence | auto]. Qed.

Lemma isdigit_str_of_N (n : N) : isdigit (str_of_N n) = true.
Proof.
  apply isdigit_all_digits; [apply str_of_N_nonempty|].
  apply all_digits_string_of_uint.
Qed.

Lemma int_of_digits_str_of_N (n : N) : int_of_digits (str_of_N n) = Some n.
Proof.
  unfold int_of_digits, str_of_N.
  now rewrite NilEmpty.usu, DecimalN.Unsigned.of_to.
Qed.

Lemma str_of_N_head (n : N) :
  exists c r, str_of_N n = String c r /\ is_digit c = true.
Proof.
  pose proof (isdigit_str_of_N n) as H.
  destruct (str_of_N n) as [|c r]; [discriminate|].
  exists c, r. split; [reflexivity|].
  cbn in H. now apply andb_prop in H.
Qed.

Lemma int_of_str_digits (s : string) :
  isdigit s = true -> int_of_str s = option_map Z.of_N (int_of_digits s).
Proof.
  intros H. unfold int_of_str.
  destruct s as [|c r]; [discriminate|].
  assert (Hc : is_digit c = true) by (cbn in H; now apply andb_prop in H).
  rewrite H.
  destruct c as [[] [] [] [] [] [] [] []]; try reflexivity; discriminate Hc.
Qed.

Lemma int_of_str_str_of_Z (z : Z) : int_of_str (str_of_Z z) = Some z.
Proof.
  unfold str_of_Z. destruct (Z.ltb_spec z 0) as [Hneg|Hpos].
  - cbn [int_of_str]. rewrite isdigit_str_of_N, int_of_digits_str_of_N.
    cbn. f_equal. lia.
  - rewrite int_of_str_digits by apply isdigit_str_of_N.
    rewrite int_of_digits_str_of_N. cbn. f_equal. lia.
Qed.

(** *** [int] on the decimal text of an integer *)

Lemma is_digit_not_blank (c : ascii) : is_digit c = true -> is_blank c = false.
Proof.
  unfold is_digit, is_blank. intros [H1 H2]%andb_true_iff.
  apply Z.leb_le in H1, H2.
  destruct (Z.eqb_spec (code c) 32); [lia|].
  destruct (Z.leb_spec 9 (code c)); [|reflexivity].
  destruct (Z.leb_spec (code c) 13); [lia|reflexivity].
Qed.

Lemma drop_trailing_digits (s : string) :
  all_digits s = true -> drop_trailing_blanks s = s.
Proof.
  induction s as [|c s IH]; [reflexivity|]. cbn [all_digits].
  intros [Hc Hs]%andb_true_iff. cbn [drop_trailing_blanks].
  rewrite (IH Hs), (is_digit_not_blank c Hc). now destruct s.
Qed.

(** The decimal text of an integer has no blank to skip. *)
Lemma trim_str_of_Z (n : Z) :
  skip_blanks (str_of_Z n) = str_of_Z n
  /\ drop_trailing_blanks (str_of_Z n) = str_of_Z n.
Proof.
  unfold str_of_Z. destruct (n <? 0).
  - split; [reflexivity|]. cbn [drop_trailing_blanks].
    rewrite drop_trailing_digits by apply all_digits_string_of_uint.
    now destruct (str_of_N (Z.to_N (- n))).
  - destruct (str_of_N_head (Z.to_N n)) as (c & r & Hs & Hc). split.
    + rewrite Hs. cbn [skip_blanks]. now rewrite (is_digit_not_blank c Hc).
    + apply drop_trailing_digits, all_digits_string_of_uint.
Qed.

Lemma is_digit_not_underscore (c : ascii) :
  is_digit c = true -> Ascii.eqb c "_" = false.
Proof.
  intros H. destruct (Ascii.eqb_spec c "_") as [->|]; [discriminate H|reflexivity].
Qed.

Lemma literal_digits_all (s : string) :
  isdigit s = true -> literal_digits s = Some s.
Proof.
  induction s as [|c s IH]; [discriminate|]. cbn [isdigit all_digits].
  intros [Hc Hs]%andb_true_iff. cbn [literal_digits]. rewrite Hc.
  destruct s as [|u r]; [reflexivity|].
  assert (Hu : is_digit u = true) by (cbn in Hs; now apply andb_prop in Hs).
  rewrite (is_digit_not_underscore u Hu), IH by exact Hs. reflexivity.
Qed.

Lemma int_literal_str_of_Z (z : Z) : int_literal (str_of_Z z) = Some z.
Proof.
  unfold int_literal.
  destruct (trim_str_of_Z z) as [Hskip Hdrop]. rewrite Hskip, Hdrop.
  unfold str_of_Z. destruct (Z.ltb_spec z 0) as [Hneg|Hpos].
  - rewrite literal_digits_all by apply isdigit_str_of_N.
    rewrite int_of_digits_str_of_N. cbn. f_equal. lia.
  - destruct (str_of_N_head (Z.to_N z)) as (c & r & Hs & Hc).
    pose proof (literal_digits_all _ (isdigit_str_of_N (Z.to_N z))) as Hd.
    pose proof (int_of_digits_str_of_N (Z.to_N z)) as Hi.
    rewrite Hs in Hd, Hi |- *.
    destruct c as [[] [] [] [] [] [] [] []]; try discriminate Hc;
      cbv beta iota zeta; rewrite Hd, Hi; cbn [option_map]; f_equal; lia.
Qed.

(** *** Zero padding *)

Lemma all_digits_app (a b : string) :
  all_digits (String.append a b) = all_digits a && all_digits b.
Proof.
  induction a as [|c a IH]; [reflexivity|].
  rewrite append_cons. cbn [all_digits]. rewrite IH. apply andb_assoc.
Qed.

Lemma all_digits_zeros (k : nat) : all_digits (zeros k) = true.
Proof. induction k; cbn; auto. Qed.

Lemma append_nonempty_r (a b : string) :
  b <> EmptyString -> String.append a b <> EmptyString.
Proof. destruct a; [auto | rewrite append_cons; discriminate]. Qed.

Lemma isdigit_format_03d (n : N) : isdigit (format_03d n) = true.
Proof.
  unfold format_03d, zfill.
  apply isdigit_all_digits.
  - apply append_nonempty_r, str_of_N_nonempty.
  - rewrite all_digits_app, all_digits_zeros. apply all_digits_string_of_uint.
Qed.

Lemma int_of_digits_zeros (k : nat) (s : string) :
  int_of_digits (String.append (zeros k) s) = int_of_digits s.
Proof.
  induction k as [|k IH]; [reflexivity|].
  rewrite <- IH. cbn [zeros]. rewrite append_cons.
  unfold int_of_digits. cbn [NilEmpty.uint_of_string].
  destruct (NilEmpty.uint_of_string (String.append (zeros k) s)); reflexivity.
Qed.

Lemma int_of_digits_format_03d (n : N) : int_of_digits (format_03d n) = Some n.
Proof.
  unfold format_03d, zfill. rewrite int_of_digits_zeros.
  apply int_of_digits_str_of_N.
Qed.

Lemma format_03d_length (n : N) : (3 <= String.length (format_03d n))%nat.
Proof.
  unfold format_03d, zfill.
  assert (Hz : forall k, String.length (zeros k) = k)
    by (induction k; cbn; auto).
  rewrite append_length, Hz. lia.
Qed.

End PyFacts.

(* ===================================================================== *)
(** ** Facts about the digests *)
(* ===================================================================== *)

Module HashlibFacts.
Import Py Hashlib.

(** The model agrees with the published test vectors: FIPS 180-4 for the
    digest of "abc", RFC 4231 (test case 2) for HMAC, and the two-round
    PBKDF2 vector for "password" and "salt". *)
Example sha256_abc :
  hexlify (sha256 (encode "abc"))
  = "ba7816bf8f01cfea414140de5dae2223b00361a396177a9cb410ff61f20015ad".
Proof. vm_compute. reflexivity. Qed.

Example hmac_sha256_rfc4231 :
  hexlify (hmac_sha256 (encode "Jefe") (encode "what do ya want for nothing?"))
  = "5bdcc146bf60754e6a042426089575c75a003f089d2739839dec58b964ec3843".
Proof. vm_compute. reflexivity. Qed.

Example pbkdf2_two_rounds :
  hexlify (pbkdf2_block (encode "password") (encode "salt") 2)
  = "ae4d0c95af6b46d32d0adff928f06dd02a303f8ef3c251dfd6e2d85a95474c43".
Proof. vm_compute. reflexivity. Qed.

Lemma compress_length (h block : list Z) :
  length h = 8%nat -> length (compress h block) = 8%nat.
Proof.
  intros Hh. unfold compress. rewrite length_zip_with, Hh. reflexivity.
Qed.

Lemma blocks_length (fuel : nat) :
  forall h msg, length h = 8%nat -> length (blocks fuel h msg) = 8%nat.
Proof.
  induction fuel as [|f IH]; intros h msg Hh; cbn [blocks]; [assumption|].
  destruct msg; [assumption|]. apply IH, compress_length, Hh.
Qed.

Lemma bytes_of_words_length (ws : list Z) :
  length (concat (map bytes_of_word ws)) = (4 * length ws)%nat.
Proof.
  induction ws as [|x r IH]; [reflexivity|].
  cbn [map concat]. rewrite length_app, IH. cbn [bytes_of_word length]. lia.
Qed.

Lemma sha256_length (msg : list byte) : length (sha256 msg) = 32%nat.
Proof.
  unfold sha256. rewrite length_map, bytes_of_words_length.
  rewrite blocks_length; reflexivity.
Qed.

Lemma hmac_sha256_length (key msg : list byte) :
  length (hmac_sha256 key msg) = 32%nat.
Proof. unfold hmac_sha256. apply sha256_length. Qed.

Lemma xor_bytes_length (a b : list byte) :
  length a = 32%nat -> length b = 32%nat -> length (xor_bytes a b) = 32%nat.
Proof.
  intros Ha Hb. unfold xor_bytes. rewrite length_zip_with, Ha, Hb. reflexivity.
Qed.

Lemma pbkdf2_block_length (password salt : list byte) (c : positive) :
  length (pbkdf2_block password salt c) = 32%nat.
Proof.
  unfold pbkdf2_block.
  set (u1 := hmac_sha256 password _).
  assert (Hu1 : length u1 = 32%nat) by apply hmac_sha256_length.
  assert (Hinv : forall n,
             length (snd (Pos.iter (pbkdf2_step password) (u1, u1) n)) = 32%nat).
  { intros n.
    apply (Pos.iter_invariant n _ (pbkdf2_step password)
             (fun ut => length (snd ut) = 32%nat)); [|exact Hu1].
    intros [u t] Ht. cbn [pbkdf2_step fst snd] in *.
    apply xor_bytes_length; [exact Ht | apply hmac_sha256_length]. }
  destruct c; auto.
Qed.

(** A key shorter than the block is padded with zero bytes, so a trailing
    zero byte in the key does not change the padded key. *)
Lemma hmac_key_trailing_zero (key : list byte) :
  (length key < 64)%nat -> hmac_key (key ++ [x00]) = hmac_key key.
Proof.
  intros Hlen. unfold hmac_key.
  rewrite length_app. cbn [length].
  destruct (Z.ltb_spec 64 (Z.of_nat (length key + 1))) as [?|_]; [lia|].
  destruct (Z.ltb_spec 64 (Z.of_nat (length key))) as [?|_]; [lia|].
  rewrite length_app. cbn [length].
  replace (64 - length key)%nat with (S (64 - (length key + 1))) by lia.
  cbn [repeat]. now rewrite <- app_assoc.
Qed.

Lemma hmac_sha256_key_ext (k1 k2 msg : list byte) :
  hmac_key k1 = hmac_key k2 -> hmac_sha256 k1 msg = hmac_sha256 k2 msg.
Proof. intros H. unfold hmac_sha256. now rewrite H. Qed.

Lemma pos_iter_ext {A} (f g : A -> A) :
  (forall x, f x = g x) -> forall n x, Pos.iter f x n = Pos.iter g x n.
Proof.
  intros Hfg. induction n as [n IH|n IH|]; intros x; cbn [Pos.iter].
  - now rewrite Hfg, !IH.
  - now rewrite !IH.
  - apply Hfg.
Qed.

Lemma pbkdf2_block_key_ext (p1 p2 salt : list byte) (c : positive) :
  hmac_key p1 = hmac_key p2 ->
  pbkdf2_block p1 salt c = pbkdf2_block p2 salt c.
Proof.
  intros H. unfold pbkdf2_block.
  rewrite (hmac_sha256_key_ext p1 p2 _ H).
  destruct c; try reflexivity;
    f_equal; apply pos_iter_ext; intros [u t]; unfold pbkdf2_step;
    cbn [fst snd]; now rewrite (hmac_sha256_key_ext p1 p2 _ H).
Qed.

End HashlibFacts.

(* ===================================================================== *)
(** ** Facts about frames, CSV round trips and coercion *)
(* ===================================================================== *)

Module PandasFacts.
Import Py Pandas PyFacts.

Lemma has_column_true (c : string) (df : DataFrame) :
  has_column c df = true <-> c ∈ columns df.
Proof. unfold has_column. apply bool_decide_eq_true. Qed.

Lemma has_column_false (c : string) (df : DataFrame) :
  has_column c df = false <-> c ∉ columns df.
Proof. unfold has_column. apply bool_decide_eq_false. Qed.

Lemma lookup_set_cell (c k : string) (v : option cell) (r : gmap string cell) :
  set_cell c v r !! k = if decide (c = k) then v else r !! k.
Proof.
  unfold set_cell. destruct v as [x|].
  - rewrite lookup_insert. reflexivity.
  - rewrite lookup_delete. reflexivity.
Qed.

Lemma lookup_set_cell_eq (c : string) (v : option cell) (r : gmap string cell) :
  set_cell c v r !! c = v.
Proof. rewrite lookup_set_cell. now rewrite decide_True. Qed.

Lemma lookup_set_cell_ne (c k : string) (v : option cell) (r : gmap string cell) :
  c <> k -> set_cell c v r !! k = r !! k.
Proof. intros H. rewrite lookup_set_cell. now rewrite decide_False. Qed.

(** *** Column assignment *)

Lemma rows_assign_lookup (c : string) (vals : list (option cell))
    (df : DataFrame) (i : nat) :
  rows (assign c vals df) !! i
  = (fun r => set_cell c (mjoin (vals !! i)) r) <$> (rows df !! i).
Proof. unfold assign. cbn [rows]. rewrite list_lookup_imap. reflexivity. Qed.

Lemma rows_assign_length (c : string) (vals : list (option cell)) (df : DataFrame) :
  length (rows (assign c vals df)) = length (rows df).
Proof. unfold assign. cbn [rows]. apply length_imap. Qed.

Lemma col_lookup (c : string) (df : DataFrame) (i : nat) :
  col c df !! i = (fun r : gmap string cell => r !! c) <$> (rows df !! i).
Proof. unfold col. apply list_lookup_fmap. Qed.

Lemma col_length (c : string) (df : DataFrame) :
  length (col c df) = length (rows df).
Proof. unfold col. apply length_fmap. Qed.

Lemma col_assign_ne (c k : string) (vals : list (option cell)) (df : DataFrame) :
  c <> k -> col k (assign c vals df) = col k df.
Proof.
  intros Hne. apply list_eq. intros i.
  rewrite !col_lookup, rows_assign_lookup.
  destruct (rows df !! i) as [r|]; cbn; [|reflexivity].
  now rewrite lookup_set_cell_ne.
Qed.

Lemma col_assign_eq (c : string) (vals : list (option cell)) (df : DataFrame) (i : nat) :
  col c (assign c vals df) !! i
  = (fun _ => mjoin (vals !! i)) <$> (rows df !! i).
Proof.
  rewrite col_lookup, rows_assign_lookup.
  destruct (rows df !! i) as [r|]; cbn; [|reflexivity].
  now rewrite lookup_set_cell_eq.
Qed.

Lemma columns_assign_has (c k : string) (vals : list (option cell)) (df : DataFrame) :
  has_column k df = true -> has_column k (assign c vals df) = true.
Proof.
  rewrite !has_column_true. unfold assign. cbn [columns].
  destruct (has_column c df); [auto|]. intros H. apply elem_of_app. now left.
Qed.

Lemma columns_assign_self (c : string) (vals : list (option cell)) (df : DataFrame) :
  has_column c (assign c vals df) = true.
Proof.
  rewrite has_column_true. unfold assign. cbn [columns].
  destruct (has_column c df) eqn:E.
  - now apply has_column_true.
  - apply elem_of_app. right. apply list_elem_of_singleton. reflexivity.
Qed.

Lemma assign_scalar_lookup (c : string) (v : cell) (df : DataFrame)
    (i : nat) (r : gmap string cell) :
  rows df !! i = Some r ->
  rows (assign_scalar c v df) !! i = Some (<[c := v]> r).
Proof.
  intros Hr. unfold assign_scalar. rewrite rows_assign_lookup, Hr. cbn.
  rewrite lookup_replicate_2 by (apply lookup_lt_Some in Hr; exact Hr).
  reflexivity.
Qed.

(** *** Row selection by a mask *)

Lemma boolean_index_In (mask : list bool) (df : DataFrame)
    (i : nat) (r : gmap string cell) :
  In (i, r) (boolean_index mask df)
  <-> rows df !! i = Some r /\ mask !! i = Some true.
Proof.
  unfold boolean_index. rewrite filter_In. cbn [fst].
  rewrite <- list_elem_of_In, elem_of_lookup_imap.
  split.
  - intros [(j & y & Heq & Hy) Hm]. inversion Heq; subst.
    split; [assumption|]. destruct (mask !! j) as [[]|]; cbn in Hm; congruence.
  - intros [Hr Hm]. split; [eauto|]. now rewrite Hm.
Qed.

Lemma filter_imap_mask {A} (g : A -> bool) (l : list A) :
  forall (h : nat -> nat) (mask : list bool),
    (forall i x, l !! i = Some x -> mask !! h i = Some (g x)) ->
    (List.filter (fun ir : nat * A => default false (mask !! fst ir))
                 (imap (fun i r => (h i, r)) l)).*2
    = List.filter g l.
Proof.
  induction l as [|x l IH]; intros h mask Hm; [reflexivity|].
  rewrite imap_cons. cbn [List.filter fst].
  rewrite (Hm 0%nat x eq_refl). unfold default at 1. unfold id at 1.
  assert (Hrec : (List.filter (fun ir : nat * A => default false (mask !! fst ir))
                    (imap (fun i r => ((h ∘ S) i, r)) l)).*2 = List.filter g l).
  { apply IH. intros i y Hy. apply (Hm (S i) y Hy). }
  destruct (g x); [rewrite fmap_cons; cbn [snd]; f_equal|]; exact Hrec.
Qed.

Lemma rows_filter_rows_col (g : option cell -> bool) (c : string) (df : DataFrame) :
  rows (filter_rows (g <$> col c df) df)
  = List.filter (fun r : gmap string cell => g (r !! c)) (rows df).
Proof.
  unfold filter_rows, boolean_index. cbn [rows].
  apply (filter_imap_mask (fun r : gmap string cell => g (r !! c)) (rows df) id).
  intros i x Hx. unfold id, col.
  rewrite list_lookup_fmap, list_lookup_fmap, Hx. reflexivity.
Qed.

(** *** Missing-value spellings *)

Lemma is_na_length (s : string) : is_na s = true -> (String.length s <= 8)%nat.
Proof.
  unfold is_na. rewrite bool_decide_eq_true. unfold na_values.
  rewrite !elem_of_cons, elem_of_nil.
  intros H. repeat (destruct H as [->|H]; [cbn; lia|]). destruct H.
Qed.

Lemma na_filter_Some (s t : string) :
  na_filter s = Some (Str t) <-> s = t /\ is_na t = false.
Proof.
  unfold na_filter. split.
  - destruct (is_na s) eqn:E; [discriminate|]. intros [= <-]. auto.
  - intros [-> ->]. reflexivity.
Qed.

Lemma na_filter_not_Int (s : string) (z : Z) : na_filter s <> Some (Int z).
Proof. unfold na_filter. destruct (is_na s); discriminate. Qed.

Lemma is_na_hexlify (b : list byte) :
  (4 < length b)%nat -> is_na (hexlify b) = false.
Proof.
  intros Hb. destruct (is_na (hexlify b)) eqn:E; [|reflexivity].
  apply is_na_length in E. rewrite hexlify_length in E. lia.
Qed.

Lemma is_na_str_of_N (n : N) : is_na (str_of_N n) = false.
Proof.
  destruct (is_na (str_of_N n)) eqn:E; [|reflexivity].
  destruct (str_of_N_head n) as (c & r & Hs & Hc).
  pose proof (all_digits_string_of_uint (N.to_uint n)) as Hd.
  fold (str_of_N n) in Hd. revert E Hd.
  unfold is_na. rewrite bool_decide_eq_true. unfold na_values.
  rewrite !elem_of_cons, elem_of_nil. rewrite Hs.
  intros H. repeat (destruct H as [H|H]; [rewrite H; cbn; discriminate|]).
  destruct H.
Qed.

(** No spelling of a missing value is made of digits, signs and blanks
    only, the empty text apart. *)
Fixpoint numeral_chars (s : string) : bool :=
  match s with
  | EmptyString => true
  | String c r => (is_digit c || Ascii.eqb c "-" || is_blank c) && numeral_chars r
  end.

Lemma is_na_numeral (s : string) :
  numeral_chars s = true -> s <> EmptyString -> is_na s = false.
Proof.
  intros Hs Hne. destruct (is_na s) eqn:E; [|reflexivity].
  revert E. unfold is_na. rewrite bool_decide_eq_true. unfold na_values.
  rewrite !elem_of_cons, elem_of_nil. intros H.
  repeat (destruct H as [H|H];
          [subst s; first [now destruct Hne | discriminate Hs]|]).
  destruct H.
Qed.

Lemma numeral_chars_app (a b : string) :
  numeral_chars (String.append a b) = numeral_chars a && numeral_chars b.
Proof.
  induction a as [|c a IH]; [reflexivity|].
  rewrite append_cons. cbn [numeral_chars]. rewrite IH. now rewrite andb_assoc.
Qed.

Lemma numeral_chars_digits (s : string) :
  all_digits s = true -> numeral_chars s = true.
Proof.
  induction s as [|c s IH]; [reflexivity|]. cbn [all_digits numeral_chars].
  intros [Hc Hs]%andb_true_iff. rewrite Hc, (IH Hs). reflexivity.
Qed.

Lemma numeral_chars_str_of_Z (z : Z) : numeral_chars (str_of_Z z) = true.
Proof.
  unfold str_of_Z. destruct (z <? 0).
  - cbn [numeral_chars]. rewrite orb_true_r. cbn [orb andb].
    apply numeral_chars_digits, all_digits_string_of_uint.
  - apply numeral_chars_digits, all_digits_string_of_uint.
Qed.

Lemma is_na_str_of_Z (z : Z) : is_na (str_of_Z z) = false.
Proof.
  unfold str_of_Z. destruct (z <? 0); [|apply is_na_str_of_N].
  destruct (is_na (String "-" (str_of_N (Z.to_N (- z))))) eqn:E; [|reflexivity].
  pose proof (all_digits_string_of_uint (N.to_uint (Z.to_N (- z)))) as Hd.
  fold (str_of_N (Z.to_N (- z))) in Hd. revert E Hd.
  unfold is_na. rewrite bool_decide_eq_true. unfold na_values.
  rewrite !elem_of_cons, elem_of_nil.
  intros H.
  repeat (destruct H as [H|H];
          [first [discriminate H | injection H as ->; cbn; discriminate]|]).
  destruct H.
Qed.

(** *** Reading back what was written *)

Lemma row_of_fields_nil (fields : list string) : row_of_fields [] fields = ∅.
Proof. reflexivity. Qed.

Lemma row_of_fields_short (hdr : list string) : row_of_fields hdr [] = ∅.
Proof. destruct hdr; reflexivity. Qed.

Lemma row_of_fields_cons (c x : string) (hdr fields : list string) :
  row_of_fields (c :: hdr) (x :: fields)
  = set_cell c (na_filter x) (row_of_fields hdr fields).
Proof. reflexivity. Qed.

Lemma row_of_fields_lookup (f : string -> string) (cols : list string) (k : string) :
  row_of_fields cols (f <$> cols) !! k
  = if bool_decide (k ∈ cols) then na_filter (f k) else None.
Proof.
  induction cols as [|c cols IH].
  - rewrite row_of_fields_nil, lookup_empty. reflexivity.
  - rewrite fmap_cons, row_of_fields_cons, lookup_set_cell.
    destruct (decide (c = k)) as [->|Hne].
    + rewrite bool_decide_eq_true_2 by (apply elem_of_cons; now left). reflexivity.
    + rewrite IH.
      destruct (bool_decide (k ∈ cols)) eqn:E.
      * apply bool_decide_eq_true in E.
        rewrite bool_decide_eq_true_2 by (apply elem_of_cons; now right). reflexivity.
      * apply bool_decide_eq_false in E.
        rewrite bool_decide_eq_false_2; [reflexivity|].
        rewrite elem_of_cons. intros [?|?]; congruence.
Qed.

Lemma row_of_fields_cell (hdr fields : list string) (k : string) (v : cell) :
  row_of_fields hdr fields !! k = Some v ->
  k ∈ hdr /\ exists s, v = Str s /\ is_na s = false.
Proof.
  revert fields.
  induction hdr as [|c hdr IH]; intros fields.
  - rewrite row_of_fields_nil, lookup_empty. discriminate.
  - destruct fields as [|f fields];
      [rewrite row_of_fields_short, lookup_empty; discriminate|].
    rewrite row_of_fields_cons, lookup_set_cell.
    destruct (decide (c = k)) as [->|Hne].
    + intros Hv. split; [apply elem_of_cons; now left|].
      destruct v as [s|z]; [|now apply na_filter_not_Int in Hv].
      apply na_filter_Some in Hv as [_ Hs]. eauto.
    + intros Hv. apply IH in Hv as [Hin Hs]. split; [|exact Hs].
      apply elem_of_cons. now right.
Qed.

Lemma read_csv_to_csv_columns (df : DataFrame) :
  columns (read_csv (to_csv df)) = columns df.
Proof. reflexivity. Qed.

Lemma read_csv_to_csv_rows (df : DataFrame) :
  rows (read_csv (to_csv df))
  = (fun r : gmap string cell =>
       row_of_fields (columns df)
         ((fun c => csv_field (r !! c)) <$> columns df)) <$> rows df.
Proof.
  unfold read_csv, to_csv. cbn [rows header records].
  rewrite <- list_fmap_compose. reflexivity.
Qed.

(** *** Column selection *)

Lemma select_row_lookup (cols : list string) (r : gmap string cell) (k : string) :
  foldr (fun c acc => set_cell c (r !! c) acc) ∅ cols !! k
  = if bool_decide (k ∈ cols) then r !! k else None.
Proof.
  induction cols as [|c cols IH].
  - cbn. rewrite lookup_empty. reflexivity.
  - cbn [foldr]. rewrite lookup_set_cell. destruct (decide (c = k)) as [->|Hne].
    + rewrite bool_decide_eq_true_2 by (apply elem_of_cons; now left). reflexivity.
    + rewrite IH. destruct (bool_decide (k ∈ cols)) eqn:E.
      * apply bool_decide_eq_true in E.
        rewrite bool_decide_eq_true_2 by (apply elem_of_cons; now right). reflexivity.
      * apply bool_decide_eq_false in E.
        rewrite bool_decide_eq_false_2; [reflexivity|].
        rewrite elem_of_cons. intros [?|?]; congruence.
Qed.

Lemma col_select (cols : list string) (df : DataFrame) (k : string) :
  k ∈ cols -> col k (select cols df) = col k df.
Proof.
  intros Hk. unfold col, select. cbn [rows].
  rewrite <- list_fmap_compose. apply list_fmap_ext. intros i r _. cbn.
  rewrite select_row_lookup. now rewrite bool_decide_eq_true_2.
Qed.

End PandasFacts.

(* ===================================================================== *)
(** ** Facts about the credential store *)
(* ===================================================================== *)

Module UsersFacts.
Import Py Pandas Datetime VC Obs PyFacts HashlibFacts PandasFacts.

Ltac monad_unfold :=
  unfold bind, ret, raise, lift, gets, modify, render, try_except.

(** Membership of a literal label in a literal list of labels. *)
Ltac in_labels :=
  unfold user_columns, default_cols, numeric_cols;
  rewrite ?elem_of_cons; auto 20.

Lemma ensure_step_self (d : DataFrame) (k : string) :
  has_column k (if has_column k d then d else assign_scalar k (Str "") d) = true.
Proof. destruct (has_column k d) eqn:E; [exact E|]. apply columns_assign_self. Qed.

Lemma ensure_step_keep (d : DataFrame) (k k' : string) :
  has_column k d = true ->
  has_column k (if has_column k' d then d else assign_scalar k' (Str "") d) = true.
Proof. intros H. destruct (has_column k' d); [exact H|]. now apply columns_assign_has. Qed.

Lemma load_users_run (w : World) : load_users w = (inr (users_table w), w).
Proof.
  unfold users_table, load_users. monad_unfold.
  destruct (users_csv w); reflexivity.
Qed.

Lemma users_table_has (w : World) (c : string) :
  c ∈ user_columns -> has_column c (users_table w) = true.
Proof.
  unfold users_table, load_users. monad_unfold.
  destruct (users_csv w) as [csv|]; cbn [fst].
  - unfold user_columns. rewrite !elem_of_cons, elem_of_nil. cbn [foldl].
    intros [->|[->|[->|[->|[]]]]];
      auto 10 using ensure_step_self, ensure_step_keep.
  - intros Hc. apply has_column_true. exact Hc.
Qed.

Lemma users_table_full (w : World) (csv : Csv) :
  users_csv w = Some csv ->
  (forall c, c ∈ user_columns -> c ∈ header csv) ->
  users_table w = read_csv csv.
Proof.
  intros Hw Hc. unfold users_table, load_users. monad_unfold.
  rewrite Hw. cbn [fst]. unfold user_columns. cbn [foldl].
  assert (H : forall c, c ∈ user_columns -> has_column c (read_csv csv) = true).
  { intros c Hin. apply has_column_true. cbn. auto. }
  rewrite !H; [reflexivity | in_labels ..].
Qed.

Lemma str_in_false (s : string) (values : list (option cell)) :
  str_in s values = false <-> forall v, In v values -> eq_str v s = false.
Proof.
  unfold str_in. split.
  - intros H v Hv. destruct (eq_str v s) eqn:E; [|reflexivity].
    assert (existsb (fun v => eq_str v s) values = true)
      by (apply existsb_exists; eauto). congruence.
  - intros H. destruct (existsb _ values) eqn:E; [|reflexivity].
    apply existsb_exists in E as (v & Hv & Ev). rewrite (H v Hv) in Ev. discriminate.
Qed.

Lemma eq_str_true (v : option cell) (s : string) :
  eq_str v s = true <-> v = Some (Str s).
Proof.
  unfold eq_str. destruct v as [[t|z]|]; try (split; [discriminate|congruence]).
  rewrite String.eqb_eq. split; congruence.
Qed.

Lemma columns_nonempty (c : string) (df : DataFrame) :
  has_column c df = true -> columns df <> [].
Proof.
  rewrite has_column_true. intros H E. rewrite E in H. now apply elem_of_nil in H.
Qed.

(** What the login form does, read off the table of users. *)
Lemma login_ui_run (username password : string) (w : World) :
  login_ui username password true w
  = match List.filter (fun r : gmap string cell => eq_str (r !! "username") username)
                      (rows (users_table w)) with
    | [] => (inr (false, None), emit (st_error "Invalid username or password.") w)
    | r :: _ =>
        match py_int (r !! "iterations") with
        | inl e => (inl e, w)
        | inr it =>
            match verify_password_pbkdf2 password (r !! "salt") (r !! "hash") it with
            | inl e => (inl e, w)
            | inr true =>
                (inr (true, Some username),
                 emit (st_success (String.append "Signed in as " username))
                      (set_session_username username w))
            | inr false =>
                (inr (false, None), emit (st_error "Invalid username or password.") w)
            end
        end
    end.
Proof.
  unfold login_ui. unfold bind at 1. rewrite load_users_run.
  unfold df_empty.
  change (columns (filter_rows ?m ?d)) with (columns d).
  rewrite !rows_filter_rows_col.
  pose proof (columns_nonempty "username" (users_table w)
                (users_table_has w "username" ltac:(in_labels)))
    as Hne.
  destruct (List.filter _ (rows (users_table w))) as [|r rs]; [reflexivity|].
  destruct (columns (users_table w)) as [|c cs]; [congruence|].
  monad_unfold.
  destruct (py_int (r !! "iterations")) as [e|it]; [reflexivity|].
  destruct (verify_password_pbkdf2 password (r !! "salt") (r !! "hash") it)
    as [e|[]]; reflexivity.
Qed.

(** What [add_user_to_csv] does, case by case. *)
Lemma add_user_to_csv_run (username password : string) (iterations : Z) (w : World) :
  add_user_to_csv username password iterations w
  = let w' := advance_entropy 16 w in
    match hashlib_pbkdf2_hmac (encode password) (next_salt w) iterations with
    | inl e => (inl e, w')
    | inr dk =>
        let row := user_record username (next_salt w) dk iterations in
        match users_csv w with
        | Some csv =>
            if str_in username (get "username" (read_csv csv))
            then (inl (ValueError "Username already exists."), w')
            else (inr tt,
                  set_users_csv (to_csv (concat (read_csv csv) (frame_of_record row))) w')
        | None => (inr tt, set_users_csv (to_csv (frame_of_record row)) w')
        end
    end.
Proof.
  unfold add_user_to_csv, urandom. unfold bind at 1. fold (next_salt w).
  unfold bind at 1. unfold lift at 1. unfold binascii_unhexlify.
  rewrite unhexlify_hexlify.
  unfold bind at 1. unfold lift at 1.
  destruct (hashlib_pbkdf2_hmac (encode password) (next_salt w) iterations)
    as [e|dk]; [reflexivity|].
  monad_unfold. cbn [users_csv advance_entropy].
  destruct (users_csv w) as [csv|]; [|reflexivity].
  destruct (str_in username (get "username" (read_csv csv))); reflexivity.
Qed.

(** The library call, case by case on the iteration count. *)
Lemma hashlib_pbkdf2_hmac_cases (password salt : list byte) (iterations : Z) :
  hashlib_pbkdf2_hmac password salt iterations
  = if (iterations <? - 2 ^ 63) || (2 ^ 63 - 1 <? iterations)
    then inl (OverflowError "Python int too large to convert to C long")
    else if iterations <? 1
    then inl (ValueError "iteration value must be greater than 0.")
    else if 2 ^ 31 - 1 <? iterations
    then inl (OverflowError "iteration value is too great.")
    else inr (Hashlib.pbkdf2_block password salt (Z.to_pos iterations)).
Proof.
  unfold hashlib_pbkdf2_hmac, Hashlib.pbkdf2_hmac.
  destruct ((iterations <? - 2 ^ 63) || (2 ^ 63 - 1 <? iterations)); [reflexivity|].
  destruct (iterations <? 1); [reflexivity|].
  destruct (2 ^ 31 - 1 <? iterations); reflexivity.
Qed.

Lemma hashlib_pbkdf2_hmac_ok (password salt : list byte) (iterations : Z) :
  1 <= iterations <= 2 ^ 31 - 1 ->
  hashlib_pbkdf2_hmac password salt iterations
  = inr (Hashlib.pbkdf2_block password salt (Z.to_pos iterations)).
Proof.
  intros [Hlo Hhi]. rewrite hashlib_pbkdf2_hmac_cases.
  destruct (Z.ltb_spec iterations (- 2 ^ 63)) as [?|_]; [lia|].
  destruct (Z.ltb_spec (2 ^ 63 - 1) iterations) as [?|_]; [lia|].
  destruct (Z.ltb_spec iterations 1) as [?|_]; [lia|].
  destruct (Z.ltb_spec (2 ^ 31 - 1) iterations) as [?|_]; [lia|].
  reflexivity.
Qed.

Lemma hashlib_pbkdf2_hmac_inv (password salt : list byte) (iterations : Z)
    (dk : list byte) :
  hashlib_pbkdf2_hmac password salt iterations = inr dk ->
  1 <= iterations <= 2 ^ 31 - 1
  /\ dk = Hashlib.pbkdf2_block password salt (Z.to_pos iterations).
Proof.
  rewrite hashlib_pbkdf2_hmac_cases.
  destruct ((iterations <? - 2 ^ 63) || (2 ^ 63 - 1 <? iterations));
    [discriminate|].
  destruct (Z.ltb_spec iterations 1) as [?|Hlo]; [discriminate|].
  destruct (Z.ltb_spec (2 ^ 31 - 1) iterations) as [?|Hhi]; [discriminate|].
  intros [= <-]. split; [lia | reflexivity].
Qed.

(** Outside the counts it accepts, the library call raises, whatever
    the password and the salt. *)
Lemma hashlib_pbkdf2_hmac_rejects (iterations : Z) :
  ~ 1 <= iterations <= 2 ^ 31 - 1 ->
  exists e, is_Exception e = true
            /\ forall password salt,
                 hashlib_pbkdf2_hmac password salt iterations = inl e.
Proof.
  intros Hout.
  destruct ((iterations <? - 2 ^ 63) || (2 ^ 63 - 1 <? iterations)) eqn:E1;
    [|destruct (iterations <? 1) eqn:E2;
      [|destruct (2 ^ 31 - 1 <? iterations) eqn:E3]].
  - eexists. split; [|intros; rewrite hashlib_pbkdf2_hmac_cases, E1; reflexivity].
    reflexivity.
  - eexists. split; [|intros; rewrite hashlib_pbkdf2_hmac_cases, E1, E2; reflexivity].
    reflexivity.
  - eexists. split;
      [|intros; rewrite hashlib_pbkdf2_hmac_cases, E1, E2, E3; reflexivity].
    reflexivity.
  - apply Z.ltb_ge in E2, E3. lia.
Qed.

Lemma next_salt_length (w : World) : length (next_salt w) = 16%nat.
Proof. unfold next_salt. now rewrite length_map, length_seq. Qed.

(** [verify_password_pbkdf2] on a stored hexadecimal salt. *)
Lemma verify_hex_salt (password h : string) (salt : list byte) (iterations : Z) :
  verify_password_pbkdf2 password (Some (Str (hexlify salt))) (Some (Str h)) iterations
  = match hashlib_pbkdf2_hmac (encode password) salt iterations with
    | inl e => inl e
    | inr dk => inr (String.eqb h (hexlify dk))
    end.
Proof.
  unfold verify_password_pbkdf2, pure_bind, str_encode, binascii_unhexlify.
  rewrite decode_encode, unhexlify_hexlify.
  destruct (hashlib_pbkdf2_hmac (encode password) salt iterations); reflexivity.
Qed.

(** *** A record written to the file and read back *)

Lemma reread_lookup (cols : list string) (r : gmap string cell) (k : string) :
  k ∈ cols -> reread cols r !! k = na_filter (csv_field (r !! k)).
Proof.
  intros Hk. unfold reread.
  rewrite (row_of_fields_lookup (fun c => csv_field (r !! c))).
  now rewrite bool_decide_eq_true_2.
Qed.

Lemma users_table_after_write (df : DataFrame) (w : World) :
  (forall c, c ∈ user_columns -> c ∈ columns df) ->
  rows (users_table (set_users_csv (to_csv df) w)) = reread (columns df) <$> rows df.
Proof.
  intros Hc.
  rewrite (users_table_full (set_users_csv (to_csv df) w) (to_csv df))
    by (reflexivity || exact Hc).
  apply read_csv_to_csv_rows.
Qed.

(** Cells that were read from a CSV file survive another round trip. *)
Lemma csv_cell_stable (hdr fields : list string) (k : string) :
  na_filter (csv_field (row_of_fields hdr fields !! k)) = row_of_fields hdr fields !! k.
Proof.
  destruct (row_of_fields hdr fields !! k) as [v|] eqn:E; [|reflexivity].
  apply row_of_fields_cell in E as (_ & s & -> & Hs).
  cbn [csv_field]. unfold na_filter. now rewrite Hs.
Qed.

Lemma read_csv_row (csv : Csv) (r : gmap string cell) :
  In r (rows (read_csv csv)) -> exists fields, r = row_of_fields (header csv) fields.
Proof.
  unfold read_csv. cbn [rows]. rewrite <- list_elem_of_In, list_elem_of_fmap.
  intros (fields & -> & _). eauto.
Qed.

Lemma filter_none {A} (f : A -> bool) (l : list A) :
  (forall x, In x l -> f x = false) -> List.filter f l = [].
Proof.
  induction l as [|x l IH]; intros H; [reflexivity|].
  cbn [List.filter]. rewrite (H x) by now left.
  apply IH. intros y Hy. apply H. now right.
Qed.

Lemma columns_concat_r (a b : DataFrame) (c : string) :
  c ∈ columns b -> c ∈ columns (concat a b).
Proof.
  intros Hc. unfold concat. cbn [columns]. apply elem_of_app.
  destruct (has_column c a) eqn:E.
  - left. now apply has_column_true.
  - right. apply list_elem_of_In, filter_In. split; [now apply list_elem_of_In|].
    now rewrite E.
Qed.

Lemma user_record_lookup (a b c d : cell) :
  let m : gmap string cell :=
    list_to_map [("username", a); ("salt", b); ("hash", c); ("iterations", d)] in
  m !! "username" = Some a /\ m !! "salt" = Some b
  /\ m !! "hash" = Some c /\ m !! "iterations" = Some d.
Proof. cbn. repeat split; simplify_map_eq; reflexivity. Qed.

(** No earlier row answers to a username the duplicate check let through. *)
Lemma old_rows_no_match (csv : Csv) (username : string) (cols : list string) :
  str_in username (get "username" (read_csv csv)) = false ->
  "username" ∈ cols ->
  forall r, In r (reread cols <$> rows (read_csv csv)) ->
            eq_str (r !! "username") username = false.
Proof.
  intros Hdup Hcol r Hr.
  apply list_elem_of_In, list_elem_of_fmap in Hr as (r0 & -> & Hr0).
  apply list_elem_of_In in Hr0.
  destruct (read_csv_row csv r0 Hr0) as (fields & Hrow).
  rewrite reread_lookup by exact Hcol.
  rewrite Hrow, csv_cell_stable, <- Hrow.
  unfold get in Hdup. destruct (has_column "username" (read_csv csv)) eqn:E.
  - rewrite str_in_false in Hdup. apply Hdup.
    unfold col. apply in_map_iff. exists r0. split; [reflexivity | exact Hr0].
  - destruct (r0 !! "username") as [v|] eqn:Ev; [|reflexivity].
    rewrite Hrow in Ev. apply row_of_fields_cell in Ev as [Hin _].
    apply has_column_false in E. cbn in E. contradiction.
Qed.

(** Creating a user and then logging in: the outcome is the comparison of
    the two derived keys. *)
Lemma login_after_add (w : World) (username password attempt : string)
    (iterations : Z) :
  1 <= iterations <= 2 ^ 31 - 1 ->
  is_na username = false ->
  (forall csv, users_csv w = Some csv ->
               str_in username (get "username" (read_csv csv)) = false) ->
  fst (add_user_to_csv username password iterations w) = inr tt
  /\ fst (login_ui username attempt true
                   (snd (add_user_to_csv username password iterations w)))
     = inr (if String.eqb
                 (hexlify (Hashlib.pbkdf2_block (encode password) (next_salt w)
                             (Z.to_pos iterations)))
                 (hexlify (Hashlib.pbkdf2_block (encode attempt) (next_salt w)
                             (Z.to_pos iterations)))
            then (true, Some username) else (false, None)).
Proof.
  intros Hit Hna Hdup.
  rewrite add_user_to_csv_run. cbv zeta.
  rewrite (hashlib_pbkdf2_hmac_ok _ _ _ Hit).
  set (salt := next_salt w).
  set (dk := Hashlib.pbkdf2_block (encode password) salt (Z.to_pos iterations)).
  set (row := user_record username salt dk iterations).
  set (w' := advance_entropy 16 w).
  set (old := match users_csv w with
              | Some csv => read_csv csv
              | None => empty_frame []
              end).
  assert (Hrun :
    match users_csv w with
    | Some csv =>
        if str_in username (get "username" (read_csv csv))
        then (inl (ValueError "Username already exists."), w')
        else (inr tt,
              set_users_csv (to_csv (concat (read_csv csv) (frame_of_record row))) w')
    | None => (inr tt, set_users_csv (to_csv (frame_of_record row)) w')
    end
    = (inr tt, set_users_csv (to_csv (concat old (frame_of_record row))) w')).
  { subst old. destruct (users_csv w) as [csv|] eqn:Ecsv.
    - now rewrite (Hdup csv eq_refl).
    - reflexivity. }
  rewrite Hrun. cbn [fst snd]. split; [reflexivity|].
  set (df := concat old (frame_of_record row)).
  assert (Hcols : forall c, c ∈ user_columns -> c ∈ columns df).
  { intros c Hc. apply columns_concat_r. exact Hc. }
  rewrite login_ui_run, (users_table_after_write df w' Hcols).
  assert (Hrows : rows df = rows old ++ [list_to_map row]) by reflexivity.
  rewrite Hrows, fmap_app, List.filter_app.
  assert (Huser : "username" ∈ columns df)
    by (apply Hcols; in_labels).
  rewrite filter_none.
  2:{ subst old. destruct (users_csv w) as [csv|] eqn:Ecsv.
      - apply old_rows_no_match; [now apply Hdup | exact Huser].
      - intros r []. }
  destruct (user_record_lookup (Str username) (Str (hexlify salt))
              (Str (hexlify dk)) (Str (str_of_Z iterations)))
    as (Hu & Hs & Hh & Hi).
  cbn [fmap list_fmap List.filter app].
  rewrite reread_lookup by exact Huser.
  fold row in Hu, Hs, Hh, Hi. unfold user_record in Hu, Hs, Hh, Hi.
  unfold row at 1, user_record at 1. rewrite Hu. cbn [csv_field].
  unfold na_filter at 1. rewrite Hna. cbn [eq_str]. rewrite String.eqb_refl.
  rewrite !reread_lookup by (apply Hcols; in_labels).
  unfold row, user_record. rewrite Hs, Hh, Hi. cbn [csv_field].
  assert (Hna_it : is_na (str_of_Z iterations) = false).
  { unfold str_of_Z. destruct (Z.ltb_spec iterations 0); [lia|]. apply is_na_str_of_N. }
  assert (Hna_salt : is_na (hexlify salt) = false).
  { apply is_na_hexlify. subst salt. rewrite next_salt_length. lia. }
  assert (Hna_dk : is_na (hexlify dk) = false).
  { apply is_na_hexlify. subst dk. rewrite pbkdf2_block_length. lia. }
  unfold na_filter. rewrite Hna_it, Hna_salt, Hna_dk.
  cbn [py_int]. rewrite int_literal_str_of_Z.
  rewrite verify_hex_salt, (hashlib_pbkdf2_hmac_ok _ _ _ Hit).
  fold salt.
  destruct (String.eqb (hexlify dk) _); reflexivity.
Qed.

End UsersFacts.

(* ===================================================================== *)
(** ** Facts about item ids *)
(* ===================================================================== *)

Module ItemIdFacts.
Import Py Pandas Datetime VC Obs PyFacts PandasFacts.

Lemma scan_id_lab_number (nums : list N) (v : string) :
  scan_id nums v = nums ++ match lab_number v with
                           | Some n => [n]
                           | None => []
                           end.
Proof.
  unfold scan_id, lab_number.
  destruct (startswith "LAB" (upper v) && isdigit (slice_from 3 v)).
  - destruct (int_of_digits (slice_from 3 v)); [reflexivity | now rewrite app_nil_r].
  - now rewrite app_nil_r.
Qed.

(** The loop collects, in order, the numbers of the ids that match. *)
Lemma scan_all (ids : list string) :
  forall acc, foldl scan_id acc ids = acc ++ omap lab_number ids.
Proof.
  induction ids as [|v ids IH]; intros acc; cbn [foldl omap list_omap].
  - now rewrite app_nil_r.
  - rewrite IH, scan_id_lab_number, <- app_assoc.
    destruct (lab_number v); reflexivity.
Qed.

Lemma py_max_ge (nums : list N) (n : N) : In n nums -> (n <= py_max nums)%N.
Proof.
  induction nums as [|x nums IH]; [intros []|].
  cbn [py_max foldr]. fold (py_max nums). intros [->|H].
  - apply N.le_max_l.
  - specialize (IH H). lia.
Qed.

Lemma py_max_In (nums : list N) : nums <> [] -> In (py_max nums) nums.
Proof.
  induction nums as [|x nums IH]; [congruence|]. intros _.
  cbn [py_max foldr]. fold (py_max nums).
  destruct nums as [|y nums].
  - left. cbn. lia.
  - destruct (N.max_spec x (py_max (y :: nums))) as [[_ ->]|[_ ->]].
    + right. apply IH. discriminate.
    + now left.
Qed.

Lemma In_omap_lab_number (ids : list string) (n : N) :
  In n (omap lab_number ids) <-> exists v, In v ids /\ lab_number v = Some n.
Proof.
  rewrite <- list_elem_of_In, list_elem_of_omap.
  split; intros (v & Hv & Hn); exists v; split; auto; now apply list_elem_of_In.
Qed.

(** The condition of the scan, in words. *)
Lemma upper_char_L (c : ascii) (r : string) (p : string) :
  String.prefix (String c p) r = true ->
  exists d r', r = String d r' /\ d = c /\ String.prefix p r' = true.
Proof.
  destruct r as [|d r']; cbn [String.prefix]; [discriminate|].
  destruct (ascii_dec c d) as [->|]; [eauto | discriminate].
Qed.

Lemma lab_number_pattern (v : string) (n : N) :
  lab_number v = Some n <-> lab_pattern v n.
Proof.
  unfold lab_number, startswith. split.
  - destruct (String.prefix "LAB" (upper v)) eqn:Hp; cbn [andb]; [|discriminate].
    destruct (isdigit (slice_from 3 v)) eqn:Hd; [|discriminate].
    intros Hn.
    destruct v as [|l [|a [|b ds]]]; try discriminate Hd.
    cbn [upper] in Hp.
    apply upper_char_L in Hp as (d1 & r1 & [= <- <-] & Hl & Hp).
    apply upper_char_L in Hp as (d2 & r2 & [= <- <-] & Ha & Hp).
    apply upper_char_L in Hp as (d3 & r3 & [= <- <-] & Hb & _).
    cbn [slice_from] in Hd, Hn.
    now constructor.
  - intros [l a b ds m Hl Ha Hb Hd Hm].
    cbn [upper String.prefix slice_from]. rewrite Hl, Ha, Hb. cbn.
    replace (String.prefix EmptyString (upper ds)) with true
      by (destruct (upper ds); reflexivity).
    now rewrite Hd.
Qed.

Lemma lab_number_new_id (n : N) :
  lab_number (String.append "LAB" (format_03d n)) = Some n.
Proof.
  unfold lab_number.
  change (String.append "LAB" (format_03d n))
    with (String "L" (String "A" (String "B" (format_03d n)))).
  cbn [upper slice_from]. unfold startswith.
  change (upper_char "L") with "L"%char.
  change (upper_char "A") with "A"%char.
  change (upper_char "B") with "B"%char.
  cbn [String.prefix]. 
  destruct (ascii_dec "L" "L"); [|congruence].
  destruct (ascii_dec "A" "A"); [|congruence].
  destruct (ascii_dec "B" "B"); [|congruence].
  replace (String.prefix EmptyString (upper (format_03d n))) with true
    by (destruct (upper (format_03d n)); reflexivity).
  rewrite isdigit_format_03d. cbn [andb]. apply int_of_digits_format_03d.
Qed.

(** [next_item_id] in terms of the numbers found. *)
Lemma next_item_id_run (df : DataFrame) :
  next_item_id df
  = String.append "LAB"
      (format_03d match omap lab_number (existing_ids df) with
                  | [] => 1%N
                  | nums => (py_max nums + 1)%N
                  end).
Proof.
  unfold next_item_id, existing_ids. rewrite scan_all. cbn [app].
  destruct (omap lab_number _); reflexivity.
Qed.

(** The new id is not among the existing ones. *)
Lemma next_item_id_fresh (df : DataFrame) :
  ~ In (next_item_id df) (existing_ids df).
Proof.
  intros Hin. rewrite next_item_id_run in Hin.
  destruct (omap lab_number (existing_ids df)) as [|x nums] eqn:E.
  - assert (Hx : In 1%N (omap lab_number (existing_ids df))).
    { apply In_omap_lab_number. eexists. split; [exact Hin|].
      apply lab_number_new_id. }
    rewrite E in Hx. destruct Hx.
  - set (m := py_max (x :: nums)) in *.
    assert (Hx : In (m + 1)%N (omap lab_number (existing_ids df))).
    { apply In_omap_lab_number. eexists. split; [exact Hin|].
      apply lab_number_new_id. }
    rewrite E in Hx. apply py_max_ge in Hx. fold m in Hx. lia.
Qed.

End ItemIdFacts.

(* ===================================================================== *)
(** ** Facts about the inventory store *)
(* ===================================================================== *)

Module InventoryFacts.
Import Py Pandas Datetime VC Obs PyFacts PandasFacts UsersFacts ItemIdFacts.

Lemma col_assign_self (c : string) (vals : list (option cell)) (df : DataFrame) :
  length vals = length (rows df) -> col c (assign c vals df) = vals.
Proof.
  intros Hlen. apply list_eq. intros i. rewrite col_assign_eq.
  destruct (rows df !! i) as [r|] eqn:E; cbn.
  - apply lookup_lt_Some in E. rewrite <- Hlen in E.
    apply lookup_lt_is_Some in E as [v Hv]. now rewrite Hv.
  - apply lookup_ge_None in E. rewrite <- Hlen in E.
    symmetry. now apply lookup_ge_None.
Qed.

Lemma col_assign_scalar (c : string) (v : cell) (df : DataFrame) :
  col c (assign_scalar c v df) = replicate (length (rows df)) (Some v).
Proof. unfold assign_scalar. apply col_assign_self, length_replicate. Qed.

(** *** Coercing one column *)

Lemma coerce_int_Some (s vals : list (option cell)) :
  coerce_int s = Some vals -> coerced_col s vals.
Proof.
  unfold coerce_int, astype_int. intros H.
  apply fmap_Some in H as (zs & Hzs & ->).
  apply mapM_Some in Hzs.
  split.
  - rewrite length_fmap. apply Forall2_length in Hzs.
    rewrite <- Hzs. unfold fillna, to_numeric. now rewrite !length_fmap.
  - intros i v Hv.
    assert (Hx : fillna (Finite 0) (to_numeric s) !! i
                 = Some (default (Finite 0) (to_numeric_cell v))).
    { unfold fillna, to_numeric. now rewrite !list_lookup_fmap, Hv. }
    destruct (Forall2_lookup_l _ _ _ _ _ Hzs Hx) as (z & Hz & Hcast).
    exists z. split; [|exact Hcast].
    now rewrite list_lookup_fmap, Hz.
Qed.

Lemma coerce_column_absent (c : string) (df : DataFrame) :
  has_column c df = false -> coerce_column c df = inr df.
Proof. intros H. unfold coerce_column. now rewrite H. Qed.

Lemma coerce_column_inv (c : string) (df d' : DataFrame) :
  has_column c df = true ->
  coerce_column c df = inr d' ->
  exists vals, coerce_int (col c df) = Some vals /\ d' = assign c vals df.
Proof.
  intros H. unfold coerce_column. rewrite H.
  destruct (coerce_int (col c df)) as [vals|]; [|discriminate].
  intros [= <-]. eauto.
Qed.

Lemma col_coerce_column_eq (c : string) (df d' : DataFrame) :
  has_column c df = true ->
  coerce_column c df = inr d' ->
  coerced_col (col c df) (col c d').
Proof.
  intros H Hrun.
  destruct (coerce_column_inv c df d' H Hrun) as (vals & Hvals & ->).
  apply coerce_int_Some in Hvals. destruct Hvals as [Hlen Hrows].
  rewrite col_assign_self by (now rewrite Hlen, col_length).
  split; assumption.
Qed.

Lemma col_coerce_column_ne (c k : string) (df d' : DataFrame) :
  c <> k -> coerce_column c df = inr d' -> col k d' = col k df.
Proof.
  intros Hne. unfold coerce_column. destruct (has_column c df).
  - destruct (coerce_int (col c df)); [|discriminate].
    intros [= <-]. now apply col_assign_ne.
  - now intros [= <-].
Qed.

Lemma columns_coerce_column (c : string) (df d' : DataFrame) :
  coerce_column c df = inr d' -> columns d' = columns df.
Proof.
  unfold coerce_column. destruct (has_column c df) eqn:E.
  - destruct (coerce_int (col c df)); [|discriminate].
    intros [= <-]. unfold assign. cbn [columns]. now rewrite E.
  - now intros [= <-].
Qed.

Lemma has_column_coerce_column (c k : string) (df d' : DataFrame) :
  coerce_column c df = inr d' -> has_column k d' = has_column k df.
Proof.
  intros H. unfold has_column. now rewrite (columns_coerce_column c df d' H).
Qed.

Lemma rows_coerce_column_length (c : string) (df d' : DataFrame) :
  coerce_column c df = inr d' -> length (rows d') = length (rows df).
Proof.
  unfold coerce_column. destruct (has_column c df).
  - destruct (coerce_int (col c df)); [|discriminate].
    intros [= <-]. apply rows_assign_length.
  - now intros [= <-].
Qed.

(** *** What a cell is coerced to *)

Lemma coerces_to_unparsable (v : option cell) (z : Z) :
  to_numeric_cell v = None -> coerces_to v z -> z = 0.
Proof.
  unfold coerces_to. intros ->. cbn. now intros [= <-].
Qed.

Lemma span_digits_all (s : string) :
  all_digits s = true -> span_digits s = (s, EmptyString).
Proof.
  induction s as [|c s IH]; [reflexivity|].
  cbn [all_digits span_digits]. intros H. apply andb_prop in H as [-> Hs].
  now rewrite (IH Hs).
Qed.

Lemma append_empty_r (s : string) : String.append s EmptyString = s.
Proof.
  induction s as [|c s IH]; [reflexivity|].
  rewrite append_cons. now rewrite IH.
Qed.

Lemma parse_digits (sign : Z) (n : N) :
  (let ip := span_digits (str_of_N n) in
   let fp := match snd ip with
             | String "." r => span_digits r
             | _ => (EmptyString, snd ip)
             end in
   let ds := String.append (fst ip) (fst fp) in
   let ex := match snd fp with
             | EmptyString => Some 0
             | String c r =>
                 if Ascii.eqb c "e" || Ascii.eqb c "E" then int_of_str r else None
             end in
   match int_of_digits ds, ex with
   | Some m, Some e =>
       if isdigit ds
       then Some (Qmult (inject_Z (sign * Z.of_N m))
                        (pow10 (e - Z.of_nat (String.length (fst fp)))))
       else None
   | _, _ => None
   end)
  = Some (Qmult (inject_Z (sign * Z.of_N n)) (pow10 0)).
Proof.
  cbv zeta.
  rewrite (span_digits_all (str_of_N n))
    by apply all_digits_string_of_uint.
  cbn [fst snd String.length]. rewrite append_empty_r.
  now rewrite int_of_digits_str_of_N, isdigit_str_of_N.
Qed.

Lemma parse_decimal_integer (n : Z) :
  exists q, parse_decimal (str_of_Z n) = Some q /\ trunc q = n.
Proof.
  unfold str_of_Z. destruct (Z.ltb_spec n 0) as [Hneg|Hpos].
  - exists (Qmult (inject_Z (-1 * Z.of_N (Z.to_N (- n)))) (pow10 0)). split.
    + unfold parse_decimal. cbn [fst snd]. apply parse_digits.
    + unfold trunc, pow10. cbn. rewrite Z.quot_1_r. lia.
  - exists (Qmult (inject_Z (1 * Z.of_N (Z.to_N n))) (pow10 0)). split.
    + unfold parse_decimal.
      destruct (str_of_N_head (Z.to_N n)) as (c & r & Hs & Hc).
      rewrite Hs.
      assert (Hsign : match String c r with
                      | String "-" r0 => (-1, r0)
                      | String "+" r0 => (1, r0)
                      | _ => (1, String c r)
                      end = (1, String c r)).
      { destruct c as [[] [] [] [] [] [] [] []]; try reflexivity; discriminate Hc. }
      rewrite Hsign. cbn [fst snd]. rewrite <- Hs. apply parse_digits.
    + unfold trunc, pow10. cbn. rewrite Z.quot_1_r. lia.
Qed.

Lemma trunc_inject_Z (n : Z) : trunc (inject_Z n) = n.
Proof. unfold trunc, inject_Z. cbn [Qnum Qden]. apply Z.quot_1_r. Qed.

(** *** Blanks around a numeral *)

Lemma skip_blanks_app (a s : string) :
  blank a = true -> skip_blanks (String.append a s) = skip_blanks s.
Proof.
  induction a as [|c a IH]; [reflexivity|]. cbn [blank].
  intros [Hc Ha]%andb_true_iff. rewrite append_cons. cbn [skip_blanks].
  rewrite Hc. now apply IH.
Qed.

Lemma drop_trailing_blank (b : string) :
  blank b = true -> drop_trailing_blanks b = EmptyString.
Proof.
  induction b as [|c b IH]; [reflexivity|]. cbn [blank].
  intros [Hc Hb]%andb_true_iff. cbn [drop_trailing_blanks].
  now rewrite (IH Hb), Hc.
Qed.

Lemma drop_trailing_app (s b : string) :
  blank b = true ->
  drop_trailing_blanks (String.append s b) = drop_trailing_blanks s.
Proof.
  intros Hb. induction s as [|c s IH].
  - now apply drop_trailing_blank.
  - rewrite append_cons. cbn [drop_trailing_blanks]. now rewrite IH.
Qed.

Lemma trim_numeral (a b : string) (n : Z) :
  blank a = true -> blank b = true ->
  drop_trailing_blanks
    (skip_blanks (String.append a (String.append (str_of_Z n) b)))
  = str_of_Z n.
Proof.
  intros Ha Hb. rewrite (skip_blanks_app _ _ Ha).
  destruct (trim_str_of_Z n) as [Hs Hd].
  assert (Hhead : skip_blanks (String.append (str_of_Z n) b)
                  = String.append (str_of_Z n) b).
  { revert Hs. destruct (str_of_Z n) as [|c r] eqn:E.
    - pose proof (numeral_chars_str_of_Z n) as _.
      exfalso. revert E. unfold str_of_Z. destruct (n <? 0); [discriminate|].
      destruct (str_of_N_head (Z.to_N n)) as (c & r & -> & _). discriminate.
    - rewrite append_cons. cbn [skip_blanks].
      destruct (is_blank c); [|reflexivity].
      intros Hs. exfalso.
      assert (Hlen : (String.length (skip_blanks r) <= String.length r)%nat).
      { clear. induction r as [|c r IH]; [reflexivity|]. cbn [skip_blanks].
        destruct (is_blank c); cbn [String.length]; lia. }
      rewrite Hs in Hlen. cbn [String.length] in Hlen. lia. }
  rewrite Hhead, (drop_trailing_app _ _ Hb). exact Hd.
Qed.

Lemma blank_numeral_chars (a : string) : blank a = true -> numeral_chars a = true.
Proof.
  induction a as [|c a IH]; [reflexivity|]. cbn [blank numeral_chars].
  intros [Hc Ha]%andb_true_iff. rewrite Hc, (IH Ha). now rewrite orb_true_r.
Qed.

(** A numeral between blanks is not taken for a missing value. *)
Lemma is_na_blank_numeral (a b : string) (n : Z) :
  blank a = true -> blank b = true ->
  is_na (String.append a (String.append (str_of_Z n) b)) = false.
Proof.
  intros Ha Hb. apply is_na_numeral.
  - rewrite !numeral_chars_app, numeral_chars_str_of_Z.
    now rewrite (blank_numeral_chars a Ha), (blank_numeral_chars b Hb).
  - intros H. apply (f_equal String.length) in H.
    rewrite !append_length in H.
    assert (String.length (str_of_Z n) <> 0)%nat; [|cbn in H; lia].
    unfold str_of_Z. destruct (n <? 0); [discriminate|].
    destruct (str_of_N_head (Z.to_N n)) as (c & r & -> & _). discriminate.
Qed.

Lemma parse_number_integer (a b : string) (n : Z) :
  blank a = true -> blank b = true ->
  exists q, parse_number (String.append a (String.append (str_of_Z n) b))
            = Some (Finite q)
            /\ trunc q = n.
Proof.
  intros Ha Hb. unfold parse_number. rewrite (trim_numeral a b n Ha Hb).
  destruct (parse_decimal_integer n) as (q & -> & Hq). eauto.
Qed.

Lemma coerces_to_integer (v : option cell) (n z : Z) :
  holds_integer v n -> coerces_to v z -> z = n.
Proof.
  unfold coerces_to. intros [-> | (a & b & Ha & Hb & ->)];
    cbn [to_numeric_cell from_option id].
  - unfold to_int64. rewrite trunc_inject_Z.
    destruct (int64_ok n); [now intros [= <-] | discriminate].
  - destruct (parse_number_integer a b n Ha Hb) as (q & -> & Hq).
    cbn [from_option id]. unfold to_int64. rewrite Hq.
    destruct (int64_ok n); [now intros [= <-] | discriminate].
Qed.

(** *** Supplying the missing columns *)

Lemma ensure_col_has (df : DataFrame) (c k : string) :
  has_column k df = true -> has_column k (ensure_col df c) = true.
Proof.
  intros H. unfold ensure_col. destruct (has_column c df); [exact H|].
  now apply columns_assign_has.
Qed.

Lemma ensure_col_rows_length (df : DataFrame) (c : string) :
  length (rows (ensure_col df c)) = length (rows df).
Proof.
  unfold ensure_col. destruct (has_column c df); [reflexivity|].
  apply rows_assign_length.
Qed.

Lemma ensure_col_other (df : DataFrame) (c k : string) :
  has_column k df = true -> col k (ensure_col df c) = col k df.
Proof.
  intros H. unfold ensure_col. destruct (has_column c df) eqn:E; [reflexivity|].
  apply col_assign_ne. intros ->. congruence.
Qed.

Lemma ensure_cols_kept (l : list string) :
  forall df k, has_column k df = true ->
    col k (foldl ensure_col df l) = col k df
    /\ has_column k (foldl ensure_col df l) = true.
Proof.
  induction l as [|c l IH]; intros df k H; cbn [foldl]; [auto|].
  destruct (IH (ensure_col df c) k (ensure_col_has df c k H)) as [-> ->].
  split; [now apply ensure_col_other | reflexivity].
Qed.

Lemma ensure_cols_rows_length (l : list string) :
  forall df, length (rows (foldl ensure_col df l)) = length (rows df).
Proof.
  induction l as [|c l IH]; intros df; cbn [foldl]; [reflexivity|].
  now rewrite IH, ensure_col_rows_length.
Qed.

Lemma ensure_col_absent (df : DataFrame) (c k : string) :
  c <> k -> has_column k df = false -> has_column k (ensure_col df c) = false.
Proof.
  intros Hne H. unfold ensure_col. destruct (has_column c df) eqn:E; [exact H|].
  apply has_column_false. apply has_column_false in H.
  unfold assign_scalar, assign. cbn [columns]. rewrite E.
  rewrite elem_of_app, list_elem_of_singleton. intros [?|?]; congruence.
Qed.

Lemma ensure_cols_filled (l : list string) :
  forall df k, has_column k df = false -> k ∈ l ->
    col k (foldl ensure_col df l)
    = replicate (length (rows df)) (Some (default_cell k)).
Proof.
  induction l as [|c l IH]; intros df k H Hin; [now apply elem_of_nil in Hin|].
  cbn [foldl]. destruct (decide (c = k)) as [->|Hne].
  - assert (Hnow : has_column k (ensure_col df k) = true).
    { unfold ensure_col. rewrite H. apply columns_assign_self. }
    destruct (ensure_cols_kept l _ k Hnow) as [-> _].
    unfold ensure_col. rewrite H. apply col_assign_scalar.
  - apply elem_of_cons in Hin as [->|Hin]; [congruence|].
    rewrite (IH (ensure_col df c) k (ensure_col_absent df c k Hne H) Hin).
    now rewrite ensure_col_rows_length.
Qed.

(** *** [load_inventory] *)

Lemma load_inventory_missing (w : World) :
  inventory_xlsx w = None ->
  load_inventory w = (inr (empty_frame default_cols), w).
Proof. intros H. unfold load_inventory. monad_unfold. now rewrite H. Qed.

Lemma load_inventory_run (w : World) (sheet df : DataFrame) :
  inventory_xlsx w = Some sheet ->
  fst (load_inventory w) = inr df ->
  exists d1 d2,
    coerce_column "Quantity" (read_excel_str sheet) = inr d1
    /\ coerce_column "Reorder Level" d1 = inr d2
    /\ df = select default_cols (foldl ensure_col d2 default_cols).
Proof.
  intros Hfile. unfold load_inventory. unfold bind at 1. unfold gets.
  rewrite Hfile. monad_unfold.
  destruct (coerce_column "Quantity" (read_excel_str sheet)) as [e|d1] eqn:E1;
    [discriminate|].
  destruct (coerce_column "Reorder Level" d1) as [e|d2] eqn:E2; [discriminate|].
  cbn [fst]. intros H. apply (inj inr) in H.
  assert (Hdf : df = select default_cols (foldl ensure_col d2 default_cols))
    by (symmetry; exact H).
  exists d1, d2. split; [reflexivity|]. split; [exact E2 | exact Hdf].
Qed.

Lemma col_read_excel_str (c : string) (sheet : DataFrame) :
  col c (read_excel_str sheet)
  = (fun r : gmap string cell => r !! c ≫= read_excel_str_cell) <$> rows sheet.
Proof.
  unfold col, read_excel_str. cbn [rows]. rewrite <- list_fmap_compose.
  apply list_fmap_ext. intros i r _. cbn. apply lookup_omap.
Qed.

Lemma col_read_excel (c : string) (sheet : DataFrame) :
  col c (read_excel sheet)
  = (fun r : gmap string cell => r !! c ≫= read_excel_cell) <$> rows sheet.
Proof.
  unfold col, read_excel. cbn [rows]. rewrite <- list_fmap_compose.
  apply list_fmap_ext. intros i r _. cbn. apply lookup_omap.
Qed.

(** The two numeric columns after the two coercions in a row. *)
Lemma twice_coerced_col (d0 d1 d2 : DataFrame) (c : string) :
  c ∈ numeric_cols ->
  has_column c d0 = true ->
  coerce_column "Quantity" d0 = inr d1 ->
  coerce_column "Reorder Level" d1 = inr d2 ->
  coerced_col (col c d0) (col c d2).
Proof.
  unfold numeric_cols. rewrite !elem_of_cons, elem_of_nil.
  intros [->|[->|[]]] Hhas H1 H2.
  - rewrite (col_coerce_column_ne "Reorder Level" "Quantity" d1 d2) by (discriminate || exact H2).
    now apply col_coerce_column_eq.
  - rewrite <- (col_coerce_column_ne "Quantity" "Reorder Level" d0 d1) by (discriminate || exact H1).
    apply col_coerce_column_eq; [|exact H2].
    now rewrite (has_column_coerce_column _ _ _ _ H1).
Qed.

(** The two numeric columns of a loaded table. *)
Lemma loaded_numeric_col (w : World) (sheet df : DataFrame) (c : string) :
  inventory_xlsx w = Some sheet ->
  fst (load_inventory w) = inr df ->
  c ∈ numeric_cols ->
  length (rows df) = length (rows sheet)
  /\ if has_column c sheet
     then coerced_col (col c (read_excel_str sheet)) (col c df)
     else col c df = replicate (length (rows sheet)) (Some (Int 0)).
Proof.
  intros Hfile Hrun Hc.
  destruct (load_inventory_run w sheet df Hfile Hrun) as (d1 & d2 & H1 & H2 & ->).
  assert (Hdef : c ∈ default_cols).
  { revert Hc. unfold numeric_cols. rewrite !elem_of_cons, elem_of_nil.
    intros [->|[->|[]]]; in_labels. }
  assert (Hhas : has_column c d2 = has_column c sheet).
  { rewrite (has_column_coerce_column _ _ _ _ H2),
      (has_column_coerce_column _ _ _ _ H1). reflexivity. }
  assert (Hlen : length (rows d2) = length (rows sheet)).
  { rewrite (rows_coerce_column_length _ _ _ H2),
      (rows_coerce_column_length _ _ _ H1).
    unfold read_excel_str. cbn [rows]. apply length_fmap. }
  split.
  - unfold select. cbn [rows]. now rewrite length_fmap, ensure_cols_rows_length.
  - rewrite col_select by exact Hdef.
    destruct (has_column c sheet) eqn:E.
    + destruct (ensure_cols_kept default_cols d2 c Hhas) as [-> _].
      now apply (twice_coerced_col (read_excel_str sheet) d1 d2).
    + rewrite (ensure_cols_filled default_cols d2 c Hhas Hdef), Hlen.
      unfold default_cell. now rewrite bool_decide_eq_true_2.
Qed.

(** The numeric columns of the table a confirmed upload saves. *)
Lemma uploaded_numeric_col (new_df table : DataFrame) (c : string) :
  c ∈ numeric_cols -> has_column c new_df = true ->
  bulk_upload_table new_df = inr table ->
  coerced_col (col c new_df) (col c table).
Proof.
  intros Hc Hhas. unfold bulk_upload_table, pure_bind.
  destruct (coerce_column "Quantity" new_df) as [e|d1] eqn:H1; [discriminate|].
  intros H2. now apply (twice_coerced_col new_df d1 table).
Qed.

(** *** Saving *)

Lemma save_inventory_run (df : DataFrame) (action_desc details : string) (w : World) :
  exists line,
    save_inventory df action_desc details w
    = (inl Rerun,
       emit (st_toast "Inventory updated!")
         (append_audit_log line
            (set_session_inventory df (set_inventory_xlsx df w)))).
Proof. eexists. unfold save_inventory, log_action. monad_unfold. reflexivity. Qed.

Lemma save_inventory_stores (df : DataFrame) (a d : string) (w : World) :
  fst (save_inventory df a d w) = inl Rerun
  /\ inventory_xlsx (snd (save_inventory df a d w)) = Some df
  /\ session_inventory (snd (save_inventory df a d w)) = Some df.
Proof.
  destruct (save_inventory_run df a d w) as [line ->]. repeat split.
Qed.

(** *** Item ids under the three row edits *)

Lemma col_concat (c : string) (a b : DataFrame) :
  col c (concat a b) = col c a ++ col c b.
Proof. unfold col, concat. cbn [rows]. apply fmap_app. Qed.

Lemma col_new_item (new_id : string) (f : AddForm) :
  col "Item ID" (frame_of_record (add_item_row new_id f)) = [Some (Str new_id)].
Proof.
  unfold col, frame_of_record, add_item_row. cbn [rows fmap list_fmap].
  reflexivity.
Qed.

Lemma col_get (c : string) (df : DataFrame) :
  has_column c df = true -> get c df = col c df.
Proof. intros H. unfold get. now rewrite H. Qed.

Lemma add_item_keeps_unique (df : DataFrame) (f : AddForm) :
  has_column "Item ID" df = true ->
  unique_ids df -> unique_ids (add_item_table df f).
Proof.
  intros Hcol Hu. unfold unique_ids, add_item_table.
  rewrite col_concat, col_new_item.
  apply NoDup_app. split; [exact Hu|]. split; [|apply NoDup_singleton].
  intros v Hv Hnew%list_elem_of_singleton. subst v.
  apply (next_item_id_fresh df). unfold existing_ids. rewrite (col_get _ _ Hcol).
  apply in_map_iff. exists (Some (Str (next_item_id df))).
  split; [reflexivity | now apply list_elem_of_In].
Qed.

Lemma edit_item_keeps_ids (df : DataFrame) (sel_id : option cell) (f : EditForm) :
  col "Item ID" (edit_item_table df sel_id f) = col "Item ID" df.
Proof.
  unfold col, edit_item_table. cbn [rows]. rewrite <- list_fmap_compose.
  apply list_fmap_ext. intros i r _. cbn.
  destruct (eq_cell (r !! "Item ID") sel_id); [|reflexivity].
  now rewrite !lookup_insert_ne by discriminate.
Qed.

Lemma NoDup_fmap_filter {A B} (g : A -> B) (p : A -> bool) (l : list A) :
  NoDup (g <$> l) -> NoDup (g <$> List.filter p l).
Proof.
  induction l as [|x l IH]; [auto|].
  rewrite fmap_cons, NoDup_cons. intros [Hx Hl]. cbn [List.filter].
  destruct (p x); [|auto].
  rewrite fmap_cons, NoDup_cons. split; [|auto].
  intros Hin. apply Hx.
  apply list_elem_of_fmap in Hin as (y & -> & Hy).
  apply list_elem_of_fmap. exists y. split; [reflexivity|].
  apply list_elem_of_In in Hy. apply filter_In in Hy as [Hy _].
  now apply list_elem_of_In.
Qed.

Lemma delete_item_keeps_unique (df : DataFrame) (del_id : option cell) :
  unique_ids df -> unique_ids (delete_item_table df del_id).
Proof.
  unfold unique_ids, delete_item_table, col at 2.
  rewrite (rows_filter_rows_col (fun v => negb (eq_cell v del_id))).
  apply NoDup_fmap_filter.
Qed.

End InventoryFacts.

(* ===================================================================== *)
(** ** Facts about the page and the User Management tab *)
(* ===================================================================== *)

Module PageFacts.
Import Py Pandas Datetime VC Obs PyFacts PandasFacts UsersFacts.

Lemma page_extends_ret {A} (a : A) : page_extends (ret a).
Proof. intros w. exists []. cbn. now rewrite app_nil_r. Qed.

Lemma page_extends_raise {A} (e : exn) : page_extends (@raise A e).
Proof. intros w. exists []. cbn. now rewrite app_nil_r. Qed.

Lemma page_extends_lift {A} (r : exn + A) : page_extends (lift r).
Proof. intros w. exists []. cbn. now rewrite app_nil_r. Qed.

Lemma page_extends_gets {A} (f : World -> A) : page_extends (gets f).
Proof. intros w. exists []. cbn. now rewrite app_nil_r. Qed.

Lemma page_extends_st (e : element) : page_extends (render e).
Proof. intros w. exists [e]. reflexivity. Qed.

Lemma page_extends_modify (f : World -> World) :
  (forall w, page (f w) = page w) -> page_extends (modify f).
Proof. intros H w. exists []. cbn. now rewrite H, app_nil_r. Qed.

Lemma page_extends_bind {A B} (m : M A) (k : A -> M B) :
  page_extends m -> (forall a, page_extends (k a)) -> page_extends (bind m k).
Proof.
  intros Hm Hk w. unfold bind.
  destruct (Hm w) as [t1 H1]. destruct (m w) as [[e|a] w1]; cbn [snd] in *.
  - eauto.
  - destruct (Hk a w1) as [t2 H2]. exists (t1 ++ t2).
    now rewrite H2, H1, app_assoc.
Qed.

Lemma page_extends_try {A} (m : M A) (h : exn -> M A) :
  page_extends m -> (forall e, page_extends (h e)) -> page_extends (try_except m h).
Proof.
  intros Hm Hh w. unfold try_except.
  destruct (Hm w) as [t1 H1]. destruct (m w) as [[e|a] w1]; cbn [snd] in *.
  - destruct (is_Exception e); [|eauto].
    destruct (Hh e w1) as [t2 H2]. exists (t1 ++ t2).
    now rewrite H2, H1, app_assoc.
  - eauto.
Qed.

Lemma page_extends_urandom (n : nat) : page_extends (urandom n).
Proof. intros w. exists []. cbn. now rewrite app_nil_r. Qed.

Lemma page_extends_if {A} (b : bool) (m1 m2 : M A) :
  page_extends m1 -> page_extends m2 -> page_extends (if b then m1 else m2).
Proof. destruct b; auto. Qed.

Create HintDb page discriminated.
#[local] Hint Resolve page_extends_ret page_extends_raise page_extends_lift
  page_extends_gets page_extends_st page_extends_urandom : page.

Ltac page_step :=
  first
    [ apply page_extends_bind; [|intros ?]
    | apply page_extends_try; [|intros ?]
    | apply page_extends_if
    | apply page_extends_modify; intros ?; reflexivity
    | solve [auto with page] ].

Lemma page_extends_load_users : page_extends load_users.
Proof.
  unfold load_users. page_step; [page_step|].
  destruct a; apply page_extends_ret.
Qed.

Lemma page_extends_log_action (u a d : string) : page_extends (log_action u a d).
Proof. unfold log_action. repeat page_step. Qed.

Lemma page_extends_add_user (u p : string) (it : Z) :
  page_extends (add_user_to_csv u p it).
Proof.
  unfold add_user_to_csv. do 4 (page_step; [page_step|]).
  page_step; [|page_step].
  destruct a2; [page_step; page_step | page_step].
Qed.

Lemma page_extends_delete_user (u : string) : page_extends (delete_user_from_csv u).
Proof.
  unfold delete_user_from_csv. page_step; [apply page_extends_load_users|].
  repeat page_step.
Qed.

Lemma users_table_emit (e : element) (w : World) :
  users_table (emit e w) = users_table w.
Proof.
  unfold users_table, load_users. monad_unfold. cbn [users_csv emit].
  destruct (users_csv w); reflexivity.
Qed.

Lemma is_admin_user_run (username : string) (w : World) :
  is_admin_user username w
  = (inr match rows (users_table w) with
         | [] => false
         | r :: _ => eq_str (r !! "username") username
         end, w).
Proof.
  unfold is_admin_user. unfold bind at 1. rewrite load_users_run.
  unfold df_empty.
  pose proof (columns_nonempty "username" (users_table w)
                (users_table_has w "username" ltac:(in_labels))) as Hne.
  destruct (rows (users_table w)) as [|r rs]; [reflexivity|].
  destruct (columns (users_table w)); [congruence | reflexivity].
Qed.

(** A user who is not the admin gets the warning and nothing else. *)
Lemma user_management_denied (username : string) (f : UserForm) (w : World) :
  user_management false username f w
  = (inl Stop,
     emit (st_warning "Only the admin can manage users.")
          (emit (st_markdown "User Management") w)).
Proof. reflexivity. Qed.

(** The admin gets the list of users; whatever follows comes after it. *)
Lemma user_management_granted (username : string) (f : UserForm) (w : World) :
  exists tail,
    page (snd (user_management true username f w))
    = page w ++ [ st_markdown "User Management"; st_subheader "Existing users";
                  st_dataframe (users_table w) ] ++ tail.
Proof.
  unfold user_management. cbn [negb].
  match goal with
  | |- exists tail, page (snd (bind _ (fun _ => bind _ (fun _ => bind _ (fun _ =>
         bind _ (fun users => bind _ (fun _ => ?rest))))) w)) = _ =>
      assert (Hrest : page_extends rest);
      [| assert (Hrun : forall w0,
           bind (render (st_markdown "User Management")) (fun _ => bind (ret tt) (fun _ =>
             bind (render (st_subheader "Existing users")) (fun _ =>
               bind load_users (fun users => bind (render (st_dataframe users)) (fun _ => rest))))) w0
           = rest (emit (st_dataframe (users_table w0))
                     (emit (st_subheader "Existing users")
                        (emit (st_markdown "User Management") w0))))
          by (intros w0; unfold bind at 1 2 3; cbn [render modify ret];
              unfold bind at 1; rewrite load_users_run;
              unfold bind at 1; cbn [render modify];
              rewrite !users_table_emit; reflexivity);
         rewrite Hrun;
         destruct (Hrest (emit (st_dataframe (users_table w))
                            (emit (st_subheader "Existing users")
                               (emit (st_markdown "User Management") w))))
           as [tail Ht];
         exists tail; rewrite Ht; cbn [page emit];
         rewrite <- !app_assoc; reflexivity ]
  end.
  repeat first
    [ apply page_extends_add_user
    | apply page_extends_delete_user
    | apply page_extends_log_action
    | apply page_extends_load_users
    | page_step ].
Qed.

End PageFacts.

(* ===================================================================== *)
(** ** Facts about the Expiry Monitor *)
(* ===================================================================== *)

Module ExpiryFacts.
Import Py Pandas Datetime VC Obs PyFacts PandasFacts.

Section WithReader.

Variable to_datetime : list (option cell) -> list (option Z).

Local Abbreviation parsed_at := (Obs.parsed_at to_datetime).

(** The row of [exp_df] at a position, before the status is added. *)
Lemma expiry_frame_row (now : Z) (df : DataFrame) (i : nat) (r0 : gmap string cell) :
  rows df !! i = Some r0 ->
  rows (expiry_frame to_datetime now df) !! i
  = Some (set_cell "Days to Expiry"
            (days_to_expiry now (Int <$> parsed_at df i))
            (set_cell "Expiry Parsed" (Int <$> parsed_at df i) r0)).
Proof.
  intros Hr. unfold expiry_frame.
  set (d1 := assign "Expiry Parsed" _ df).
  assert (H1 : rows d1 !! i
               = Some (set_cell "Expiry Parsed" (Int <$> parsed_at df i) r0)).
  { subst d1. rewrite rows_assign_lookup, Hr. cbn [fmap option_fmap option_map].
    do 2 f_equal. rewrite list_lookup_fmap. unfold parsed_at.
    destruct (to_datetime (col "Expiry Date" df) !! i) as [[t|]|]; reflexivity. }
  rewrite rows_assign_lookup, H1. cbn [fmap option_fmap option_map].
  do 2 f_equal. rewrite list_lookup_fmap, col_lookup, H1.
  cbn [fmap option_fmap option_map mjoin option_join mbind option_bind].
  now rewrite lookup_set_cell_eq.
Qed.

Lemma expiry_frame_parsed (now : Z) (df : DataFrame) (i : nat) (r0 : gmap string cell) :
  rows df !! i = Some r0 ->
  col "Expiry Parsed" (expiry_frame to_datetime now df) !! i
  = Some (Int <$> parsed_at df i).
Proof.
  intros Hr. rewrite col_lookup, (expiry_frame_row now df i r0 Hr).
  cbn [fmap option_fmap option_map].
  rewrite lookup_set_cell_ne by discriminate. now rewrite lookup_set_cell_eq.
Qed.

Lemma expiry_frame_days (now : Z) (df : DataFrame) (i : nat) (r0 : gmap string cell) :
  rows df !! i = Some r0 ->
  col "Days to Expiry" (expiry_frame to_datetime now df) !! i
  = Some (days_to_expiry now (Int <$> parsed_at df i)).
Proof.
  intros Hr. rewrite col_lookup, (expiry_frame_row now df i r0 Hr).
  cbn [fmap option_fmap option_map]. now rewrite lookup_set_cell_eq.
Qed.

(** Every choice of the radio button leaves out a row without a date. *)
Lemma expiry_mask_nat (now : Z) (df : DataFrame) (exp_filter : string)
    (i : nat) (r0 : gmap string cell) :
  rows df !! i = Some r0 ->
  parsed_at df i = None ->
  expiry_mask exp_filter (expiry_frame to_datetime now df) !! i = Some false.
Proof.
  intros Hr Hp. unfold expiry_mask.
  repeat match goal with
         | |- context [if ?b then _ else _] => destruct b
         end;
    rewrite list_lookup_fmap;
    rewrite ?(expiry_frame_parsed now df i r0 Hr),
            ?(expiry_frame_days now df i r0 Hr), Hp; reflexivity.
Qed.

Lemma expiry_monitor_run (now : Z) (df : DataFrame) (exp_filter : string) :
  has_column "Expiry Date" df = true ->
  exists counts,
    expiry_monitor to_datetime now df exp_filter
    = inr (MkExpiryView
             (assign "Expiry Status"
                (expiry_status <$> col "Days to Expiry" (expiry_frame to_datetime now df))
                (expiry_frame to_datetime now df))
             (boolean_index (expiry_mask exp_filter (expiry_frame to_datetime now df))
                            (expiry_frame to_datetime now df))
             counts).
Proof. intros H. unfold expiry_monitor. rewrite H. eexists. reflexivity. Qed.

End WithReader.

(** Ninety days ahead, by the calendar or to the microsecond, is 89 or 90
    whole days away. *)
Lemma ninety_days_ahead (now t : Z) :
  t = start_of_day now + 90 * day_us \/ t = now + 90 * day_us ->
  89 <= timedelta_days (t - now) <= 90.
Proof.
  unfold timedelta_days, start_of_day, day_us.
  intros [->| ->].
  - pose proof (Z.mod_pos_bound now (86400 * 1000000) ltac:(lia)) as Hm.
    split.
    + apply Z.div_le_lower_bound; lia.
    + apply Z.div_le_upper_bound; lia.
  - replace (now + 90 * (86400 * 1000000) - now) with (90 * (86400 * 1000000)) by lia.
    rewrite Z.div_mul by lia. lia.
Qed.

Lemma status_of_89_or_90 (d : Z) :
  89 <= d <= 90 -> expiry_status (Some (Int d)) = Some (Str "30-90 days").
Proof.
  intros H. assert (Hd : d = 89 \/ d = 90) by lia.
  destruct Hd as [-> | ->]; reflexivity.
Qed.

End ExpiryFacts.

(* ===================================================================== *)
(** ** Properties of the credential store and the admin gate *)
(* ===================================================================== *)

Import Py Pandas Datetime VC Obs.
Import PyFacts HashlibFacts PandasFacts UsersFacts ItemIdFacts InventoryFacts.
Import PageFacts ExpiryFacts.

#[local] Opaque Hashlib.pbkdf2_block Hashlib.sha256.

Lemma login_absent (w : World) (username password : string) :
  str_in username (col "username" (users_table w)) = false ->
  login_ui username password true w
  = (inr (false, None), emit (st_error "Invalid username or password.") w).
Proof.
  intros H. rewrite login_ui_run, filter_none; [reflexivity|].
  intros r Hr. rewrite str_in_false in H. apply H.
  unfold col. apply in_map_iff. eauto.
Qed.

Lemma add_user_to_csv_ok (w : World) (username password : string) (iterations : Z) :
  fst (add_user_to_csv username password iterations w) = inr tt ->
  1 <= iterations <= 2 ^ 31 - 1
  /\ forall csv, users_csv w = Some csv ->
                 str_in username (get "username" (read_csv csv)) = false.
Proof.
  rewrite add_user_to_csv_run. cbv zeta.
  destruct (hashlib_pbkdf2_hmac (encode password) (next_salt w) iterations)
    as [e|dk] eqn:E; [discriminate|].
  apply hashlib_pbkdf2_hmac_inv in E as [Hit _].
  intros H. split; [exact Hit|]. intros csv Hcsv. rewrite Hcsv in H.
  destruct (str_in username (get "username" (read_csv csv))); [discriminate|reflexivity].
Qed.

(** C1 (amended).  Let [add_user_to_csv username password] succeed, for
    a username that is not one of the spellings the CSV reader takes for
    a missing value.  A login right afterwards with the same password
    succeeds; a login with another password fails whenever that password
    derives a different PBKDF2 key under the stored salt and iteration
    count; and a login under a username that is not in the table of users
    fails. *)
Theorem verify_after_create
    (w : World) (username password : string) (iterations : Z) :
  fst (add_user_to_csv username password iterations w) = inr tt ->
  is_na username = false ->
  let w1 := snd (add_user_to_csv username password iterations w) in
  let key := fun p => derived_key p (next_salt w) iterations in
  fst (login_ui username password true w1) = inr (true, Some username)
  /\ (forall other,
        key other <> key password ->
        fst (login_ui username other true w1) = inr (false, None))
  /\ (forall absent attempt,
        str_in absent (col "username" (users_table w1)) = false ->
        fst (login_ui absent attempt true w1) = inr (false, None)).
Proof.
  intros Hadd Hna w1 key. subst w1.
  destruct (add_user_to_csv_ok _ _ _ _ Hadd) as [Hit Hdup].
  repeat split.
  - destruct (login_after_add w username password password iterations Hit Hna Hdup)
      as [_ ->].
    now rewrite String.eqb_refl.
  - intros other Hkey.
    destruct (login_after_add w username password other iterations Hit Hna Hdup)
      as [_ ->].
    destruct (String.eqb_spec
                (hexlify (Hashlib.pbkdf2_block (encode password) (next_salt w)
                            (Z.to_pos iterations)))
                (hexlify (Hashlib.pbkdf2_block (encode other) (next_salt w)
                            (Z.to_pos iterations)))) as [Heq|_]; [|reflexivity].
    apply hexlify_inj in Heq. exfalso. apply Hkey. subst key.
    unfold derived_key. now rewrite Heq.
  - intros absent attempt Habs. now rewrite login_absent.
Qed.

Lemma verify_after_create_witness :
  (fst (add_user_to_csv "alice" "pw" 2 fresh_world) = inr tt
   /\ is_na "alice" = false)
  /\ fst (login_ui "alice" "pw" true
            (snd (add_user_to_csv "alice" "pw" 2 fresh_world)))
     = inr (true, Some "alice").
Proof.
  assert (H1 : fst (add_user_to_csv "alice" "pw" 2 fresh_world) = inr tt)
    by (vm_compute; reflexivity).
  assert (H2 : is_na "alice" = false) by reflexivity.
  split; [split; assumption|].
  exact (proj1 (verify_after_create fresh_world "alice" "pw" 2 H1 H2)).
Defined.

(** HMAC pads a key shorter than its block with zero bytes, so a
    password and the same password followed by a NUL character derive the
    same key: the second one logs in too. *)
Lemma login_with_trailing_nul
    (w : World) (username password attempt : string) (iterations : Z) :
  1 <= iterations <= 2 ^ 31 - 1 ->
  is_na username = false ->
  (forall csv, users_csv w = Some csv ->
               str_in username (get "username" (read_csv csv)) = false) ->
  encode attempt = encode password ++ [x00] ->
  (length (encode password) < 64)%nat ->
  fst (add_user_to_csv username password iterations w) = inr tt
  /\ fst (login_ui username attempt true
                   (snd (add_user_to_csv username password iterations w)))
     = inr (true, Some username).
Proof.
  intros Hit Hna Hdup Henc Hlen.
  destruct (login_after_add w username password attempt iterations Hit Hna Hdup)
    as [Hadd Hlogin].
  split; [exact Hadd|]. rewrite Hlogin.
  rewrite (pbkdf2_block_key_ext (encode attempt) (encode password)).
  - now rewrite String.eqb_refl.
  - rewrite Henc. now apply hmac_key_trailing_zero.
Qed.

(** C1 (as stated) fails: after [add_user_to_csv "alice" "pw"] at the
    default iteration count, the different password "pw" followed by a
    NUL character logs in. *)
Lemma verify_accepts_trailing_nul :
  fst (add_user_to_csv "alice" "pw" PBKDF2_ITER_DEFAULT fresh_world) = inr tt
  /\ pw_nul <> "pw"
  /\ fst (login_ui "alice" pw_nul true
            (snd (add_user_to_csv "alice" "pw" PBKDF2_ITER_DEFAULT fresh_world)))
     = inr (true, Some "alice").
Proof.
  assert (Hit : 1 <= PBKDF2_ITER_DEFAULT <= 2 ^ 31 - 1)
    by (unfold PBKDF2_ITER_DEFAULT; lia).
  assert (Hna : is_na "alice" = false) by reflexivity.
  assert (Hdup : forall csv, users_csv fresh_world = Some csv ->
                   str_in "alice" (get "username" (read_csv csv)) = false)
    by (intros csv [=]).
  assert (Henc : encode pw_nul = encode "pw" ++ [x00]) by reflexivity.
  assert (Hlen : (length (encode "pw") < 64)%nat) by (cbn; lia).
  pose proof (login_with_trailing_nul fresh_world "alice" "pw" pw_nul
                PBKDF2_ITER_DEFAULT Hit Hna Hdup Henc Hlen) as [Hadd Hlogin].
  split; [exact Hadd|]. split; [discriminate | exact Hlogin].
Qed.

(** C6.  [delete_user_from_csv] with a username that is not in the table
    of users raises "Username not found." and leaves the world, the
    credential file included, exactly as it was: the same records, hence
    the same number of them. *)
Theorem delete_absent_user (w : World) (username : string) :
  str_in username (col "username" (users_table w)) = false ->
  delete_user_from_csv username w = (inl (ValueError "Username not found."), w)
  /\ users_csv (snd (delete_user_from_csv username w)) = users_csv w
  /\ length (rows (users_table (snd (delete_user_from_csv username w))))
     = length (rows (users_table w)).
Proof.
  intros H.
  assert (Hrun : delete_user_from_csv username w
                 = (inl (ValueError "Username not found."), w)).
  { unfold delete_user_from_csv. unfold bind at 1. rewrite load_users_run.
    now rewrite H. }
  rewrite Hrun. repeat split.
Qed.

Lemma delete_absent_user_witness :
  str_in "bob" (col "username" (users_table (world_with_users one_user))) = false
  /\ delete_user_from_csv "bob" (world_with_users one_user)
     = (inl (ValueError "Username not found."), world_with_users one_user).
Proof.
  assert (H : str_in "bob" (col "username" (users_table (world_with_users one_user)))
              = false) by reflexivity.
  split; [exact H|].
  exact (proj1 (delete_absent_user (world_with_users one_user) "bob" H)).
Defined.

(** The usernames of the table of users, read off the file: the field
    under the label, or the empty text in every row when the file has no
    such column. *)
Lemma row_of_fields_csv_lookup (hdr fields : list string) (k : string) :
  row_of_fields hdr fields !! k = csv_lookup k hdr fields ≫= na_filter.
Proof.
  revert fields. induction hdr as [|c hdr IH]; intros fields.
  - rewrite row_of_fields_nil, lookup_empty. reflexivity.
  - destruct fields as [|x fields].
    + rewrite row_of_fields_short, lookup_empty. reflexivity.
    + rewrite row_of_fields_cons, lookup_set_cell. cbn [csv_lookup].
      destruct (decide (c = k)) as [->|Hne].
      * now rewrite String.eqb_refl.
      * rewrite (proj2 (String.eqb_neq c k) Hne). apply IH.
Qed.

Lemma col_ensure_ne (c k : string) (df : DataFrame) :
  c <> k ->
  col k (if has_column c df then df else assign_scalar c (Str "") df) = col k df.
Proof.
  intros Hne. destruct (has_column c df); [reflexivity|].
  unfold assign_scalar. now apply col_assign_ne.
Qed.

Lemma replicate_const {A B} (l : list A) (x : B) :
  replicate (length l) x = (fun _ => x) <$> l.
Proof. induction l as [|a l IH]; [reflexivity|]. cbn. now rewrite IH. Qed.

Lemma users_table_usernames (w : World) (csv : Csv) :
  users_csv w = Some csv ->
  col "username" (users_table w)
  = (fun fields =>
       if has_column "username" (read_csv csv)
       then csv_lookup "username" (header csv) fields ≫= na_filter
       else Some (Str "")) <$> records csv.
Proof.
  intros Hw. unfold users_table, load_users. monad_unfold. rewrite Hw.
  cbn [fst]. unfold user_columns. cbn [foldl].
  rewrite !col_ensure_ne by discriminate.
  destruct (has_column "username" (read_csv csv)) eqn:E.
  - unfold col, read_csv. cbn [rows]. rewrite <- list_fmap_compose.
    apply list_fmap_ext. intros i fields _. cbn.
    apply row_of_fields_csv_lookup.
  - rewrite col_assign_scalar. unfold read_csv. cbn [rows].
    rewrite length_fmap. apply replicate_const.
Qed.

Lemma is_admin_user_col (username : string) (w : World) :
  is_admin_user username w
  = (inr match col "username" (users_table w) with
         | [] => false
         | v :: _ => eq_str v username
         end, w).
Proof.
  rewrite is_admin_user_run. unfold col.
  now destruct (rows (users_table w)).
Qed.

Lemma eq_str_na_filter_lookup (stored : option string) (username : string) :
  eq_str (stored ≫= na_filter) username = true
  <-> stored = Some username /\ is_na username = false.
Proof.
  destruct stored as [s|]; cbn; [|split; [discriminate|now intros [? _]]].
  unfold na_filter. destruct (is_na s) eqn:E; cbn.
  - split; [discriminate|]. intros [[= ->] H]. congruence.
  - rewrite String.eqb_eq. split.
    + intros ->. auto.
    + now intros [[= ->] _].
Qed.

(** A name under which a login succeeds is stored in the file, and so is
    not one the reader takes for a missing value. *)
Lemma login_name_stored (w : World) (csv : Csv) (username password : string) :
  users_csv w = Some csv ->
  "username" ∈ header csv ->
  fst (login_ui username password true w) = inr (true, Some username) ->
  is_na username = false.
Proof.
  intros Hw Hin. rewrite login_ui_run.
  destruct (List.filter _ (rows (users_table w))) as [|r rest] eqn:E;
    [discriminate|].
  intros _.
  assert (Hr : In r (List.filter
                       (fun r : gmap string cell => eq_str (r !! "username") username)
                       (rows (users_table w)))) by (rewrite E; now left).
  apply filter_In in Hr as [Hr Heq].
  assert (Hc : In (r !! "username") (col "username" (users_table w))).
  { unfold col. apply in_map_iff. eauto. }
  rewrite (users_table_usernames w csv Hw) in Hc.
  apply in_map_iff in Hc as (fields & Hf & _).
  assert (Hh : has_column "username" (read_csv csv) = true)
    by (apply has_column_true; exact Hin).
  rewrite Hh in Hf. rewrite <- Hf in Heq.
  now apply eq_str_na_filter_lookup in Heq as [_ Hna].
Qed.

(** C8.  [is_admin_user] returns true exactly when users.csv has a first
    record and the username stored in it is the given one: with no file
    or no record nobody is the admin; a stored name spelled like a
    missing value makes nobody the admin; and when the file has no
    username column, every row reads as the empty username.  For a name
    under which a login succeeds, it is true exactly when the first
    record stores that name.  In terms of the table [load_users]
    returns, it is the comparison with the first row.  With the User
    Management tab selected, a user who is not the
    admin is shown the warning "Only the admin can manage users." and the
    script stops; the admin is shown the list of users. *)
Theorem admin_is_first_row (w : World) (username : string) (f : UserForm) :
  (users_csv w = None -> is_admin_user username w = (inr false, w))
  /\ (forall csv, users_csv w = Some csv ->
        exists b, is_admin_user username w = (inr b, w)
          /\ ("username" ∈ header csv ->
              (b = true <->
               exists fields rest,
                 records csv = fields :: rest
                 /\ csv_lookup "username" (header csv) fields = Some username
                 /\ is_na username = false))
          /\ ("username" ∉ header csv -> header csv <> [] ->
              (b = true <-> records csv <> [] /\ username = EmptyString))
          /\ (forall password,
                "username" ∈ header csv ->
                fst (login_ui username password true w) = inr (true, Some username) ->
                (b = true <->
                 exists fields rest,
                   records csv = fields :: rest
                   /\ csv_lookup "username" (header csv) fields = Some username)))
  /\ (exists b, is_admin_user username w = (inr b, w)
                /\ (b = true <->
                    exists r rest, rows (users_table w) = r :: rest
                                   /\ r !! "username" = Some (Str username)))
  /\ (fst (is_admin_user username w) = inr false ->
      script_user_management username f w
      = (inl Stop,
         emit (st_warning "Only the admin can manage users.")
              (emit (st_markdown "User Management") w)))
  /\ (fst (is_admin_user username w) = inr true ->
      exists tail,
        page (snd (script_user_management username f w))
        = page w ++ [ st_markdown "User Management"; st_subheader "Existing users";
                      st_dataframe (users_table w) ] ++ tail).
Proof.
  split; [|split; [|split; [|split]]].
  - intros Hw. rewrite is_admin_user_run.
    unfold users_table, load_users. monad_unfold. now rewrite Hw.
  - intros csv Hw. rewrite is_admin_user_col, (users_table_usernames w csv Hw).
    eexists. split; [reflexivity|].
    assert (Hstored : "username" ∈ header csv ->
      (match (fun fields =>
                if has_column "username" (read_csv csv)
                then csv_lookup "username" (header csv) fields ≫= na_filter
                else Some (Str "")) <$> records csv with
       | [] => false
       | v :: _ => eq_str v username
       end = true <->
       exists fields rest,
         records csv = fields :: rest
         /\ csv_lookup "username" (header csv) fields = Some username
         /\ is_na username = false)).
    { intros Hin.
      assert (Hh : has_column "username" (read_csv csv) = true)
        by (apply has_column_true; exact Hin).
      rewrite Hh. destruct (records csv) as [|fields rest]; cbn [fmap list_fmap].
      * split; [discriminate|]. intros (? & ? & [=] & _).
      * rewrite eq_str_na_filter_lookup. split.
        -- intros [H1 H2]. exists fields, rest. auto.
        -- intros (fields' & rest' & [= <- <-] & H1 & H2). auto. }
    split; [exact Hstored|]. split.
    + intros Hout _.
      assert (Hh : has_column "username" (read_csv csv) = false)
        by (apply has_column_false; exact Hout).
      rewrite Hh. destruct (records csv) as [|fields rest]; cbn [fmap list_fmap].
      * split; [discriminate|]. now intros [? _].
      * cbn [eq_str]. rewrite String.eqb_eq. split.
        -- intros <-. split; [discriminate|reflexivity].
        -- now intros [_ ->].
    + intros password Hin Hlogin.
      pose proof (login_name_stored w csv username password Hw Hin Hlogin) as Hna.
      rewrite (Hstored Hin). split.
      * intros (fields & rest & H1 & H2 & _). eauto.
      * intros (fields & rest & H1 & H2). eauto 6.
  - rewrite is_admin_user_run. eexists. split; [reflexivity|].
    destruct (rows (users_table w)) as [|r rest].
    + split; [discriminate|]. intros (r & rest & [=] & _).
    + rewrite eq_str_true. split.
      * intros H. exists r, rest. auto.
      * intros (r' & rest' & [= <- <-] & H). exact H.
  - rewrite is_admin_user_run. cbn [fst].
    intros [= Hb]. unfold script_user_management, bind.
    rewrite is_admin_user_run, Hb. apply user_management_denied.
  - rewrite is_admin_user_run. cbn [fst].
    intros [= Hb]. unfold script_user_management, bind.
    rewrite is_admin_user_run, Hb. apply user_management_granted.
Qed.

(** On a file of two users the first, alice, is the admin and is shown
    the list of users; the second, bob, is shown the warning. *)
Lemma admin_is_first_row_witness :
  (users_csv (world_with_users two_users) = Some two_users
   /\ "username" ∈ header two_users)
  /\ is_admin_user "alice" (world_with_users two_users)
     = (inr true, world_with_users two_users)
  /\ is_admin_user "bob" (world_with_users two_users)
     = (inr false, world_with_users two_users)
  /\ script_user_management "bob" (MkUserForm "" "" false "" false)
       (world_with_users two_users)
     = (inl Stop,
        emit (st_warning "Only the admin can manage users.")
             (emit (st_markdown "User Management") (world_with_users two_users)))
  /\ exists tail,
       page (snd (script_user_management "alice" (MkUserForm "" "" false "" false)
                    (world_with_users two_users)))
       = [ st_markdown "User Management"; st_subheader "Existing users";
           st_dataframe (users_table (world_with_users two_users)) ] ++ tail.
Proof.
  set (w := world_with_users two_users).
  set (form := MkUserForm "" "" false "" false).
  assert (Hw : users_csv w = Some two_users) by reflexivity.
  assert (Hin : "username" ∈ header two_users) by (cbn; in_labels).
  destruct (admin_is_first_row w "alice" form) as (_ & Ha & _ & _ & Hshown).
  destruct (admin_is_first_row w "bob" form) as (_ & Hb & _ & Hdenied & _).
  destruct (Ha two_users Hw) as (a & Hrun_a & Hiff_a & _).
  destruct (Hb two_users Hw) as (b & Hrun_b & Hiff_b & _).
  assert (Et : a = true).
  { apply (Hiff_a Hin). exists ["alice"; "00"; "ab"; "1"], [["bob"; "01"; "cd"; "1"]].
    repeat split. }
  assert (Ef : b = false).
  { destruct b; [|reflexivity].
    destruct (proj1 (Hiff_b Hin) eq_refl) as (fields & rest & Hrec & Hl & _).
    injection Hrec as <- _. discriminate Hl. }
  subst a b.
  split; [split; assumption|]. split; [exact Hrun_a|]. split; [exact Hrun_b|].
  split.
  - apply Hdenied. now rewrite Hrun_b.
  - apply Hshown. now rewrite Hrun_a.
Defined.

(** C10.  When the stored salt is text that is not valid hexadecimal,
    [verify_password_pbkdf2] does what it would do with the bytes of that
    text as the salt: the only exceptions left are those of the iteration
    count, and with a count the library accepts the result is the boolean
    comparison of the derived key, in hexadecimal, with the stored hash.
    With such a count the function returns a boolean for every salt
    text. *)
Theorem verify_non_hex_salt
    (password salt_hex : string) (hash_hex : option cell) (iterations : Z) :
  unhexlify salt_hex = None ->
  verify_password_pbkdf2 password (Some (Str salt_hex)) hash_hex iterations
  = match hashlib_pbkdf2_hmac (encode password) (encode salt_hex) iterations with
    | inl e => inl e
    | inr dk => inr (eq_str hash_hex (hexlify dk))
    end
  /\ (1 <= iterations <= 2 ^ 31 - 1 ->
      verify_password_pbkdf2 password (Some (Str salt_hex)) hash_hex iterations
      = inr (eq_str hash_hex
               (hexlify (derived_key password (encode salt_hex) iterations))))
  /\ (1 <= iterations <= 2 ^ 31 - 1 ->
      forall any_salt : string,
      exists b, verify_password_pbkdf2 password (Some (Str any_salt)) hash_hex iterations
                = inr b).
Proof.
  intros Hbad.
  assert (Hrun :
    verify_password_pbkdf2 password (Some (Str salt_hex)) hash_hex iterations
    = match hashlib_pbkdf2_hmac (encode password) (encode salt_hex) iterations with
      | inl e => inl e
      | inr dk => inr (eq_str hash_hex (hexlify dk))
      end).
  { unfold verify_password_pbkdf2, pure_bind, str_encode, binascii_unhexlify.
    rewrite decode_encode, Hbad. cbn [is_Exception].
    destruct (hashlib_pbkdf2_hmac _ _ _); reflexivity. }
  split; [exact Hrun|]. split.
  - intros Hit. rewrite Hrun, (hashlib_pbkdf2_hmac_ok _ _ _ Hit). reflexivity.
  - intros Hit any_salt.
    unfold verify_password_pbkdf2, pure_bind, str_encode, binascii_unhexlify.
    rewrite decode_encode.
    destruct (unhexlify any_salt) as [b|]; cbn [is_Exception];
      rewrite (hashlib_pbkdf2_hmac_ok _ _ _ Hit); eauto.
Qed.

Lemma verify_non_hex_salt_witness :
  unhexlify "zz" = None
  /\ verify_password_pbkdf2 "pw" (Some (Str "zz")) (Some (Str "00")) 1
     = match hashlib_pbkdf2_hmac (encode "pw") (encode "zz") 1 with
       | inl e => inl e
       | inr dk => inr (eq_str (Some (Str "00")) (hexlify dk))
       end.
Proof.
  assert (H : unhexlify "zz" = None) by reflexivity.
  split; [exact H|].
  exact (proj1 (verify_non_hex_salt "pw" "zz" (Some (Str "00")) 1 H)).
Defined.

(* ===================================================================== *)
(** ** Properties of the inventory store *)
(* ===================================================================== *)

Lemma no_numbers_iff (ids : list string) :
  omap lab_number ids = [] <-> forall v n, In v ids -> ~ lab_pattern v n.
Proof.
  split.
  - intros E v n Hv Hp. apply lab_number_pattern in Hp.
    assert (Hin : In n (omap lab_number ids))
      by (apply In_omap_lab_number; eauto).
    rewrite E in Hin. destruct Hin.
  - intros H. destruct (omap lab_number ids) as [|n l] eqn:E; [reflexivity|].
    assert (Hin : In n (omap lab_number ids)) by (rewrite E; now left).
    apply In_omap_lab_number in Hin as (v & Hv & Hn).
    apply lab_number_pattern in Hn. now destruct (H v n Hv).
Qed.

(** C2.  [next_item_id] reads the Item ID column as text and looks for
    ids made of the letters LAB (in either case) followed by digits.
    With no such id it returns "LAB001"; otherwise it returns "LAB"
    followed by the successor of the largest number found, written in
    decimal and padded with zeros to at least three digits.  On the ids
    LAB001 and LAB003 it returns "LAB004", on a table without rows
    "LAB001". *)
Theorem next_item_id_spec (df : DataFrame) :
  ((forall v n, In v (existing_ids df) -> ~ lab_pattern v n) ->
   next_item_id df = "LAB001")
  /\ ((exists v n, In v (existing_ids df) /\ lab_pattern v n) ->
      exists m,
        (exists v, In v (existing_ids df) /\ lab_pattern v m)
        /\ (forall v n, In v (existing_ids df) -> lab_pattern v n -> (n <= m)%N)
        /\ next_item_id df = String.append "LAB" (format_03d (m + 1)))
  /\ (forall n, isdigit (format_03d n) = true
                /\ int_of_digits (format_03d n) = Some n
                /\ (3 <= String.length (format_03d n))%nat)
  /\ (existing_ids df = ["LAB001"; "LAB003"] \/ existing_ids df = ["LAB003"; "LAB001"] ->
      next_item_id df = "LAB004")
  /\ (rows df = [] -> next_item_id df = "LAB001").
Proof.
  rewrite next_item_id_run. repeat split.
  - intros Hnone. apply (proj2 (no_numbers_iff _)) in Hnone. now rewrite Hnone.
  - intros (v & n & Hv & Hp).
    destruct (omap lab_number (existing_ids df)) as [|x nums] eqn:E.
    + now destruct (proj1 (no_numbers_iff _) E v n Hv).
    + exists (py_max (x :: nums)). repeat split.
      * assert (Hin : In (py_max (x :: nums)) (omap lab_number (existing_ids df)))
          by (rewrite E; apply py_max_In; discriminate).
        apply In_omap_lab_number in Hin as (v' & Hv' & Hn').
        exists v'. split; [exact Hv'|]. now apply lab_number_pattern.
      * intros v' n' Hv' Hp'. apply py_max_ge. rewrite <- E.
        apply In_omap_lab_number. exists v'. split; [exact Hv'|].
        now apply lab_number_pattern.
  - apply isdigit_format_03d.
  - apply int_of_digits_format_03d.
  - apply format_03d_length.
  - intros [-> | ->]; reflexivity.
  - intros Hrows. unfold existing_ids, get, col. rewrite Hrows.
    destruct (has_column "Item ID" df); reflexivity.
Qed.

Lemma next_item_id_spec_witness :
  existing_ids two_items = ["LAB001"; "LAB003"]
  /\ next_item_id two_items = "LAB004".
Proof.
  assert (H : existing_ids two_items = ["LAB001"; "LAB003"]) by reflexivity.
  split; [exact H|].
  exact (proj1 (proj2 (proj2 (proj2 (next_item_id_spec two_items)))) (or_introl H)).
Defined.

Lemma coerced_col_Forall (src dst : list (option cell)) :
  coerced_col src dst -> Forall (fun v => exists z, v = Some (Int z)) dst.
Proof.
  intros [Hlen Hrows]. apply Forall_lookup. intros i x Hx.
  assert (Hi : (i < length src)%nat)
    by (rewrite <- Hlen; now apply lookup_lt_Some in Hx).
  apply lookup_lt_is_Some in Hi as [v Hv].
  destruct (Hrows i v Hv) as (z & Hz & _). rewrite Hz in Hx.
  injection Hx as <-. eauto.
Qed.

Lemma holds_integer_read (v : option cell) (n : Z) :
  holds_integer v n ->
  holds_integer (v ≫= read_excel_str_cell) n.
Proof.
  intros [-> | (a & b & Ha & Hb & ->)]; right; cbn.
  - exists EmptyString, EmptyString. rewrite append_nil, append_empty_r. auto.
  - exists a, b. unfold na_filter. rewrite (is_na_blank_numeral a b n Ha Hb). auto.
Qed.

(** C3 (amended).  After [load_inventory] returns, every value of the
    Quantity and Reorder Level columns is an integer: 0 when the cell of
    the sheet does not read as a number or the sheet lacks the column,
    and the integer itself when the cell holds an integer of size at
    most 2^53, as a number or as its decimal text, which may stand
    between blanks; negative integers are kept as they are.  The numeric
    columns present in a confirmed upload are coerced the same way.
    Nothing makes the integer non-negative. *)
Theorem load_inventory_coerces (w : World) (sheet df : DataFrame) (c : string) :
  inventory_xlsx w = Some sheet ->
  c ∈ numeric_cols ->
  fst (load_inventory w) = inr df ->
  length (rows df) = length (rows sheet)
  /\ Forall (fun v => exists z, v = Some (Int z)) (col c df)
  /\ (has_column c sheet = true ->
      forall i r, rows sheet !! i = Some r ->
        exists z, col c df !! i = Some (Some (Int z))
          /\ (to_numeric_cell (r !! c ≫= read_excel_str_cell) = None -> z = 0)
          /\ (forall n, Z.abs n <= 2 ^ 53 -> holds_integer (r !! c) n -> z = n))
  /\ (has_column c sheet = false ->
      col c df = replicate (length (rows sheet)) (Some (Int 0)))
  /\ (forall new_df table,
        has_column c new_df = true ->
        bulk_upload_table new_df = inr table ->
        Forall (fun v => exists z, v = Some (Int z)) (col c table)
        /\ forall i v, col c new_df !! i = Some v ->
             exists z, col c table !! i = Some (Some (Int z))
               /\ (to_numeric_cell v = None -> z = 0)
               /\ (forall n, Z.abs n <= 2 ^ 53 -> holds_integer v n -> z = n)).
Proof.
  intros Hfile Hc Hrun.
  destruct (loaded_numeric_col w sheet df c Hfile Hrun Hc) as [Hlen Hcol].
  split; [exact Hlen|]. split; [|split; [|split]].
  - destruct (has_column c sheet).
    + now apply coerced_col_Forall in Hcol.
    + rewrite Hcol. apply Forall_replicate. eauto.
  - intros E i r Hr. rewrite E in Hcol. destruct Hcol as [_ Hrows].
    destruct (Hrows i (r !! c ≫= read_excel_str_cell)) as (z & Hz & Hto).
    { rewrite col_read_excel_str, list_lookup_fmap, Hr. reflexivity. }
    exists z. split; [exact Hz|]. split.
    + intros Hnone. now apply (coerces_to_unparsable _ z Hnone).
    + intros n _ Hn. apply (coerces_to_integer _ n z) in Hto; [exact Hto|].
      now apply holds_integer_read.
  - intros E. now rewrite E in Hcol.
  - intros new_df table Hhas Htable.
    pose proof (uploaded_numeric_col new_df table c Hc Hhas Htable) as Hup.
    split; [now apply coerced_col_Forall in Hup|].
    intros i v Hv. destruct Hup as [_ Hrows].
    destruct (Hrows i v Hv) as (z & Hz & Hto).
    exists z. split; [exact Hz|]. split.
    + intros Hnone. now apply (coerces_to_unparsable _ z Hnone).
    + intros n _ Hn. now apply (coerces_to_integer _ n z) in Hto.
Qed.

Lemma load_inventory_coerces_witness :
  (inventory_xlsx (world_with_inventory padded_sheet) = Some padded_sheet
   /\ "Quantity" ∈ numeric_cols
   /\ fst (load_inventory (world_with_inventory padded_sheet))
      = inr (loaded (world_with_inventory padded_sheet)))
  /\ length (rows (loaded (world_with_inventory padded_sheet)))
     = length (rows padded_sheet)
  /\ Forall (fun v => exists z, v = Some (Int z))
            (col "Quantity" (loaded (world_with_inventory padded_sheet)))
  /\ col "Quantity" (loaded (world_with_inventory padded_sheet)) !! 0%nat
     = Some (Some (Int 7)).
Proof.
  assert (H1 : inventory_xlsx (world_with_inventory padded_sheet)
               = Some padded_sheet) by reflexivity.
  assert (H2 : "Quantity" ∈ numeric_cols)
    by (unfold numeric_cols; apply elem_of_cons; now left).
  assert (H3 : fst (load_inventory (world_with_inventory padded_sheet))
               = inr (loaded (world_with_inventory padded_sheet)))
    by (vm_compute; reflexivity).
  split; [repeat split; assumption|].
  destruct (load_inventory_coerces (world_with_inventory padded_sheet)
              padded_sheet (loaded (world_with_inventory padded_sheet))
              "Quantity" H1 H2 H3) as (Hlen & Hint & Hkeep & _).
  split; [exact Hlen|]. split; [exact Hint|].
  destruct (Hkeep eq_refl 0%nat (stocked "LAB001" " 7 ") eq_refl)
    as (z & Hz & _ & Hn).
  rewrite Hz. do 2 f_equal. f_equal. apply Hn; [vm_compute; discriminate|].
  right. exists " ", " ". repeat split.
Defined.

(** C3 (as stated) fails: a sheet whose Quantity cell holds the text
    "-5" loads with the quantity -5, which is not a non-negative
    integer. *)
Lemma load_inventory_negative_quantity :
  col "Quantity" <$> returned load_inventory (world_with_inventory negative_sheet)
  = Some [Some (Int (-5))]
  /\ ~ (forall w df,
          returned load_inventory w = Some df ->
          Forall (fun v => exists z, v = Some (Int z) /\ 0 <= z) (col "Quantity" df)).
Proof.
  assert (H : col "Quantity"
                <$> returned load_inventory (world_with_inventory negative_sheet)
              = Some [Some (Int (-5))]) by (vm_compute; reflexivity).
  split; [exact H|]. intros Hall.
  destruct (returned load_inventory (world_with_inventory negative_sheet))
    as [df|] eqn:E; [|discriminate].
  specialize (Hall _ df E). injection H as H. rewrite H in Hall.
  apply Forall_cons in Hall as [(z & [= <-] & Hz) _]. lia.
Qed.

(** C5.  With no inventory file, [load_inventory] returns, without
    raising, a table with no rows and the eleven columns Item ID, Item
    Name, Category, Quantity, Unit, Reorder Level, Supplier, Last
    Restocked, Expiry Date, Storage Location and Remarks, in this
    order. *)
Theorem load_inventory_missing_file (w : World) :
  inventory_xlsx w = None ->
  load_inventory w
  = (inr (Frame [ "Item ID"; "Item Name"; "Category"; "Quantity"; "Unit";
                  "Reorder Level"; "Supplier"; "Last Restocked"; "Expiry Date";
                  "Storage Location"; "Remarks" ] []), w)
  /\ length default_cols = 11%nat.
Proof.
  intros H. split; [|reflexivity]. now apply load_inventory_missing.
Qed.

Lemma load_inventory_missing_file_witness :
  inventory_xlsx fresh_world = None
  /\ load_inventory fresh_world
     = (inr (Frame [ "Item ID"; "Item Name"; "Category"; "Quantity"; "Unit";
                     "Reorder Level"; "Supplier"; "Last Restocked"; "Expiry Date";
                     "Storage Location"; "Remarks" ] []), fresh_world).
Proof.
  assert (H : inventory_xlsx fresh_world = None) by reflexivity.
  split; [exact H|].
  exact (proj1 (load_inventory_missing_file fresh_world H)).
Defined.



(** The inventory file after one of the three row edits is the file as it
    was or the table the edit computed. *)
Lemma add_item_writes (df : DataFrame) (f : AddForm) (w : World) :
  inventory_xlsx (snd (add_item df f w)) = inventory_xlsx w
  \/ inventory_xlsx (snd (add_item df f w)) = Some (add_item_table df f).
Proof.
  unfold add_item. destruct (add_submitted f); [|now left].
  right. apply save_inventory_stores.
Qed.

Lemma edit_item_writes (df : DataFrame) (sel_id : option cell) (f : EditForm)
    (w : World) :
  inventory_xlsx (snd (edit_item df sel_id f w)) = inventory_xlsx w
  \/ inventory_xlsx (snd (edit_item df sel_id f w))
     = Some (edit_item_table df sel_id f).
Proof.
  unfold edit_item.
  destruct (df_empty df); [now left|].
  destruct (has_column "Item ID" df); [|now left]. cbn [negb].
  destruct (truthy sel_id); [|now left].
  destruct (rows (filter_rows _ df)) as [|row rest]; [now left|].
  unfold bind at 1, lift.
  destruct (edit_reads df row) as [e|[[[old_name q] rl] old_remarks]]; [now left|].
  destruct (save_btn f); [|now left].
  right. cbv [bind render modify]. apply save_inventory_stores.
Qed.

Lemma delete_item_writes (df : DataFrame) (del_id : option cell) (clicked : bool)
    (w : World) :
  inventory_xlsx (snd (delete_item df del_id clicked w)) = inventory_xlsx w
  \/ inventory_xlsx (snd (delete_item df del_id clicked w))
     = Some (delete_item_table df del_id).
Proof.
  unfold delete_item.
  destruct (df_empty df); [now left|].
  destruct (has_column "Item ID" df); [|now left]. cbn [negb].
  destruct (truthy del_id && clicked); [|now left].
  destruct (rows (filter_rows _ df)) as [|row rest].
  - right. cbv [bind ret]. apply save_inventory_stores.
  - destruct (delete_reads df row) as [e|item]; [now left|].
    right. cbv [bind lift ret]. apply save_inventory_stores.
Qed.

(** C9 (amended).  The id [next_item_id] returns differs from every id of
    the table, read as text, and so from every one that matches the LAB
    pattern in either case.  Adding an item, editing an item and deleting
    an item each keep the Item IDs of the table pairwise distinct, and
    what they write to the inventory file is that table.  (A bulk upload
    installs the uploaded table as it is.) *)
Theorem item_ids_stay_unique (df : DataFrame) :
  ~ In (next_item_id df) (existing_ids df)
  /\ (forall v n, In v (existing_ids df) -> lab_pattern v n -> v <> next_item_id df)
  /\ (forall f, has_column "Item ID" df = true ->
                unique_ids df -> unique_ids (add_item_table df f))
  /\ (forall sel_id f, unique_ids df -> unique_ids (edit_item_table df sel_id f))
  /\ (forall del_id, unique_ids df -> unique_ids (delete_item_table df del_id))
  /\ (forall f w,
        inventory_xlsx (snd (add_item df f w)) = inventory_xlsx w
        \/ inventory_xlsx (snd (add_item df f w)) = Some (add_item_table df f))
  /\ (forall sel_id f w,
        inventory_xlsx (snd (edit_item df sel_id f w)) = inventory_xlsx w
        \/ inventory_xlsx (snd (edit_item df sel_id f w))
           = Some (edit_item_table df sel_id f))
  /\ (forall del_id clicked w,
        inventory_xlsx (snd (delete_item df del_id clicked w)) = inventory_xlsx w
        \/ inventory_xlsx (snd (delete_item df del_id clicked w))
           = Some (delete_item_table df del_id)).
Proof.
  split; [apply next_item_id_fresh|].
  split; [intros v n Hv _ ->; now apply (next_item_id_fresh df)|].
  split; [intros f; apply add_item_keeps_unique|].
  split; [intros sel_id f Hu; unfold unique_ids;
          now rewrite edit_item_keeps_ids|].
  split; [intros del_id; apply delete_item_keeps_unique|].
  split; [intros f w; apply add_item_writes|].
  split; [intros sel_id f w; apply edit_item_writes|].
  intros del_id clicked w. apply delete_item_writes.
Qed.

Lemma item_ids_stay_unique_witness :
  (has_column "Item ID" two_items = true /\ unique_ids two_items)
  /\ unique_ids (add_item_table two_items
                   (MkAddForm "Gloves" "PPE" 5 "Pieces" 1 "Acme" 0 "" "Shelf" "" true)).
Proof.
  assert (H1 : has_column "Item ID" two_items = true) by reflexivity.
  assert (H2 : unique_ids two_items).
  { unfold unique_ids.
    change (col "Item ID" two_items)
      with [Some (Str "LAB001"); Some (Str "LAB003")].
    apply NoDup_cons. split.
    - rewrite list_elem_of_singleton. discriminate.
    - apply NoDup_singleton. }
  split; [split; assumption|].
  exact (proj1 (proj2 (proj2 (item_ids_stay_unique two_items))) _ H1 H2).
Defined.

(** C9 (as stated) fails: a bulk upload is a mutating operation, and on
    an inventory whose ids are distinct a confirmed upload of a sheet
    with the id LAB001 on two rows leaves that id on two rows. *)
Lemma bulk_upload_admits_duplicates :
  unique_ids two_items
  /\ col "Item ID"
       <$> inventory_xlsx
             (snd (bulk_upload (Some duplicate_sheet) true "alice"
                     (world_with_inventory two_items)))
     = Some [Some (Str "LAB001"); Some (Str "LAB001")]
  /\ ~ NoDup [Some (Str "LAB001"); Some (Str "LAB001")].
Proof.
  split; [|split].
  - unfold unique_ids.
    change (col "Item ID" two_items)
      with [Some (Str "LAB001"); Some (Str "LAB003")].
    apply NoDup_cons. split.
    + rewrite list_elem_of_singleton. discriminate.
    + apply NoDup_singleton.
  - vm_compute. reflexivity.
  - rewrite NoDup_cons, list_elem_of_singleton. intros [H _]. now apply H.
Qed.

(* ===================================================================== *)
(** ** Properties of the Expiry Monitor *)
(* ===================================================================== *)

(** C4.  Whatever the table, the moment and the column reader: a row
    whose expiry date is read as exactly ninety days after today (the
    midnight ninety days after today's, or now plus ninety days) gets the
    status "30-90 days"; a row whose expiry date is not read as a date is
    in the listing of none of the four choices of the filter, and is a
    row of [exp_df] with no value (NaT) in "Expiry Parsed". *)
Theorem expiry_classification
    (to_datetime : list (option cell) -> list (option Z))
    (now : Z) (df : DataFrame) (exp_filter : string) :
  has_column "Expiry Date" df = true ->
  exists v,
    expiry_monitor to_datetime now df exp_filter = inr v
    /\ (forall i r0 t,
          rows df !! i = Some r0 ->
          parsed_at to_datetime df i = Some t ->
          t = start_of_day now + 90 * day_us \/ t = now + 90 * day_us ->
          exists r, rows (exp_df v) !! i = Some r
                    /\ r !! "Expiry Status" = Some (Str "30-90 days"))
    /\ (forall i r0,
          rows df !! i = Some r0 ->
          parsed_at to_datetime df i = None ->
          (forall r, ~ In (i, r) (show v))
          /\ exists r, rows (exp_df v) !! i = Some r
                       /\ r !! "Expiry Parsed" = None).
Proof.
  intros Hcol.
  destruct (expiry_monitor_run to_datetime now df exp_filter Hcol) as [counts ->].
  eexists. split; [reflexivity|]. cbn [exp_df show]. split.
  - intros i r0 t Hr Hp Ht.
    eexists. split.
    + rewrite rows_assign_lookup, (expiry_frame_row to_datetime now df i r0 Hr).
      reflexivity.
    + rewrite lookup_set_cell_eq, list_lookup_fmap,
        (expiry_frame_days to_datetime now df i r0 Hr), Hp.
      cbn [fmap option_fmap option_map mjoin option_join mbind option_bind
           days_to_expiry].
      apply status_of_89_or_90, ninety_days_ahead, Ht.
  - intros i r0 Hr Hp. split.
    + intros r Hin. apply boolean_index_In in Hin as [_ Hm].
      rewrite (expiry_mask_nat to_datetime now df exp_filter i r0 Hr Hp) in Hm.
      discriminate.
    + eexists. split.
      * rewrite rows_assign_lookup, (expiry_frame_row to_datetime now df i r0 Hr).
        reflexivity.
      * rewrite lookup_set_cell_ne by discriminate.
        rewrite lookup_set_cell_ne by discriminate.
        rewrite lookup_set_cell_eq, Hp. reflexivity.
Qed.

Lemma expiry_classification_witness :
  has_column "Expiry Date" dated_items = true
  /\ exists v,
       expiry_monitor to_datetime_ymd sample_now dated_items "Expiring <90 days" = inr v
       /\ (exists r, rows (exp_df v) !! 0%nat = Some r
                     /\ r !! "Expiry Status" = Some (Str "30-90 days"))
       /\ (forall r, ~ In (1%nat, r) (show v)).
Proof.
  assert (H : has_column "Expiry Date" dated_items = true) by reflexivity.
  split; [exact H|].
  destruct (expiry_classification to_datetime_ymd sample_now dated_items
              "Expiring <90 days" H) as (v & Hrun & H90 & Hnat).
  exists v. split; [exact Hrun|]. split.
  - apply (H90 0%nat (dated "LAB001" "2026-01-20")
               (start_of_day sample_now + 90 * day_us));
      [reflexivity | reflexivity | now left].
  - apply (Hnat 1%nat (dated "LAB002" "soon")); reflexivity.
Defined.

Import Props.

(* ===================================================================== *)
(** ** Further properties of the credential store *)
(* ===================================================================== *)

Lemma reread_stable (cols hdr fields : list string) :
  (forall c, c ∈ hdr -> c ∈ cols) ->
  reread cols (row_of_fields hdr fields) = row_of_fields hdr fields.
Proof.
  intros Hsub. apply map_eq. intros k. unfold reread.
  rewrite row_of_fields_lookup. case_bool_decide as Hk.
  - apply csv_cell_stable.
  - destruct (row_of_fields hdr fields !! k) as [v|] eqn:E; [|reflexivity].
    apply row_of_fields_cell in E as [Hin _]. exfalso. apply Hk, Hsub, Hin.
Qed.

Lemma add_user_rows (w : World) (u p : string) (it : Z) :
  fst (add_user_to_csv u p it w) = inr tt ->
  (forall csv, users_csv w = Some csv ->
               forall c, c ∈ user_columns -> c ∈ header csv) ->
  exists r,
    rows (users_table (snd (add_user_to_csv u p it w))) = rows (users_table w) ++ [r]
    /\ r !! "username" = na_filter u
    /\ r !! "salt" = Some (Str (hexlify (next_salt w)))
    /\ r !! "hash" = Some (Str (hexlify (derived_key p (next_salt w) it)))
    /\ r !! "iterations" = Some (Str (str_of_Z it)).
Proof.
  intros Hok Hfull.
  destruct (add_user_to_csv_ok w u p it Hok) as [Hit Hdup].
  revert Hok. rewrite add_user_to_csv_run. cbv zeta.
  rewrite (hashlib_pbkdf2_hmac_ok _ _ _ Hit).
  unfold derived_key.
  set (salt := next_salt w).
  set (dk := Hashlib.pbkdf2_block (encode p) salt (Z.to_pos it)).
  set (row := user_record u salt dk it).
  set (w' := advance_entropy 16 w).
  set (old := match users_csv w with
              | Some csv => read_csv csv
              | None => empty_frame []
              end).
  assert (Hrun :
    match users_csv w with
    | Some csv =>
        if str_in u (get "username" (read_csv csv))
        then (inl (ValueError "Username already exists."), w')
        else (inr tt,
              set_users_csv (to_csv (concat (read_csv csv) (frame_of_record row))) w')
    | None => (inr tt, set_users_csv (to_csv (frame_of_record row)) w')
    end
    = (inr tt, set_users_csv (to_csv (concat old (frame_of_record row))) w')).
  { subst old. destruct (users_csv w) as [csv|] eqn:Ecsv.
    - now rewrite (Hdup csv eq_refl).
    - reflexivity. }
  rewrite Hrun. cbn [fst snd]. intros _.
  set (df := concat old (frame_of_record row)).
  assert (Hcols : forall c, c ∈ user_columns -> c ∈ columns df).
  { intros c Hc. apply columns_concat_r. exact Hc. }
  rewrite (users_table_after_write df w' Hcols).
  assert (Hrows : rows df = rows old ++ [list_to_map row]) by reflexivity.
  rewrite Hrows, fmap_app.
  assert (Hold : reread (columns df) <$> rows old = rows (users_table w)).
  { subst old. destruct (users_csv w) as [csv|] eqn:Ecsv.
    - rewrite (users_table_full w csv Ecsv (Hfull csv eq_refl)).
      cbn [read_csv rows].
      rewrite <- list_fmap_compose. apply list_fmap_ext.
      intros i fields _. cbn. apply reread_stable.
      intros c Hc. subst df. cbn [concat columns read_csv].
      apply elem_of_app. now left.
    - unfold users_table, load_users, bind, gets. rewrite Ecsv. reflexivity. }
  exists (reread (columns df) (list_to_map row)).
  split; [now rewrite Hold|].
  destruct (user_record_lookup (Str u) (Str (hexlify salt))
              (Str (hexlify dk)) (Str (str_of_Z it)))
    as (Hu & Hs & Hh & Hi).
  fold row in Hu, Hs, Hh, Hi. unfold user_record in Hu, Hs, Hh, Hi.
  assert (Hna_it : is_na (str_of_Z it) = false).
  { unfold str_of_Z. destruct (Z.ltb_spec it 0); [lia|]. apply is_na_str_of_N. }
  assert (Hna_salt : is_na (hexlify salt) = false).
  { apply is_na_hexlify. subst salt. rewrite next_salt_length. lia. }
  assert (Hna_dk : is_na (hexlify dk) = false).
  { apply is_na_hexlify. subst dk. rewrite pbkdf2_block_length. lia. }
  rewrite !reread_lookup by (apply Hcols; in_labels).
  unfold row, user_record. rewrite Hu, Hs, Hh, Hi. cbn [csv_field].
  unfold na_filter. rewrite Hna_it, Hna_salt, Hna_dk. auto.
Qed.

Lemma eq_str_na_filter (u other : string) :
  other <> u -> eq_str (na_filter u) other = false.
Proof.
  intros Hne. unfold na_filter. destruct (is_na u); [reflexivity|].
  cbn. apply String.eqb_neq. congruence.
Qed.

Lemma fst_login_rows (w1 w2 : World) (u p : string) :
  rows (users_table w1) = rows (users_table w2) ->
  fst (login_ui u p true w1) = fst (login_ui u p true w2).
Proof.
  intros H. rewrite !login_ui_run, H.
  destruct (List.filter _ (rows (users_table w2))) as [|r rest]; [reflexivity|].
  destruct (py_int (r !! "iterations")) as [e|it]; [reflexivity|].
  destruct (verify_password_pbkdf2 p (r !! "salt") (r !! "hash") it) as [e|[|]];
    reflexivity.
Qed.

Lemma fst_login_filter (w1 w2 : World) (u p : string) :
  List.filter (fun r : gmap string cell => eq_str (r !! "username") u)
              (rows (users_table w1))
  = List.filter (fun r : gmap string cell => eq_str (r !! "username") u)
                (rows (users_table w2)) ->
  fst (login_ui u p true w1) = fst (login_ui u p true w2).
Proof.
  intros H. rewrite !login_ui_run, H.
  destruct (List.filter _ (rows (users_table w2))) as [|r rest]; [reflexivity|].
  destruct (py_int (r !! "iterations")) as [e|it]; [reflexivity|].
  destruct (verify_password_pbkdf2 p (r !! "salt") (r !! "hash") it) as [e|[|]];
    reflexivity.
Qed.

(** X1.  A successful add_user_to_csv on a users file that has the four user
    columns (or on no file) leaves every existing record as it was and
    appends one record holding the username, the 16 fresh random bytes as a
    32-digit hexadecimal salt, the hexadecimal PBKDF2 key of the password
    under that salt, and the iteration count as text. Whether any other
    username can log in, and with which password, is unchanged. *)
Theorem add_user_appends_record
    (w : World) (username password : string) (iterations : Z) :
  fst (add_user_to_csv username password iterations w) = inr tt ->
  (forall csv, users_csv w = Some csv ->
               forall c, c ∈ user_columns -> c ∈ header csv) ->
  let w1 := snd (add_user_to_csv username password iterations w) in
  (exists r,
     rows (users_table w1) = rows (users_table w) ++ [r]
     /\ r !! "username" = na_filter username
     /\ r !! "salt" = Some (Str (hexlify (next_salt w)))
     /\ r !! "hash"
        = Some (Str (hexlify (derived_key password (next_salt w) iterations)))
     /\ r !! "iterations" = Some (Str (str_of_Z iterations)))
  /\ (forall other attempt,
        other <> username ->
        fst (login_ui other attempt true w1) = fst (login_ui other attempt true w)).
Proof.
  intros Hok Hfull w1.
  destruct (add_user_rows w username password iterations Hok Hfull)
    as (r & Hrows & Hu & Hs & Hh & Hi).
  split; [exists r; auto|].
  intros other attempt Hne. apply fst_login_filter.
  subst w1. rewrite Hrows, List.filter_app. cbn [List.filter].
  rewrite Hu, (eq_str_na_filter _ _ Hne). apply app_nil_r.
Qed.

Lemma add_user_appends_record_witness :
  fst (add_user_to_csv "bob" "pw" 2 (world_with_users one_user)) = inr tt
  /\ forall attempt,
       fst (login_ui "alice" attempt true
              (snd (add_user_to_csv "bob" "pw" 2 (world_with_users one_user))))
       = fst (login_ui "alice" attempt true (world_with_users one_user)).
Proof.
  assert (Hok : fst (add_user_to_csv "bob" "pw" 2 (world_with_users one_user)) = inr tt)
    by (vm_compute; reflexivity).
  split; [exact Hok|].
  intros attempt.
  apply (add_user_appends_record (world_with_users one_user) "bob" "pw" 2 Hok).
  - intros csv [= <-] c Hc. exact Hc.
  - discriminate.
Defined.

(** What a successful add leaves behind. *)
Lemma add_user_file (w : World) (u p : string) (it : Z) :
  fst (add_user_to_csv u p it w) = inr tt ->
  snd (add_user_to_csv u p it w)
  = set_users_csv
      (to_csv (concat match users_csv w with
                      | Some csv => read_csv csv
                      | None => empty_frame []
                      end
                      (frame_of_record
                         (user_record u (next_salt w) (derived_key p (next_salt w) it) it))))
      (advance_entropy 16 w).
Proof.
  intros Hok. destruct (add_user_to_csv_ok w u p it Hok) as [Hit Hdup].
  rewrite add_user_to_csv_run. cbv zeta.
  rewrite (hashlib_pbkdf2_hmac_ok _ _ _ Hit). unfold derived_key.
  destruct (users_csv w) as [csv|] eqn:Ecsv; [|reflexivity].
  now rewrite (Hdup csv eq_refl).
Qed.

Lemma add_user_table_rows (w : World) (u p : string) (it : Z) :
  fst (add_user_to_csv u p it w) = inr tt ->
  exists (old : DataFrame) (row : gmap string cell) (cols : list string),
    rows (users_table (snd (add_user_to_csv u p it w)))
    = reread cols <$> (rows old ++ [row])
    /\ "username" ∈ cols
    /\ row !! "username" = Some (Str u)
    /\ old = match users_csv w with
             | Some csv => read_csv csv
             | None => empty_frame []
             end.
Proof.
  intros Hok. rewrite (add_user_file w u p it Hok).
  set (old := match users_csv w with Some csv => read_csv csv | None => empty_frame [] end).
  set (row := user_record u (next_salt w) (derived_key p (next_salt w) it) it).
  set (df := concat old (frame_of_record row)).
  assert (Hcols : forall c, c ∈ user_columns -> c ∈ columns df).
  { intros c Hc. apply columns_concat_r. exact Hc. }
  exists old, (list_to_map row), (columns df).
  split; [apply (users_table_after_write df _ Hcols)|].
  split; [apply Hcols; in_labels|].
  split; [|reflexivity].
  apply (user_record_lookup (Str u) (Str (hexlify (next_salt w)))
           (Str (hexlify (derived_key p (next_salt w) it))) (Str (str_of_Z it))).
Qed.

(** The users file after a successful add holds the new name. *)
Lemma added_name_found (w : World) (username password : string) (iterations : Z) :
  fst (add_user_to_csv username password iterations w) = inr tt ->
  is_na username = false ->
  exists csv,
    users_csv (snd (add_user_to_csv username password iterations w)) = Some csv
    /\ str_in username (get "username" (read_csv csv)) = true.
Proof.
  intros Hok Hna.
  rewrite (add_user_file w username password iterations Hok).
  set (old := match users_csv w with Some csv => read_csv csv | None => empty_frame [] end).
  set (row := user_record username (next_salt w)
                (derived_key password (next_salt w) iterations) iterations).
  set (df := concat old (frame_of_record row)).
  cbn [users_csv set_users_csv]. exists (to_csv df). split; [reflexivity|].
  assert (Hu : "username" ∈ columns df).
  { apply columns_concat_r. change ("username" ∈ user_columns). in_labels. }
  unfold get.
  assert (Hh : has_column "username" (read_csv (to_csv df)) = true)
    by (apply has_column_true; exact Hu).
  rewrite Hh.
  unfold str_in. apply existsb_exists.
  exists (Some (Str username)). split; [|cbn; apply String.eqb_refl].
  unfold col. rewrite read_csv_to_csv_rows.
  apply in_map_iff.
  exists (reread (columns df) (list_to_map row)). split.
  - rewrite reread_lookup by exact Hu.
    destruct (user_record_lookup (Str username) (Str (hexlify (next_salt w)))
         (Str (hexlify (derived_key password (next_salt w) iterations)))
         (Str (str_of_Z iterations))) as (Hl & _).
    unfold row, user_record. rewrite Hl. cbn [csv_field].
    unfold na_filter. now rewrite Hna.
  - apply in_map_iff. exists (list_to_map row). split; [reflexivity|].
    subst df. cbn [concat rows frame_of_record]. apply in_or_app. right. now left.
Qed.

(** X2.  After add_user_to_csv has created a username (one the CSV reader does
    not take for a missing value), a second add_user_to_csv under the same
    username never succeeds and leaves the users file as the first call
    wrote it. With an iteration count the library accepts (1 to 2^31-1) it
    raises ValueError 'Username already exists.' whatever the password; with
    any other count it raises the library's error for the count instead
    (ValueError below 1, OverflowError above 2^31-1 or outside the 64-bit
    range), because the key is derived before the duplicate test. *)
Theorem add_user_rejects_duplicate
    (w : World) (username password again : string) (iterations iterations' : Z) :
  fst (add_user_to_csv username password iterations w) = inr tt ->
  is_na username = false ->
  let w1 := snd (add_user_to_csv username password iterations w) in
  let second := add_user_to_csv username again iterations' w1 in
  users_csv (snd second) = users_csv w1
  /\ (1 <= iterations' <= 2 ^ 31 - 1 ->
      fst second = inl (ValueError "Username already exists."))
  /\ (- 2 ^ 63 <= iterations' < 1 ->
      fst second = inl (ValueError "iteration value must be greater than 0."))
  /\ (2 ^ 31 - 1 < iterations' <= 2 ^ 63 - 1 ->
      fst second = inl (OverflowError "iteration value is too great."))
  /\ (iterations' < - 2 ^ 63 \/ 2 ^ 63 - 1 < iterations' ->
      fst second = inl (OverflowError "Python int too large to convert to C long")).
Proof.
  intros Hok Hna w1 second.
  destruct (added_name_found w username password iterations Hok Hna)
    as (csv & Hcsv & Hin). fold w1 in Hcsv.
  assert (Hrun : second
    = match hashlib_pbkdf2_hmac (encode again) (next_salt w1) iterations' with
      | inl e => (inl e, advance_entropy 16 w1)
      | inr _ => (inl (ValueError "Username already exists."), advance_entropy 16 w1)
      end).
  { unfold second. rewrite add_user_to_csv_run. cbv zeta.
    destruct (hashlib_pbkdf2_hmac _ _ _); [reflexivity|].
    now rewrite Hcsv, Hin. }
  rewrite Hrun, hashlib_pbkdf2_hmac_cases. clear Hrun.
  split; [|split; [|split; [|split]]].
  - repeat match goal with |- context [if ?b then _ else _] => destruct b end;
      reflexivity.
  - intros [H1 H2].
    destruct (Z.ltb_spec iterations' (- 2 ^ 63)); [lia|].
    destruct (Z.ltb_spec (2 ^ 63 - 1) iterations'); [lia|].
    destruct (Z.ltb_spec iterations' 1); [lia|].
    destruct (Z.ltb_spec (2 ^ 31 - 1) iterations'); [lia|]. reflexivity.
  - intros [H1 H2].
    destruct (Z.ltb_spec iterations' (- 2 ^ 63)); [lia|].
    destruct (Z.ltb_spec (2 ^ 63 - 1) iterations'); [lia|].
    destruct (Z.ltb_spec iterations' 1); [|lia]. reflexivity.
  - intros [H1 H2].
    destruct (Z.ltb_spec iterations' (- 2 ^ 63)); [lia|].
    destruct (Z.ltb_spec (2 ^ 63 - 1) iterations'); [lia|].
    destruct (Z.ltb_spec iterations' 1); [lia|].
    destruct (Z.ltb_spec (2 ^ 31 - 1) iterations'); [|lia]. reflexivity.
  - intros H.
    destruct (Z.ltb_spec iterations' (- 2 ^ 63)); [reflexivity|].
    destruct (Z.ltb_spec (2 ^ 63 - 1) iterations'); [reflexivity|lia].
Qed.

Lemma add_user_rejects_duplicate_witness :
  (fst (add_user_to_csv "alice" "pw" 2 fresh_world) = inr tt
   /\ is_na "alice" = false)
  /\ fst (add_user_to_csv "alice" "other" 3
            (snd (add_user_to_csv "alice" "pw" 2 fresh_world)))
     = inl (ValueError "Username already exists.")
  /\ fst (add_user_to_csv "alice" "other" 0
            (snd (add_user_to_csv "alice" "pw" 2 fresh_world)))
     = inl (ValueError "iteration value must be greater than 0.").
Proof.
  assert (Hok : fst (add_user_to_csv "alice" "pw" 2 fresh_world) = inr tt)
    by (vm_compute; reflexivity).
  assert (Hna : is_na "alice" = false) by reflexivity.
  split; [auto|]. split.
  - apply (add_user_rejects_duplicate fresh_world "alice" "pw" "other" 2 3 Hok Hna).
    lia.
  - apply (add_user_rejects_duplicate fresh_world "alice" "pw" "other" 2 0 Hok Hna).
    lia.
Defined.

Lemma na_cell_never (hdr fields : list string) (k u : string) :
  is_na u = true -> eq_str (row_of_fields hdr fields !! k) u = false.
Proof.
  intros Hna. destruct (row_of_fields hdr fields !! k) as [v|] eqn:E; [|reflexivity].
  apply row_of_fields_cell in E as (_ & s & -> & Hs). cbn.
  apply String.eqb_neq. intros ->. congruence.
Qed.

(** X3.  A username spelled like a missing value (the empty string, NA, N/A,
    null, None, nan, ...) is never found by the duplicate check, so
    add_user_to_csv accepts it every time; the record it writes is read back
    with a missing username, so no login under that username succeeds. *)
Theorem add_user_na_username
    (w : World) (username password : string) (iterations : Z) :
  is_na username = true ->
  1 <= iterations <= 2 ^ 31 - 1 ->
  fst (add_user_to_csv username password iterations w) = inr tt
  /\ forall attempt,
       login_ui username attempt true
                (snd (add_user_to_csv username password iterations w))
       = (inr (false, None),
          emit (st_error "Invalid username or password.")
               (snd (add_user_to_csv username password iterations w))).
Proof.
  intros Hna Hit.
  assert (Hok : fst (add_user_to_csv username password iterations w) = inr tt).
  { rewrite add_user_to_csv_run. cbv zeta.
    rewrite (hashlib_pbkdf2_hmac_ok _ _ _ Hit).
    destruct (users_csv w) as [csv|] eqn:Ecsv; [|reflexivity].
    assert (H : str_in username (get "username" (read_csv csv)) = false).
    { apply str_in_false. intros v Hv. unfold get in Hv.
      destruct (has_column "username" (read_csv csv)); [|destruct Hv].
      unfold col in Hv. apply in_map_iff in Hv as (r & <- & Hr).
      destruct (read_csv_row csv r Hr) as (fields & ->).
      now apply na_cell_never. }
    now rewrite H. }
  split; [exact Hok|]. intros attempt.
  apply login_absent. apply str_in_false. intros v Hv.
  unfold col in Hv. apply in_map_iff in Hv as (r & <- & Hr).
  destruct (add_user_table_rows w username password iterations Hok)
    as (old & row & cols & Hrows & Hc & _).
  rewrite Hrows in Hr. apply in_map_iff in Hr as (r0 & <- & _).
  unfold reread. now apply na_cell_never.
Qed.

Lemma add_user_na_username_witness :
  (is_na "NA" = true /\ 1 <= 2 <= 2 ^ 31 - 1)
  /\ fst (add_user_to_csv "NA" "pw" 2 fresh_world) = inr tt
  /\ fst (login_ui "NA" "pw" true (snd (add_user_to_csv "NA" "pw" 2 fresh_world)))
     = inr (false, None).
Proof.
  assert (Hna : is_na "NA" = true) by reflexivity.
  assert (Hit : 1 <= 2 <= 2 ^ 31 - 1) by lia.
  split; [auto|].
  destruct (add_user_na_username fresh_world "NA" "pw" 2 Hna Hit) as [Hok Hlogin].
  split; [exact Hok|]. now rewrite Hlogin.
Defined.

Lemma delete_user_run (u : string) (w : World) :
  delete_user_from_csv u w
  = if str_in u (col "username" (users_table w))
    then (inr tt,
          set_users_csv
            (to_csv (filter_rows ((fun v => negb (eq_str v u))
                                    <$> col "username" (users_table w))
                                 (users_table w))) w)
    else (inl (ValueError "Username not found."), w).
Proof.
  unfold delete_user_from_csv, bind. rewrite load_users_run.
  destruct (str_in u (col "username" (users_table w))); reflexivity.
Qed.

Lemma filter_reread_stable (csv : Csv) (p : gmap string cell -> bool) :
  reread (header csv) <$> List.filter p (rows (read_csv csv))
  = List.filter p (rows (read_csv csv)).
Proof.
  rewrite <- (list_fmap_id (List.filter p (rows (read_csv csv)))) at 2.
  apply list_fmap_ext. intros i r Hr.
  apply list_elem_of_lookup_2, list_elem_of_In, filter_In in Hr as [Hr _].
  destruct (read_csv_row csv r Hr) as (fields & ->).
  cbn. apply reread_stable. auto.
Qed.

Lemma filter_other_user (u other : string) (l : list (gmap string cell)) :
  other <> u ->
  List.filter (fun r : gmap string cell => eq_str (r !! "username") other)
    (List.filter (fun r : gmap string cell => negb (eq_str (r !! "username") u)) l)
  = List.filter (fun r : gmap string cell => eq_str (r !! "username") other) l.
Proof.
  intros Hne. induction l as [|r l IH]; [reflexivity|].
  cbn [List.filter].
  destruct (eq_str (r !! "username") u) eqn:E1; cbn [negb List.filter].
  - apply eq_str_true in E1.
    assert (E2 : eq_str (r !! "username") other = false).
    { rewrite E1. cbn. apply String.eqb_neq. congruence. }
    now rewrite E2.
  - destruct (eq_str (r !! "username") other); [now f_equal|exact IH].
Qed.

(** X4.  delete_user_from_csv on a username present in a users file with the four
    user columns succeeds and rewrites the file without every record of that
    username, the other records kept in order; afterwards a login under the
    deleted username fails, and the outcome of a login under any other
    username is unchanged. *)
Theorem delete_user_removes (w : World) (csv : Csv) (username : string) :
  users_csv w = Some csv ->
  (forall c, c ∈ user_columns -> c ∈ header csv) ->
  str_in username (col "username" (users_table w)) = true ->
  let w1 := snd (delete_user_from_csv username w) in
  fst (delete_user_from_csv username w) = inr tt
  /\ rows (users_table w1)
     = List.filter (fun r : gmap string cell => negb (eq_str (r !! "username") username))
                   (rows (users_table w))
  /\ str_in username (col "username" (users_table w1)) = false
  /\ (forall attempt, fst (login_ui username attempt true w1) = inr (false, None))
  /\ (forall other attempt,
        other <> username ->
        fst (login_ui other attempt true w1) = fst (login_ui other attempt true w)).
Proof.
  intros Hcsv Hfull Hin w1.
  assert (Hrows : rows (users_table w1)
     = List.filter (fun r : gmap string cell => negb (eq_str (r !! "username") username))
                   (rows (users_table w))).
  { subst w1. rewrite delete_user_run, Hin. cbn [snd].
    rewrite users_table_after_write
      by (intros c Hc; apply has_column_true, users_table_has, Hc).
    cbn [filter_rows columns].
    rewrite rows_filter_rows_col.
    rewrite (users_table_full w csv Hcsv Hfull).
    apply (filter_reread_stable csv). }
  assert (Hgone : str_in username (col "username" (users_table w1)) = false).
  { apply str_in_false. intros v Hv. unfold col in Hv.
    apply in_map_iff in Hv as (r & <- & Hr). rewrite Hrows in Hr.
    apply filter_In in Hr as [_ Hr]. now apply negb_true_iff in Hr. }
  split; [now rewrite delete_user_run, Hin|].
  split; [exact Hrows|]. split; [exact Hgone|]. split.
  - intros attempt. now rewrite (login_absent w1 username attempt Hgone).
  - intros other attempt Hne. apply fst_login_filter. rewrite Hrows.
    apply filter_other_user, Hne.
Qed.

Lemma delete_user_removes_witness :
  (users_csv (world_with_users one_user) = Some one_user
   /\ (forall c, c ∈ user_columns -> c ∈ header one_user)
   /\ str_in "alice" (col "username" (users_table (world_with_users one_user))) = true)
  /\ fst (delete_user_from_csv "alice" (world_with_users one_user)) = inr tt
  /\ rows (users_table (snd (delete_user_from_csv "alice" (world_with_users one_user))))
     = [].
Proof.
  assert (H1 : users_csv (world_with_users one_user) = Some one_user) by reflexivity.
  assert (H2 : forall c, c ∈ user_columns -> c ∈ header one_user) by (intros c Hc; exact Hc).
  assert (H3 : str_in "alice" (col "username" (users_table (world_with_users one_user)))
               = true) by reflexivity.
  split; [auto|].
  destruct (delete_user_removes (world_with_users one_user) one_user "alice" H1 H2 H3)
    as (Hok & Hrows & _).
  split; [exact Hok|]. rewrite Hrows. reflexivity.
Defined.



(** X6.  verify_password_pbkdf2 raises AttributeError when the stored salt is not
    text (a missing value, say): the handler around the hexadecimal decoding
    repeats the failing call. With a text salt it raises ValueError
    'iteration value must be greater than 0.' for an iteration count from
    -2^63 to 0, OverflowError 'iteration value is too great.' for one above
    2^31-1 up to 2^63-1, and OverflowError for a count outside the 64-bit
    range of a C long; otherwise it returns the comparison of the stored
    hash with the key derived under the decoded salt, or under the bytes of
    the salt text when it is not hexadecimal. *)
Theorem verify_password_errors
    (password : string) (salt_hex hash_hex : option cell) (iterations : Z) :
  ((forall s, salt_hex <> Some (Str s)) ->
   verify_password_pbkdf2 password salt_hex hash_hex iterations
   = inl (AttributeError "object has no attribute 'encode'"))
  /\ (forall s, salt_hex = Some (Str s) ->
        (- 2 ^ 63 <= iterations < 1 ->
         verify_password_pbkdf2 password salt_hex hash_hex iterations
         = inl (ValueError "iteration value must be greater than 0."))
        /\ (2 ^ 31 - 1 < iterations <= 2 ^ 63 - 1 ->
            verify_password_pbkdf2 password salt_hex hash_hex iterations
            = inl (OverflowError "iteration value is too great."))
        /\ (iterations < - 2 ^ 63 \/ 2 ^ 63 - 1 < iterations ->
            verify_password_pbkdf2 password salt_hex hash_hex iterations
            = inl (OverflowError "Python int too large to convert to C long"))
        /\ (1 <= iterations <= 2 ^ 31 - 1 ->
            exists salt,
              (salt = encode s \/ unhexlify s = Some salt)
              /\ verify_password_pbkdf2 password salt_hex hash_hex iterations
                 = inr (eq_str hash_hex
                          (hexlify (derived_key password salt iterations))))).
Proof.
  split.
  - intros Hs. destruct salt_hex as [[s|z]|]; [now destruct (Hs s)|reflexivity..].
  - intros s ->. unfold verify_password_pbkdf2, str_encode, pure_bind,
      binascii_unhexlify, decode, encode.
    rewrite string_of_list_byte_of_string.
    assert (Hsalt : exists salt,
      (salt = list_byte_of_string s \/ unhexlify s = Some salt)
      /\ match match unhexlify s with
               | Some b => inr b
               | None => inl (BinasciiError "Non-hexadecimal digit found")
               end with
         | inl e => if is_Exception e then inr (list_byte_of_string s) else inl e
         | inr b => inr b
         end = (inr salt : exn + list byte)).
    { destruct (unhexlify s) as [b|]; eauto. }
    destruct Hsalt as (salt & Hor & ->).
    rewrite hashlib_pbkdf2_hmac_cases.
    split; [|split; [|split]].
    + intros [H1 H2].
      destruct (Z.ltb_spec iterations (- 2 ^ 63)); [lia|].
      destruct (Z.ltb_spec (2 ^ 63 - 1) iterations); [lia|].
      destruct (Z.ltb_spec iterations 1); [reflexivity|lia].
    + intros [H1 H2].
      destruct (Z.ltb_spec iterations (- 2 ^ 63)); [lia|].
      destruct (Z.ltb_spec (2 ^ 63 - 1) iterations); [lia|].
      destruct (Z.ltb_spec iterations 1); [lia|].
      destruct (Z.ltb_spec (2 ^ 31 - 1) iterations); [reflexivity|lia].
    + intros H.
      destruct (Z.ltb_spec iterations (- 2 ^ 63)); [reflexivity|].
      destruct (Z.ltb_spec (2 ^ 63 - 1) iterations); [reflexivity|lia].
    + intros [H1 H2].
      destruct (Z.ltb_spec iterations (- 2 ^ 63)); [lia|].
      destruct (Z.ltb_spec (2 ^ 63 - 1) iterations); [lia|].
      destruct (Z.ltb_spec iterations 1); [lia|].
      destruct (Z.ltb_spec (2 ^ 31 - 1) iterations); [lia|].
      exists salt. split; [exact Hor|reflexivity].
Qed.

Lemma verify_password_errors_witness :
  verify_password_pbkdf2 "pw" None (Some (Str "00")) 1
  = inl (AttributeError "object has no attribute 'encode'")
  /\ verify_password_pbkdf2 "pw" (Some (Str "00")) (Some (Str "00")) 0
     = inl (ValueError "iteration value must be greater than 0.")
  /\ verify_password_pbkdf2 "pw" (Some (Str "00")) (Some (Str "00")) (- 2 ^ 63 - 1)
     = inl (OverflowError "Python int too large to convert to C long").
Proof.
  destruct (verify_password_errors "pw" None (Some (Str "00")) 1) as [H1 _].
  destruct (verify_password_errors "pw" (Some (Str "00")) (Some (Str "00")) 0)
    as [_ H2].
  destruct (verify_password_errors "pw" (Some (Str "00")) (Some (Str "00"))
              (- 2 ^ 63 - 1)) as [_ H3].
  split; [|split].
  - apply H1. discriminate.
  - apply (H2 "00" eq_refl). lia.
  - apply (H3 "00" eq_refl). lia.
Defined.

(** X7.  login_ui never changes the users file, the inventory file, the table in
    the session or the audit log. It returns (True, username) only when the
    button was pressed, and then the session holds that username; when it
    returns (False, None) the session username is as before; when it raises,
    nothing at all has changed. *)
Theorem login_ui_effects (w : World) (username password : string) (login_btn : bool) :
  let r := login_ui username password login_btn w in
  users_csv (snd r) = users_csv w
  /\ inventory_xlsx (snd r) = inventory_xlsx w
  /\ session_inventory (snd r) = session_inventory w
  /\ audit_log (snd r) = audit_log w
  /\ (forall ok name, fst r = inr (ok, name) ->
        name = (if ok then Some username else None)
        /\ (ok = true -> login_btn = true /\ session_username (snd r) = Some username)
        /\ (ok = false -> session_username (snd r) = session_username w))
  /\ (forall e, fst r = inl e -> snd r = w).
Proof.
  destruct login_btn.
  - cbv zeta. rewrite login_ui_run.
    destruct (List.filter _ (rows (users_table w))) as [|row rest].
    { cbn. repeat split; try reflexivity; intros; try congruence.
      all: inversion H; subst; try reflexivity; discriminate. }
    destruct (py_int (row !! "iterations")) as [e|it].
    { cbn. repeat split; try reflexivity; intros; congruence. }
    destruct (verify_password_pbkdf2 password (row !! "salt") (row !! "hash") it)
      as [e|[|]].
    + cbn. repeat split; try reflexivity; intros; congruence.
    + cbn. repeat split; try reflexivity; intros; try congruence.
      all: inversion H; subst; try reflexivity; discriminate.
    + cbn. repeat split; try reflexivity; intros; try congruence.
      all: inversion H; subst; try reflexivity; discriminate.
  - cbn. repeat split; try reflexivity; intros; try congruence.
    all: inversion H; subst; try reflexivity; discriminate.
Qed.

(** X8.  login_ui decides on the first record stored under the username. If that
    record has no iteration count, the login raises ValueError (int of NaN)
    instead of returning False; if it has an iteration count but no salt,
    the login raises AttributeError. In both cases nothing is changed. *)
Theorem login_ui_blank_field (w : World) (username password : string)
    (row : gmap string cell) (rest : list (gmap string cell)) :
  List.filter (fun r : gmap string cell => eq_str (r !! "username") username)
              (rows (users_table w)) = row :: rest ->
  (row !! "iterations" = None ->
   login_ui username password true w
   = (inl (ValueError "cannot convert float NaN to integer"), w))
  /\ (row !! "salt" = None ->
      forall it, py_int (row !! "iterations") = inr it ->
      login_ui username password true w
      = (inl (AttributeError "object has no attribute 'encode'"), w)).
Proof.
  intros Hrow. split.
  - intros Hit. now rewrite login_ui_run, Hrow, Hit.
  - intros Hsalt it Hit. now rewrite login_ui_run, Hrow, Hit, Hsalt.
Qed.

Lemma login_ui_blank_field_witness :
  login_ui "alice" "pw" true (world_with_users blank_iterations)
  = (inl (ValueError "cannot convert float NaN to integer"),
     world_with_users blank_iterations).
Proof.
  eapply (login_ui_blank_field (world_with_users blank_iterations) "alice" "pw");
    reflexivity.
Defined.


(* ===================================================================== *)
(** ** Further properties of the audit log *)
(* ===================================================================== *)

Lemma append_assoc (a b c : string) :
  String.append (String.append a b) c = String.append a (String.append b c).
Proof.
  induction a as [|x a IH]; [reflexivity|].
  rewrite !append_cons. now rewrite IH.
Qed.

Lemma has_break_append (a b : string) :
  has_break (String.append a b) = has_break a || has_break b.
Proof.
  induction a as [|c a IH]; [reflexivity|].
  rewrite append_cons. cbn [has_break]. rewrite IH. now rewrite !orb_assoc.
Qed.

Lemma has_break_replaced (s : string) :
  has_break (replace_char CR " " (replace_char LF " " s)) = false.
Proof.
  induction s as [|c s IH]; [reflexivity|].
  cbn [replace_char has_break]. rewrite IH.
  destruct (Ascii.eqb c LF) eqn:E1; [reflexivity|].
  destruct (Ascii.eqb c CR) eqn:E2; [reflexivity|].
  now rewrite E1, E2.
Qed.

Lemma replaced_no_break (s : string) :
  has_break s = false -> replace_char CR " " (replace_char LF " " s) = s.
Proof.
  induction s as [|c s IH]; [reflexivity|].
  cbn [replace_char has_break]. intros H.
  apply orb_false_iff in H as [H1 H3]. apply orb_false_iff in H1 as [H1 H2].
  rewrite H1, H2, (IH H3). reflexivity.
Qed.

Lemma log_action_run (user action_desc details : string) (w : World) :
  log_action user action_desc details w
  = (inr tt,
     append_audit_log
       (audit_entry (clock w) user action_desc
          (replace_char CR " " (replace_char LF " " details))) w).
Proof.
  unfold log_action, audit_entry, bind, gets, modify, cat. cbn [foldr].
  destruct (String.eqb _ EmptyString) eqn:E.
  - rewrite append_nil, append_empty_r.
    rewrite !append_assoc. reflexivity.
  - rewrite append_empty_r, !append_assoc. reflexivity.
Qed.

Lemma has_break_digits (s : string) : all_digits s = true -> has_break s = false.
Proof.
  induction s as [|c s IH]; [reflexivity|].
  cbn [all_digits has_break]. intros H. apply andb_true_iff in H as [Hc Hs].
  rewrite (IH Hs), orb_false_r.
  unfold is_digit in Hc. apply andb_true_iff in Hc as [H1 H2].
  apply Z.leb_le in H1, H2.
  destruct (Ascii.eqb_spec c LF) as [->|_];
    [change (code LF) with 10 in H1; lia|].
  destruct (Ascii.eqb_spec c CR) as [->|_];
    [change (code CR) with 13 in H1; lia|].
  reflexivity.
Qed.

Lemma has_break_str_of_Z (z : Z) : has_break (str_of_Z z) = false.
Proof.
  unfold str_of_Z, str_of_N.
  destruct (z <? 0); cbn [has_break];
    rewrite has_break_digits by apply all_digits_string_of_uint; reflexivity.
Qed.

Lemma has_break_pad_num (k : nat) (z : Z) : has_break (pad_num k z) = false.
Proof.
  unfold pad_num, zfill. rewrite has_break_append, has_break_str_of_Z.
  rewrite has_break_digits by apply all_digits_zeros. reflexivity.
Qed.

Lemma has_break_strftime_date (t : Z) : has_break (strftime_date t) = false.
Proof.
  unfold strftime_date. destruct (civil_from_days (t / day_us)) as [[y m] d].
  rewrite has_break_append. cbn [has_break].
  rewrite has_break_append. cbn [has_break].
  now rewrite !has_break_pad_num.
Qed.

Lemma has_break_strftime_datetime (t : Z) : has_break (strftime_datetime t) = false.
Proof.
  unfold strftime_datetime. cbv zeta.
  rewrite has_break_append, has_break_strftime_date. cbn [has_break].
  rewrite has_break_append. cbn [has_break].
  rewrite has_break_append. cbn [has_break].
  now rewrite !has_break_pad_num.
Qed.

(** What the replacement of the line breaks leaves of a text. *)
Lemma replaced_length (s : string) :
  String.length (replace_char CR " " (replace_char LF " " s)) = String.length s.
Proof.
  induction s as [|c s IH]; [reflexivity|].
  cbn [replace_char String.length]. now rewrite IH.
Qed.

Lemma replaced_get (s : string) (i : nat) :
  String.get i (replace_char CR " " (replace_char LF " " s))
  = (fun c : ascii => if Ascii.eqb c LF || Ascii.eqb c CR then " "%char else c)
      <$> String.get i s.
Proof.
  revert i. induction s as [|c s IH]; intros i; [reflexivity|].
  cbn [replace_char]. destruct i as [|i]; [|cbn [String.get]; apply IH].
  cbn [String.get fmap option_fmap option_map].
  destruct (Ascii.eqb c LF) eqn:E1; [reflexivity|].
  cbn [orb]. now destruct (Ascii.eqb c CR).
Qed.

Lemma replaced_empty (s : string) :
  String.eqb (replace_char CR " " (replace_char LF " " s)) EmptyString
  = String.eqb s EmptyString.
Proof. now destruct s. Qed.

(** X9.  log_action appends exactly one entry to the audit log and never fails.
    The entry is the timestamp, the user and the action separated by ', ',
    then, unless the details are empty, ', ' and the details with every line
    feed and carriage return replaced by a space and every other character
    kept, then a newline. So when the user and the action hold no line break
    the entry is a single line. *)
Theorem log_action_one_line (user action_desc details : string) (w : World) :
  let clean := replace_char CR " " (replace_char LF " " details) in
  let body :=
    cat [ strftime_datetime (clock w); ", "; user; ", "; action_desc;
          if String.eqb details EmptyString then EmptyString
          else String.append ", " clean ] in
  log_action user action_desc details w
  = (inr tt, append_audit_log (String.append body newline) w)
  /\ audit_log (snd (log_action user action_desc details w))
     = audit_log w ++ [String.append body newline]
  /\ String.length clean = String.length details
  /\ (forall i,
        String.get i clean
        = (fun c : ascii => if Ascii.eqb c LF || Ascii.eqb c CR then " "%char else c)
            <$> String.get i details)
  /\ (has_break details = false -> clean = details)
  /\ (has_break user = false -> has_break action_desc = false ->
      has_break body = false).
Proof.
  intros clean body.
  assert (Hrun : log_action user action_desc details w
    = (inr tt, append_audit_log (String.append body newline) w)).
  { rewrite log_action_run. fold clean. unfold body, audit_entry, cat. cbn [foldr].
    subst clean. rewrite replaced_empty.
    rewrite !append_empty_r, !append_assoc. reflexivity. }
  split; [exact Hrun|]. split; [now rewrite Hrun|].
  split; [apply replaced_length|]. split; [apply replaced_get|].
  split; [apply replaced_no_break|].
  intros Hu Ha. unfold body, cat. cbn [foldr].
  rewrite !has_break_append, has_break_strftime_datetime, Hu, Ha.
  cbn [has_break orb]. rewrite orb_false_r.
  destruct (String.eqb details EmptyString); [reflexivity|].
  rewrite has_break_append. subst clean. now rewrite has_break_replaced.
Qed.

Lemma log_action_one_line_witness :
  audit_log (snd (log_action "alice" "Edited item LAB001"
                    (String.append "first" (String.append newline "second"))
                    fresh_world))
  = [String.append "1970-01-01 00:00:00, alice, Edited item LAB001, first second"
                   newline]
  /\ has_break "1970-01-01 00:00:00, alice, Edited item LAB001, first second"
     = false.
Proof.
  destruct (log_action_one_line "alice" "Edited item LAB001"
              (String.append "first" (String.append newline "second")) fresh_world)
    as (_ & Hlog & _ & _ & _ & Hb).
  split; [exact Hlog|]. apply Hb; reflexivity.
Defined.

Lemma same_stores_refl (w : World) : same_stores w w.
Proof. repeat split. Qed.

Lemma same_stores_emit (e : element) (w0 w : World) :
  same_stores w0 w -> same_stores (emit e w0) w.
Proof. intros H. exact H. Qed.

Lemma save_inventory_effect (df : DataFrame) (action_desc details : string)
    (w : World) :
  save_inventory df action_desc details w
  = (inl Rerun,
     emit (st_toast "Inventory updated!")
       (append_audit_log
          (audit_entry (clock w) (default "Unknown User" (session_username w))
             action_desc (replace_char CR " " (replace_char LF " " details)))
          (set_session_inventory df (set_inventory_xlsx df w)))).
Proof.
  unfold save_inventory. unfold bind at 1 2 3. cbn [modify gets to_excel].
  unfold bind at 1. rewrite log_action_run. unfold bind at 1. reflexivity.
Qed.

Lemma saves_after (df : DataFrame) (action_desc details : string) (w0 w : World)
    (m : M unit) :
  same_stores w0 w ->
  m w = save_inventory df action_desc details w0 ->
  saves_or_leaves m w.
Proof.
  intros (Hu & Hi & Hs & Hn & Ha & Hc) Hm. unfold saves_or_leaves.
  rewrite Hm, save_inventory_effect. cbn [fst snd].
  split; [exact Hu|]. split; [exact Hn|]. right.
  split; [reflexivity|].
  exists df, action_desc, (replace_char CR " " (replace_char LF " " details)).
  split; [reflexivity|]. split; [reflexivity|].
  split; [apply has_break_replaced|].
  cbn [audit_log emit append_audit_log set_session_inventory set_inventory_xlsx].
  now rewrite Ha, Hc, Hn.
Qed.

Lemma leaves_after (r : exn + unit) (w0 w : World) (m : M unit) :
  same_stores w0 w ->
  r <> inl Rerun ->
  m w = (r, w0) ->
  saves_or_leaves m w.
Proof.
  intros (Hu & Hi & Hs & Hn & Ha & Hc) Hr Hm. unfold saves_or_leaves.
  rewrite Hm. cbn [fst snd]. split; [exact Hu|]. split; [exact Hn|]. left. auto.
Qed.

Lemma coerce_column_raises (c : string) (df : DataFrame) (e : exn) :
  coerce_column c df = inl e -> is_Exception e = true.
Proof.
  unfold coerce_column. destruct (has_column c df); [|discriminate].
  destruct (coerce_int (col c df)); [discriminate|].
  intros [= <-]. reflexivity.
Qed.

Lemma int_or_zero_raises (v : option cell) (e : exn) :
  int_or_zero v = inl e -> is_Exception e = true.
Proof.
  destruct v as [[s|z]|]; cbn; try discriminate.
  destruct (int_literal s); [discriminate|]. intros [= <-]. reflexivity.
Qed.

Lemma row_get_raises (df : DataFrame) (row : gmap string cell) (c : string)
    (e : exn) :
  row_get df row c = inl e -> is_Exception e = true.
Proof.
  unfold row_get. destruct (has_column c df); [discriminate|].
  intros [= <-]. reflexivity.
Qed.

(** The reads of the selected row raise ordinary exceptions only. *)
Lemma edit_reads_raises (df : DataFrame) (row : gmap string cell) (e : exn) :
  edit_reads df row = inl e -> is_Exception e = true.
Proof.
  unfold edit_reads, pure_bind.
  destruct (row_get df row "Item Name") eqn:E1;
    [intros [= <-]; eapply row_get_raises, E1|].
  destruct (row_get df row "Quantity") as [|qty] eqn:E2;
    [intros [= <-]; eapply row_get_raises, E2|].
  destruct (int_or_zero qty) eqn:E3;
    [intros [= <-]; eapply int_or_zero_raises, E3|].
  destruct (row_get df row "Reorder Level") as [|reorder] eqn:E4;
    [intros [= <-]; eapply row_get_raises, E4|].
  destruct (int_or_zero reorder) eqn:E5;
    [intros [= <-]; eapply int_or_zero_raises, E5|].
  destruct (row_get df row "Remarks") eqn:E6;
    [intros [= <-]; eapply row_get_raises, E6|].
  discriminate.
Qed.

Lemma delete_reads_raises (df : DataFrame) (row : gmap string cell) (e : exn) :
  delete_reads df row = inl e -> is_Exception e = true.
Proof.
  unfold delete_reads, pure_bind.
  destruct (row_get df row "Item Name") eqn:E1;
    [intros [= <-]; eapply row_get_raises, E1|].
  destruct (row_get df row "Quantity") as [|qty] eqn:E2;
    [intros [= <-]; eapply row_get_raises, E2|].
  destruct (int_or_zero qty) eqn:E3;
    [intros [= <-]; eapply int_or_zero_raises, E3|].
  discriminate.
Qed.

Lemma not_rerun (e : exn) (r : exn + unit) :
  is_Exception e = true -> r = inl e -> r <> inl Rerun.
Proof. intros He -> [= ->]. discriminate. Qed.

(** X10.  Each operation of the Manage Inventory tab (add, edit, delete, bulk
    upload) leaves the users file and the session username alone and either
    writes nothing (inventory file, session table and audit log unchanged,
    no rerun) or ends in a rerun after saving one table to both the
    inventory file and the session and appending exactly one audit entry,
    stamped with the clock and the signed-in user ('Unknown User' without
    one), whose details hold no line break. *)
Theorem manage_inventory_audited (df : DataFrame) (w : World) :
  (forall f, saves_or_leaves (add_item df f) w)
  /\ (forall sel_id f, saves_or_leaves (edit_item df sel_id f) w)
  /\ (forall del_id clicked, saves_or_leaves (delete_item df del_id clicked) w)
  /\ (forall uploaded save_clicked username,
        saves_or_leaves (bulk_upload uploaded save_clicked username) w).
Proof.
  split; [|split; [|split]].
  - intros f. destruct (add_submitted f) eqn:E.
    + eapply saves_after; [apply same_stores_refl|].
      unfold add_item. rewrite E. reflexivity.
    + eapply (leaves_after (inr tt)); [apply same_stores_refl|discriminate|].
      unfold add_item. now rewrite E.
  - intros sel_id f.
    destruct (df_empty df) eqn:E1.
    { eapply (leaves_after (inr tt) (emit (st_info "No items to edit.") w));
        [apply same_stores_emit, same_stores_refl|discriminate|].
      unfold edit_item. now rewrite E1. }
    destruct (has_column "Item ID" df) eqn:E0.
    2:{ eapply (leaves_after (inl (KeyError _))); [apply same_stores_refl|discriminate|].
        unfold edit_item. now rewrite E1, E0. }
    destruct (truthy sel_id) eqn:E2.
    2:{ eapply (leaves_after (inr tt)); [apply same_stores_refl|discriminate|].
        unfold edit_item. rewrite E1, E0. cbn [negb]. now rewrite E2. }
    destruct (rows (filter_rows ((fun v => eq_cell v sel_id) <$> col "Item ID" df) df))
      as [|row rest] eqn:E3.
    { eapply (leaves_after (inl (IndexError _))); [apply same_stores_refl|discriminate|].
      unfold edit_item. rewrite E1, E0. cbn [negb]. now rewrite E2, E3. }
    destruct (edit_reads df row) as [e|[[[old_name q] rl] old_remarks]] eqn:E4.
    { eapply (leaves_after (inl e)); [apply same_stores_refl| |].
      2:{ unfold edit_item. rewrite E1, E0. cbn [negb]. rewrite E2, E3. unfold bind at 1, lift.
          now rewrite E4. }
      eapply not_rerun; [eapply edit_reads_raises, E4|reflexivity]. }
    destruct (save_btn f) eqn:E6.
    + eapply saves_after.
      2:{ unfold edit_item. rewrite E1, E0. cbn [negb]. rewrite E2, E3. unfold bind at 1, lift.
          rewrite E4. unfold bind at 1.
          cbn [render modify]. rewrite E6. reflexivity. }
      apply same_stores_emit, same_stores_refl.
    + eapply (leaves_after (inr tt)).
      3:{ unfold edit_item. rewrite E1, E0. cbn [negb]. rewrite E2, E3. unfold bind at 1, lift.
          rewrite E4. unfold bind at 1.
          cbn [render modify]. rewrite E6. reflexivity. }
      * apply same_stores_emit, same_stores_refl.
      * discriminate.
  - intros del_id clicked.
    destruct (df_empty df) eqn:E1.
    { eapply (leaves_after (inr tt) (emit (st_info "No items to delete.") w));
        [apply same_stores_emit, same_stores_refl|discriminate|].
      unfold delete_item. now rewrite E1. }
    destruct (has_column "Item ID" df) eqn:E0.
    2:{ eapply (leaves_after (inl (KeyError _))); [apply same_stores_refl|discriminate|].
        unfold delete_item. now rewrite E1, E0. }
    destruct (truthy del_id && clicked) eqn:E2.
    2:{ eapply (leaves_after (inr tt)); [apply same_stores_refl|discriminate|].
        unfold delete_item. rewrite E1, E0. cbn [negb]. now rewrite E2. }
    destruct (rows (filter_rows ((fun v => eq_cell v del_id) <$> col "Item ID" df) df))
      as [|row rest] eqn:E3.
    { eapply saves_after; [apply same_stores_refl|].
      unfold delete_item. rewrite E1, E0. cbn [negb]. rewrite E2, E3. unfold bind at 1, ret. reflexivity. }
    destruct (delete_reads df row) as [e|item] eqn:E4.
    { eapply (leaves_after (inl e)); [apply same_stores_refl| |].
      2:{ unfold delete_item. rewrite E1, E0. cbn [negb]. rewrite E2, E3. unfold bind at 1 2, lift.
          now rewrite E4. }
      eapply not_rerun; [eapply delete_reads_raises, E4|reflexivity]. }
    eapply saves_after; [apply same_stores_refl|].
    unfold delete_item. rewrite E1, E0. cbn [negb]. rewrite E2, E3. unfold bind at 1 2, lift.
    rewrite E4. reflexivity.
  - intros [file|] save_clicked username.
    2:{ eapply (leaves_after (inr tt)); [apply same_stores_refl|discriminate|reflexivity]. }
    destruct save_clicked.
    2:{ eapply (leaves_after (inr tt)); [|discriminate|reflexivity].
        apply same_stores_emit, same_stores_emit, same_stores_refl. }
    destruct (has_column "Item ID" (read_excel file)) eqn:E1.
    2:{ eapply (leaves_after (inr tt)); [|discriminate|].
        2:{ unfold bulk_upload, try_except, bind, render, modify. rewrite E1.
            reflexivity. }
        apply same_stores_emit, same_stores_emit, same_stores_emit, same_stores_refl. }
    destruct (bulk_upload_table (read_excel file)) as [e|table] eqn:E2.
    + assert (He : is_Exception e = true).
      { unfold bulk_upload_table, pure_bind in E2.
        destruct (coerce_column "Quantity" (read_excel file)) as [e1|d1] eqn:E3.
        - inversion E2; subst. eapply coerce_column_raises, E3.
        - eapply coerce_column_raises, E2. }
      eapply (leaves_after (inr tt)); [|discriminate|].
      2:{ unfold bulk_upload, try_except, bind, render, modify, lift.
          rewrite E1. cbn [negb].
          rewrite E2, He. reflexivity. }
      apply same_stores_emit, same_stores_emit, same_stores_emit, same_stores_refl.
    + eapply saves_after.
      2:{ unfold bulk_upload, try_except. unfold bind at 1 2. cbn [render modify].
          rewrite E1. cbn [negb]. unfold bind at 1, lift. rewrite E2.
          rewrite save_inventory_effect. cbn [is_Exception].
          rewrite <- save_inventory_effect. reflexivity. }
      apply same_stores_emit, same_stores_emit, same_stores_refl.
Qed.

Lemma add_user_raises (u p : string) (it : Z) (w : World) (e : exn) :
  fst (add_user_to_csv u p it w) = inl e ->
  is_Exception e = true /\ same_stores (snd (add_user_to_csv u p it w)) w.
Proof.
  rewrite add_user_to_csv_run. cbv zeta.
  unfold hashlib_pbkdf2_hmac.
  destruct (Hashlib.pbkdf2_hmac (encode p) (next_salt w) it) as [[| |]|dk].
  - intros [= <-]. split; [reflexivity|repeat split].
  - intros [= <-]. split; [reflexivity|repeat split].
  - intros [= <-]. split; [reflexivity|repeat split].
  - destruct (users_csv w) as [csv|]; [|discriminate].
    destruct (str_in u (get "username" (read_csv csv))); [|discriminate].
    intros [= <-]. split; [reflexivity|repeat split].
Qed.

Lemma add_user_frame (u p : string) (it : Z) (w : World) :
  let w' := snd (add_user_to_csv u p it w) in
  inventory_xlsx w' = inventory_xlsx w
  /\ session_inventory w' = session_inventory w
  /\ session_username w' = session_username w
  /\ audit_log w' = audit_log w
  /\ clock w' = clock w.
Proof.
  rewrite add_user_to_csv_run. cbv zeta.
  destruct (hashlib_pbkdf2_hmac (encode p) (next_salt w) it) as [e|dk];
    [repeat split|].
  destruct (users_csv w) as [csv|]; [|repeat split].
  destruct (str_in u (get "username" (read_csv csv))); repeat split.
Qed.

Lemma delete_user_frame (u : string) (w : World) :
  let w' := snd (delete_user_from_csv u w) in
  inventory_xlsx w' = inventory_xlsx w
  /\ session_inventory w' = session_inventory w
  /\ session_username w' = session_username w
  /\ audit_log w' = audit_log w
  /\ clock w' = clock w.
Proof.
  rewrite delete_user_run.
  destruct (str_in u (col "username" (users_table w))); repeat split.
Qed.

(** The create and delete steps of the User Management tab. *)
Lemma create_user_step (username : string) (f : UserForm) (w : World) :
  try_except
    (add_user_to_csv (new_username f) (new_password f) PBKDF2_ITER_DEFAULT ;;;
     log_action username (String.append "Created new user: " (new_username f))
                EmptyString ;;;
     render (st_success (cat ["User '"; new_username f; "' created."])) ;;;
     raise Rerun)
    (fun e => render (st_error (String.append "Could not create user: " (exn_text e))))
    w
  = let w1 := snd (add_user_to_csv (new_username f) (new_password f)
                     PBKDF2_ITER_DEFAULT w) in
    match fst (add_user_to_csv (new_username f) (new_password f)
                 PBKDF2_ITER_DEFAULT w) with
    | inr _ =>
        (inl Rerun,
         emit (st_success (cat ["User '"; new_username f; "' created."]))
           (append_audit_log
              (audit_entry (clock w1) username
                 (String.append "Created new user: " (new_username f)) EmptyString)
              w1))
    | inl e =>
        (inr tt,
         emit (st_error (String.append "Could not create user: " (exn_text e))) w1)
    end.
Proof.
  cbv zeta. unfold try_except. unfold bind at 1.
  destruct (add_user_to_csv (new_username f) (new_password f) PBKDF2_ITER_DEFAULT w)
    as [[e|[]] w1] eqn:E.
  - destruct (add_user_raises (new_username f) (new_password f) PBKDF2_ITER_DEFAULT w e)
      as [He _]; [now rewrite E|].
    cbn [fst snd]. now rewrite He.
  - cbn [fst snd]. unfold bind at 1. rewrite log_action_run.
    unfold bind at 1. cbn [render modify raise is_Exception]. reflexivity.
Qed.

Lemma delete_user_step (username : string) (f : UserForm) (w : World) :
  try_except
    (delete_user_from_csv (sel_del f) ;;;
     log_action username (String.append "Deleted user: " (sel_del f)) EmptyString ;;;
     render (st_success (cat ["User '"; sel_del f; "' deleted."])) ;;;
     raise Rerun)
    (fun e => render (st_error (String.append "Could not delete user: " (exn_text e))))
    w
  = if str_in (sel_del f) (col "username" (users_table w))
    then
      (inl Rerun,
       emit (st_success (cat ["User '"; sel_del f; "' deleted."]))
         (append_audit_log
            (audit_entry (clock w) username
               (String.append "Deleted user: " (sel_del f)) EmptyString)
            (snd (delete_user_from_csv (sel_del f) w))))
    else
      (inr tt,
       emit (st_error "Could not delete user: Username not found.") w).
Proof.
  unfold try_except. unfold bind at 1. rewrite delete_user_run.
  destruct (str_in (sel_del f) (col "username" (users_table w))) eqn:E.
  - cbn [fst snd]. unfold bind at 1. rewrite log_action_run.
    unfold bind at 1. cbn [render modify raise is_Exception]. reflexivity.
  - reflexivity.
Qed.

Lemma delete_tail_audited (username : string) (f : UserForm) (w' w : World) :
  same_stores w' w ->
  users_audited username f true w
    ((render (st_markdown "### Delete user") ;;;
      (if negb (String.eqb (sel_del f) EmptyString) && delete_clicked f then
         try_except
           (delete_user_from_csv (sel_del f) ;;;
            log_action username (String.append "Deleted user: " (sel_del f)) EmptyString ;;;
            render (st_success (cat ["User '"; sel_del f; "' deleted."])) ;;;
            raise Rerun)
           (fun e => render (st_error (String.append "Could not delete user: " (exn_text e))))
       else ret tt) ;;;
      render (st_markdown "</div>")) w').
Proof.
  intros (Hu & Hi & Hs & Hn & Ha & Hc).
  unfold bind at 1. cbn [render modify].
  destruct (negb (String.eqb (sel_del f) EmptyString) && delete_clicked f).
  2:{ unfold users_audited. cbn. repeat split; try assumption.
      left. repeat split; try assumption. discriminate. }
  unfold bind at 1. rewrite delete_user_step.
  rewrite users_table_emit.
  destruct (str_in (sel_del f) (col "username" (users_table w'))).
  - destruct (delete_user_frame (sel_del f) (emit (st_markdown "### Delete user") w'))
      as (Fi & Fs & Fn & Fa & Fc).
    unfold users_audited. cbn [fst snd].
    cbn [inventory_xlsx session_inventory session_username audit_log emit
         append_audit_log].
    rewrite Fi, Fs, Fn, Fa. cbn [inventory_xlsx session_inventory session_username
                                 audit_log clock emit].
    repeat split; try assumption. right. split; [reflexivity|]. split; [reflexivity|].
    eexists. split; [right; reflexivity|]. now rewrite Ha, Hc.
  - unfold users_audited. cbn. repeat split; try assumption.
    left. repeat split; try assumption. discriminate.
Qed.

(** X11.  The User Management tab never touches the inventory file, the session
    table or the session username. Either it leaves the users file and the
    audit log as they were and does not rerun, or it was run for the admin
    and ends in a rerun with exactly one new audit entry, under the admin's
    name, reading 'Created new user: <name>' or 'Deleted user: <name>'. *)
Theorem user_management_audited
    (admin_mode : bool) (username : string) (f : UserForm) (w : World) :
  let r := user_management admin_mode username f w in
  inventory_xlsx (snd r) = inventory_xlsx w
  /\ session_inventory (snd r) = session_inventory w
  /\ session_username (snd r) = session_username w
  /\ ((fst r <> inl Rerun
       /\ users_csv (snd r) = users_csv w
       /\ audit_log (snd r) = audit_log w)
      \/ (fst r = inl Rerun
          /\ admin_mode = true
          /\ exists action,
               (action = String.append "Created new user: " (new_username f)
                \/ action = String.append "Deleted user: " (sel_del f))
               /\ audit_log (snd r)
                  = audit_log w ++ [audit_entry (clock w) username action EmptyString])).
Proof.
  cbv zeta. change (users_audited username f admin_mode w
                      (user_management admin_mode username f w)).
  destruct admin_mode.
  2:{ rewrite user_management_denied. unfold users_audited. cbn [fst snd].
      repeat split. left. repeat split. discriminate. }
  unfold user_management. cbn [negb].
  unfold bind at 1 2 3. cbn [render modify ret].
  unfold bind at 1. rewrite load_users_run.
  unfold bind at 1 2 3. cbn [render modify].
  set (w0 := emit _ (emit _ (emit _ (emit _ (emit _ w))))).
  assert (H0 : same_stores w0 w) by repeat split.
  clearbody w0.
  destruct (create_sub f).
  2:{ unfold bind at 1. cbn [ret]. now apply delete_tail_audited. }
  unfold bind at 1. rewrite create_user_step. cbv zeta.
  destruct (add_user_frame (new_username f) (new_password f) PBKDF2_ITER_DEFAULT w0)
    as (Fi & Fs & Fn & Fa & Fc).
  destruct H0 as (Hu & Hi & Hs & Hn & Ha & Hc).
  destruct (fst (add_user_to_csv (new_username f) (new_password f)
                   PBKDF2_ITER_DEFAULT w0)) as [e|[]] eqn:E.
  - apply delete_tail_audited.
    destruct (add_user_raises _ _ _ _ _ E) as [_ (Gu & Gi & Gs & Gn & Ga & Gc)].
    repeat split; cbn [users_csv inventory_xlsx session_inventory session_username
                       audit_log clock emit]; congruence.
  - unfold users_audited. cbn [fst snd].
    cbn [inventory_xlsx session_inventory session_username audit_log emit
         append_audit_log].
    rewrite Fi, Fs, Fn, Fa, Fc.
    repeat split; try assumption. right. split; [reflexivity|]. split; [reflexivity|].
    eexists. split; [left; reflexivity|]. now rewrite Ha, Hc.
Qed.


(* ===================================================================== *)
(** ** Further properties of the inventory store *)
(* ===================================================================== *)

Lemma py_max_app (a b : list N) : py_max (a ++ b) = N.max (py_max a) (py_max b).
Proof.
  unfold py_max. induction a as [|x a IH]; cbn [app foldr].
  - now rewrite N.max_0_l.
  - rewrite IH. now rewrite N.max_assoc.
Qed.

Lemma existing_ids_add (df : DataFrame) (f : AddForm) :
  has_column "Item ID" df = true ->
  existing_ids (add_item_table df f) = existing_ids df ++ [next_item_id df].
Proof.
  intros Hcol. unfold existing_ids, add_item_table.
  rewrite (col_get _ _ Hcol), col_get.
  - now rewrite col_concat, col_new_item, fmap_app.
  - apply has_column_true. cbn [concat columns]. apply elem_of_app. left.
    now apply has_column_true.
Qed.

Lemma rows_delete_added (df : DataFrame) (f : AddForm) :
  has_column "Item ID" df = true ->
  rows (delete_item_table (add_item_table df f) (Some (Str (next_item_id df))))
  = rows df.
Proof.
  intros Hcol. unfold delete_item_table.
  rewrite (rows_filter_rows_col (fun v => negb (eq_cell v (Some (Str (next_item_id df)))))).
  unfold add_item_table at 1. cbn [concat rows frame_of_record].
  rewrite List.filter_app. cbn [List.filter].
  assert (Hnew : (list_to_map (add_item_row (next_item_id df) f) : gmap string cell)
                 !! "Item ID" = Some (Str (next_item_id df))) by reflexivity.
  rewrite Hnew. cbn [eq_cell]. rewrite bool_decide_eq_true_2 by reflexivity.
  cbn [negb]. rewrite app_nil_r.
  apply forallb_filter_id. apply forallb_forall. intros r Hr.
  apply negb_true_iff. destruct (r !! "Item ID") as [v|] eqn:E; [|reflexivity].
  cbn [eq_cell]. apply bool_decide_eq_false_2. intros ->.
  apply (next_item_id_fresh df). unfold existing_ids. rewrite (col_get _ _ Hcol).
  apply in_map_iff. exists (Some (Str (next_item_id df))). split; [reflexivity|].
  unfold col. apply in_map_iff. exists r. auto.
Qed.

(** X12.  On a table with an Item ID column, next_item_id returns LAB followed by
    a number n >= 1; after the Add Item form has appended the item with that
    id, next_item_id returns the id numbered n+1. Deleting the item just
    added gives back the rows the table had, and next_item_id then issues
    the same id again. *)
Theorem next_item_id_consecutive (df : DataFrame) (f : AddForm) :
  has_column "Item ID" df = true ->
  exists n,
    (1 <= n)%N
    /\ next_item_id df = String.append "LAB" (format_03d n)
    /\ next_item_id (add_item_table df f) = String.append "LAB" (format_03d (n + 1))
    /\ rows (delete_item_table (add_item_table df f) (Some (Str (next_item_id df))))
       = rows df
    /\ next_item_id
         (delete_item_table (add_item_table df f) (Some (Str (next_item_id df))))
       = next_item_id df.
Proof.
  intros Hcol.
  set (n := match omap lab_number (existing_ids df) with
            | [] => 1%N
            | nums => (py_max nums + 1)%N
            end).
  assert (Hn : next_item_id df = String.append "LAB" (format_03d n))
    by apply next_item_id_run.
  exists n. split; [|split; [exact Hn|split; [|split]]].
  - subst n. destruct (omap lab_number (existing_ids df)); lia.
  - rewrite next_item_id_run, (existing_ids_add df f Hcol), omap_app.
    cbn [omap list_omap]. rewrite Hn, lab_number_new_id. cbn [app].
    fold n.
    assert (Hmax : py_max (omap lab_number (existing_ids df) ++ [n]) = n).
    { rewrite py_max_app. cbn [py_max foldr]. rewrite N.max_0_r.
      subst n. destruct (omap lab_number (existing_ids df)) as [|x l];
        [reflexivity|]. lia. }
    destruct (omap lab_number (existing_ids df) ++ [n]) as [|x l] eqn:E.
    + now destruct (omap lab_number (existing_ids df)).
    + now rewrite Hmax.
  - apply (rows_delete_added df f Hcol).
  - assert (He : existing_ids (delete_item_table (add_item_table df f)
                                 (Some (Str (next_item_id df))))
                 = existing_ids df).
    { unfold existing_ids. rewrite (col_get _ _ Hcol), col_get.
      - unfold col. now rewrite (rows_delete_added df f Hcol).
      - apply has_column_true.
        cbn [delete_item_table filter_rows columns add_item_table concat].
        apply elem_of_app. left. now apply has_column_true. }
    rewrite (next_item_id_run (delete_item_table _ _)), He.
    symmetry. apply next_item_id_run.
Qed.

Lemma next_item_id_consecutive_witness :
  has_column "Item ID" two_items = true
  /\ exists n,
       next_item_id two_items = String.append "LAB" (format_03d n)
       /\ next_item_id (add_item_table two_items
                          (MkAddForm "Gloves" "PPE" 5 "Pieces" 1 "Acme" 0 "" "Shelf" "" true))
          = String.append "LAB" (format_03d (n + 1)).
Proof.
  assert (H : has_column "Item ID" two_items = true) by reflexivity.
  split; [exact H|].
  destruct (next_item_id_consecutive two_items
              (MkAddForm "Gloves" "PPE" 5 "Pieces" 1 "Acme" 0 "" "Shelf" "" true) H)
    as (n & _ & H1 & H2 & _).
  exists n. auto.
Defined.

Lemma not_numeric_ne (c k : string) : k ∈ numeric_cols -> c ∉ numeric_cols -> k <> c.
Proof. intros Hk Hc ->. contradiction. Qed.

Lemma load_inventory_text_col (sheet d1 d2 : DataFrame) (c : string) :
  coerce_column "Quantity" (read_excel_str sheet) = inr d1 ->
  coerce_column "Reorder Level" d1 = inr d2 ->
  c ∈ default_cols -> c ∉ numeric_cols ->
  col c (select default_cols (foldl ensure_col d2 default_cols))
  = if has_column c sheet then col c (read_excel_str sheet)
    else replicate (length (rows sheet)) (Some (Str "")).
Proof.
  intros H1 H2 Hdef Hnum.
  assert (Hhas : has_column c d2 = has_column c sheet).
  { rewrite (has_column_coerce_column _ _ _ _ H2),
      (has_column_coerce_column _ _ _ _ H1). reflexivity. }
  assert (Hlen : length (rows d2) = length (rows sheet)).
  { rewrite (rows_coerce_column_length _ _ _ H2),
      (rows_coerce_column_length _ _ _ H1).
    unfold read_excel_str. cbn [rows]. apply length_fmap. }
  rewrite col_select by exact Hdef.
  destruct (has_column c sheet) eqn:E.
  - destruct (ensure_cols_kept default_cols d2 c Hhas) as [-> _].
    assert (Hq : "Quantity" <> c) by (apply not_numeric_ne; [in_labels|exact Hnum]).
    assert (Hr : "Reorder Level" <> c)
      by (apply not_numeric_ne; [in_labels|exact Hnum]).
    rewrite (col_coerce_column_ne "Reorder Level" c d1 d2 Hr H2).
    apply (col_coerce_column_ne "Quantity" c (read_excel_str sheet) d1 Hq H1).
  - rewrite (ensure_cols_filled default_cols d2 c Hhas Hdef), Hlen.
    unfold default_cell. now rewrite bool_decide_eq_false_2.
Qed.

(** X13.  Whenever load_inventory returns on an existing file, the table has
    exactly the eleven default columns in their fixed order and as many rows
    as the sheet; a text column the sheet has holds the sheet's cells read
    as text, one it lacks holds the empty string in every row, and any other
    column of the sheet is dropped. *)
Theorem load_inventory_schema (w : World) (sheet df : DataFrame) :
  inventory_xlsx w = Some sheet ->
  fst (load_inventory w) = inr df ->
  columns df = default_cols
  /\ length (rows df) = length (rows sheet)
  /\ (forall c, c ∈ default_cols -> c ∉ numeric_cols ->
        col c df = if has_column c sheet then col c (read_excel_str sheet)
                   else replicate (length (rows sheet)) (Some (Str "")))
  /\ (forall c, c ∉ default_cols -> col c df = replicate (length (rows sheet)) None).
Proof.
  intros Hfile Hrun.
  destruct (load_inventory_run w sheet df Hfile Hrun) as (d1 & d2 & H1 & H2 & ->).
  assert (Hlen : length (rows d2) = length (rows sheet)).
  { rewrite (rows_coerce_column_length _ _ _ H2),
      (rows_coerce_column_length _ _ _ H1).
    unfold read_excel_str. cbn [rows]. apply length_fmap. }
  split; [reflexivity|]. split; [|split].
  - unfold select. cbn [rows]. now rewrite length_fmap, ensure_cols_rows_length.
  - intros c Hdef Hnum. now apply (load_inventory_text_col sheet d1 d2 c).
  - intros c Hc. unfold col, select. cbn [rows].
    rewrite <- list_fmap_compose.
    rewrite <- Hlen, <- (ensure_cols_rows_length default_cols d2).
    generalize (rows (foldl ensure_col d2 default_cols)) as l.
    induction l as [|r l IH]; [reflexivity|].
    cbn [fmap list_fmap length replicate]. f_equal; [|exact IH].
    unfold compose. cbv beta. rewrite select_row_lookup.
    now rewrite bool_decide_eq_false_2.
Qed.

Lemma load_inventory_schema_witness :
  (inventory_xlsx (world_with_inventory negative_sheet) = Some negative_sheet
   /\ fst (load_inventory (world_with_inventory negative_sheet))
      = inr (loaded (world_with_inventory negative_sheet)))
  /\ columns (loaded (world_with_inventory negative_sheet)) = default_cols
  /\ length (rows (loaded (world_with_inventory negative_sheet))) = 1%nat.
Proof.
  assert (H1 : inventory_xlsx (world_with_inventory negative_sheet) = Some negative_sheet)
    by reflexivity.
  assert (H2 : fst (load_inventory (world_with_inventory negative_sheet))
               = inr (loaded (world_with_inventory negative_sheet)))
    by (vm_compute; reflexivity).
  split; [auto|].
  destruct (load_inventory_schema (world_with_inventory negative_sheet) negative_sheet
              (loaded (world_with_inventory negative_sheet)) H1 H2) as (Hc & Hl & _).
  split; [exact Hc|exact Hl].
Defined.

Lemma edit_item_saved (df : DataFrame) (sel_id : option cell) (f : EditForm) (w : World) :
  fst (edit_item df sel_id f w) = inl Rerun ->
  save_btn f = true
  /\ inventory_xlsx (snd (edit_item df sel_id f w)) = Some (edit_item_table df sel_id f)
  /\ session_inventory (snd (edit_item df sel_id f w))
     = Some (edit_item_table df sel_id f).
Proof.
  unfold edit_item.
  destruct (df_empty df); [discriminate|].
  destruct (has_column "Item ID" df); [|discriminate]. cbn [negb].
  destruct (truthy sel_id); [|discriminate].
  destruct (rows (filter_rows _ df)) as [|row rest]; [discriminate|].
  unfold bind at 1, lift.
  destruct (edit_reads df row) as [e|[[[old_name q] rl] old_remarks]] eqn:E4.
  { cbn [fst]. intros [= ->]. apply edit_reads_raises in E4. discriminate. }
  unfold bind at 1. cbn [render modify].
  destruct (save_btn f); [|discriminate].
  intros _. split; [reflexivity|]. apply save_inventory_stores.
Qed.

Lemma delete_item_saved (df : DataFrame) (del_id : option cell) (clicked : bool)
    (w : World) :
  fst (delete_item df del_id clicked w) = inl Rerun ->
  clicked = true
  /\ inventory_xlsx (snd (delete_item df del_id clicked w))
     = Some (delete_item_table df del_id)
  /\ session_inventory (snd (delete_item df del_id clicked w))
     = Some (delete_item_table df del_id).
Proof.
  unfold delete_item.
  destruct (df_empty df); [discriminate|].
  destruct (has_column "Item ID" df); [|discriminate]. cbn [negb].
  destruct (truthy del_id); [|discriminate]. cbn [andb].
  destruct clicked; [|discriminate].
  destruct (rows (filter_rows _ df)) as [|row rest].
  - intros _. split; [reflexivity|]. unfold bind at 1, ret.
    apply save_inventory_stores.
  - unfold bind at 1 2, lift.
    destruct (delete_reads df row) as [e|item] eqn:E4.
    { cbn [fst]. intros [= ->]. apply delete_reads_raises in E4. discriminate. }
    intros _. split; [reflexivity|]. apply save_inventory_stores.
Qed.

(** X15.  When the Edit Item form saves, the table written to the file and the
    session has the columns and the number of rows of the table edited; a
    row whose Item ID is not the selected one is unchanged, and a row with
    the selected id differs only in Quantity, Reorder Level and Remarks,
    which hold the values of the form. *)
Theorem edit_item_changes_only
    (df : DataFrame) (sel_id : option cell) (f : EditForm) (w : World) :
  fst (edit_item df sel_id f w) = inl Rerun ->
  exists df',
    inventory_xlsx (snd (edit_item df sel_id f w)) = Some df'
    /\ session_inventory (snd (edit_item df sel_id f w)) = Some df'
    /\ columns df' = columns df
    /\ length (rows df') = length (rows df)
    /\ forall i r, rows df !! i = Some r ->
         exists r',
           rows df' !! i = Some r'
           /\ (forall c, c ∉ ["Quantity"; "Reorder Level"; "Remarks"] ->
                         r' !! c = r !! c)
           /\ (eq_cell (r !! "Item ID") sel_id = false -> r' = r)
           /\ (eq_cell (r !! "Item ID") sel_id = true ->
               r' !! "Quantity" = Some (Int (Z.of_N (e_qty f)))
               /\ r' !! "Reorder Level" = Some (Int (Z.of_N (e_reorder f)))
               /\ r' !! "Remarks" = Some (Str (e_remarks f))).
Proof.
  intros Hrun. destruct (edit_item_saved df sel_id f w Hrun) as (_ & Hfile & Hsess).
  exists (edit_item_table df sel_id f).
  split; [exact Hfile|]. split; [exact Hsess|]. split; [reflexivity|].
  split; [unfold edit_item_table; cbn [rows]; apply length_fmap|].
  intros i r Hr. unfold edit_item_table. cbn [rows].
  rewrite list_lookup_fmap, Hr. cbn [fmap option_fmap option_map].
  eexists. split; [reflexivity|].
  destruct (eq_cell (r !! "Item ID") sel_id).
  - split; [|split; [discriminate|]].
    + intros c Hc. rewrite !elem_of_cons, elem_of_nil in Hc.
      assert (H1 : "Remarks" <> c) by (intros E; apply Hc; auto).
      assert (H2 : "Reorder Level" <> c) by (intros E; apply Hc; auto).
      assert (H3 : "Quantity" <> c) by (intros E; apply Hc; auto).
      now rewrite !lookup_insert_ne by assumption.
    + intros _. split; [|split].
      * rewrite lookup_insert_ne by discriminate.
        rewrite lookup_insert_ne by discriminate. apply lookup_insert_eq.
      * rewrite lookup_insert_ne by discriminate. apply lookup_insert_eq.
      * apply lookup_insert_eq.
  - split; [reflexivity|]. split; [reflexivity|discriminate].
Qed.

(** X16.  When Delete Item saves, the table written to the file and the session is
    the table without every row whose Item ID equals the selected id: the
    other rows are all kept, in their order, with the same columns. *)
Theorem delete_item_removes
    (df : DataFrame) (del_id : option cell) (clicked : bool) (w : World) :
  fst (delete_item df del_id clicked w) = inl Rerun ->
  exists df',
    inventory_xlsx (snd (delete_item df del_id clicked w)) = Some df'
    /\ session_inventory (snd (delete_item df del_id clicked w)) = Some df'
    /\ columns df' = columns df
    /\ rows df'
       = List.filter (fun r : gmap string cell => negb (eq_cell (r !! "Item ID") del_id))
                     (rows df)
    /\ (forall r, In r (rows df') -> eq_cell (r !! "Item ID") del_id = false)
    /\ (forall r, In r (rows df) -> eq_cell (r !! "Item ID") del_id = false ->
                  In r (rows df')).
Proof.
  intros Hrun. destruct (delete_item_saved df del_id clicked w Hrun) as (_ & Hfile & Hsess).
  exists (delete_item_table df del_id).
  split; [exact Hfile|]. split; [exact Hsess|]. split; [reflexivity|].
  assert (Hrows : rows (delete_item_table df del_id)
     = List.filter (fun r : gmap string cell => negb (eq_cell (r !! "Item ID") del_id))
                   (rows df)).
  { unfold delete_item_table.
    apply (rows_filter_rows_col (fun v => negb (eq_cell v del_id))). }
  split; [exact Hrows|]. rewrite Hrows. split.
  - intros r Hr%filter_In. now apply negb_true_iff.
  - intros r Hr He. apply filter_In. split; [exact Hr|]. now rewrite He.
Qed.

Lemma edit_item_changes_only_witness :
  fst (edit_item two_items (Some (Str "LAB001")) edit_form fresh_world) = inl Rerun
  /\ exists df',
       inventory_xlsx (snd (edit_item two_items (Some (Str "LAB001")) edit_form
                              fresh_world)) = Some df'
       /\ length (rows df') = 2%nat.
Proof.
  assert (H : fst (edit_item two_items (Some (Str "LAB001")) edit_form fresh_world)
              = inl Rerun) by reflexivity.
  split; [exact H|].
  destruct (edit_item_changes_only two_items (Some (Str "LAB001")) edit_form
              fresh_world H) as (df' & Hfile & _ & _ & Hlen & _).
  exists df'. split; [exact Hfile|exact Hlen].
Defined.

Lemma delete_item_removes_witness :
  fst (delete_item two_items (Some (Str "LAB001")) true fresh_world) = inl Rerun
  /\ exists df',
       inventory_xlsx (snd (delete_item two_items (Some (Str "LAB001")) true
                              fresh_world)) = Some df'
       /\ rows df' = [item "LAB003"].
Proof.
  assert (H : fst (delete_item two_items (Some (Str "LAB001")) true fresh_world)
              = inl Rerun) by reflexivity.
  split; [exact H|].
  destruct (delete_item_removes two_items (Some (Str "LAB001")) true fresh_world H)
    as (df' & Hfile & _ & _ & Hrows & _).
  exists df'. split; [exact Hfile|]. rewrite Hrows. reflexivity.
Defined.

(** X17.  The bulk upload never raises an exception: it returns or ends in the
    rerun of a save. When the numeric coercion of a confirmed upload fails
    (a Quantity that reads as an infinity, say), the page shows 'Could not
    read uploaded file: ' followed by the error after the preview, and the
    run returns normally with nothing but the page changed. *)
Theorem bulk_upload_catches
    (uploaded : option DataFrame) (save_clicked : bool) (username : string)
    (w : World) :
  (fst (bulk_upload uploaded save_clicked username w) = inr tt
   \/ fst (bulk_upload uploaded save_clicked username w) = inl Rerun)
  /\ (forall file e,
        uploaded = Some file ->
        save_clicked = true ->
        has_column "Item ID" (read_excel file) = true ->
        bulk_upload_table (read_excel file) = inl e ->
        bulk_upload uploaded save_clicked username w
        = (inr tt,
           emit (st_error (String.append "Could not read uploaded file: " (exn_text e)))
             (emit (st_dataframe (head (read_excel file)))
                (emit (st_write "Preview of uploaded file:") w)))).
Proof.
  split.
  - destruct uploaded as [file|]; [|now left].
    destruct save_clicked; [|now left].
    unfold bulk_upload, try_except. unfold bind at 1 2. cbn [render modify].
    destruct (has_column "Item ID" (read_excel file)); [|now left].
    cbn [negb]. unfold bind at 1, lift.
    destruct (bulk_upload_table (read_excel file)) as [e|table] eqn:E.
    + assert (He : is_Exception e = true).
      { unfold bulk_upload_table, pure_bind in E.
        destruct (coerce_column "Quantity" (read_excel file)) as [e1|d1] eqn:E3.
        - inversion E; subst. eapply coerce_column_raises, E3.
        - eapply coerce_column_raises, E. }
      rewrite He. now left.
    + rewrite save_inventory_effect. now right.
  - intros file e -> -> Hid He.
    assert (Hex : is_Exception e = true).
    { unfold bulk_upload_table, pure_bind in He.
      destruct (coerce_column "Quantity" (read_excel file)) as [e1|d1] eqn:E3.
      - inversion He; subst. eapply coerce_column_raises, E3.
      - eapply coerce_column_raises, He. }
    unfold bulk_upload, try_except. unfold bind at 1 2. cbn [render modify].
    rewrite Hid. cbn [negb]. unfold bind at 1, lift. rewrite He, Hex. reflexivity.
Qed.

Lemma bulk_upload_catches_witness :
  bulk_upload (Some infinite_sheet) true "alice" fresh_world
  = (inr tt,
     emit (st_error (String.append "Could not read uploaded file: "
                       "Cannot convert non-finite values (NA or inf) to integer"))
       (emit (st_dataframe (head (read_excel infinite_sheet)))
          (emit (st_write "Preview of uploaded file:") fresh_world))).
Proof.
  destruct (bulk_upload_catches (Some infinite_sheet) true "alice" fresh_world)
    as [_ H].
  apply (H infinite_sheet
           (ValueError "Cannot convert non-finite values (NA or inf) to integer"));
    reflexivity.
Defined.


(* ===================================================================== *)
(** ** Further properties of the Expiry Monitor *)
(* ===================================================================== *)

Lemma expiry_status_days (d : Z) :
  expiry_status (Some (Int d)) = Str <$> status_of_days d.
Proof.
  unfold expiry_status, status_of_days, cut, bins, labels.
  repeat match goal with
         | |- context [?a <? ?b] => destruct (Z.ltb_spec a b)
         | |- context [?a <=? ?b] => destruct (Z.leb_spec a b)
         end; cbn [andb fmap option_fmap option_map]; try reflexivity; lia.
Qed.

Lemma expiry_status_missing (v : option cell) :
  (forall d, v <> Some (Int d)) -> expiry_status v = Some (Str ">1 year").
Proof. intros H. destruct v as [[s|z]|]; [reflexivity|now destruct (H z)|reflexivity]. Qed.

Section Monitor.
Variable to_datetime : list (option cell) -> list (option Z).

Lemma expiry_monitor_view (now : Z) (df : DataFrame) (exp_filter : string) :
  has_column "Expiry Date" df = true ->
  expiry_monitor to_datetime now df exp_filter
  = inr (MkExpiryView
           (assign "Expiry Status"
              (expiry_status <$> col "Days to Expiry" (expiry_frame to_datetime now df))
              (expiry_frame to_datetime now df))
           (boolean_index (expiry_mask exp_filter (expiry_frame to_datetime now df))
                          (expiry_frame to_datetime now df))
           ((fun lab =>
               (lab, length (List.filter (fun v => eq_str v lab)
                               (col "Expiry Status"
                                  (assign "Expiry Status"
                                     (expiry_status
                                        <$> col "Days to Expiry"
                                              (expiry_frame to_datetime now df))
                                     (expiry_frame to_datetime now df))))))
              <$> labels)).
Proof. intros H. unfold expiry_monitor. now rewrite H. Qed.

(** X19.  In the Expiry Monitor every row gets its status from its days to expiry
    d: Expired for -99999 < d <= 0, '<30 days' for 0 < d <= 30, '30-90 days'
    for 30 < d <= 90, '3-12 months' for 90 < d <= 365, '>1 year' for 365 < d
    <= 999999, and no status outside these ranges. A row whose expiry date
    is missing or not read as a date gets '>1 year'. *)
Theorem expiry_status_by_days (now : Z) (df : DataFrame) (exp_filter : string) :
  has_column "Expiry Date" df = true ->
  exists v,
    expiry_monitor to_datetime now df exp_filter = inr v
    /\ forall i r0,
         rows df !! i = Some r0 ->
         exists r,
           rows (exp_df v) !! i = Some r
           /\ r !! "Expiry Status"
              = match parsed_at to_datetime df i with
                | None => Some (Str ">1 year")
                | Some t => Str <$> status_of_days (timedelta_days (t - now))
                end.
Proof.
  intros Hcol. eexists. split; [apply (expiry_monitor_view now df exp_filter Hcol)|].
  intros i r0 Hr. cbn [exp_df].
  rewrite rows_assign_lookup, (expiry_frame_row to_datetime now df i r0 Hr).
  cbn [fmap option_fmap option_map]. eexists. split; [reflexivity|].
  rewrite lookup_set_cell_eq, list_lookup_fmap,
    (expiry_frame_days to_datetime now df i r0 Hr).
  cbn [fmap option_fmap option_map mjoin option_join mbind option_bind].
  destruct (parsed_at to_datetime df i) as [t|]; cbn [fmap option_fmap option_map days_to_expiry].
  - apply expiry_status_days.
  - reflexivity.
Qed.
End Monitor.

Lemma expiry_status_by_days_witness :
  has_column "Expiry Date" dated_items = true
  /\ exists v,
       expiry_monitor to_datetime_ymd sample_now dated_items "Expired (<=0 days)" = inr v
       /\ exists r, rows (exp_df v) !! 1%nat = Some r
                    /\ r !! "Expiry Status" = Some (Str ">1 year").
Proof.
  assert (H : has_column "Expiry Date" dated_items = true) by reflexivity.
  split; [exact H|].
  destruct (expiry_status_by_days to_datetime_ymd sample_now dated_items
              "Expired (<=0 days)" H) as (v & Hv & Hrows).
  exists v. split; [exact Hv|].
  destruct (Hrows 1%nat (dated "LAB002" "soon") eq_refl) as (r & Hr & Hs).
  exists r. split; [exact Hr|]. rewrite Hs. reflexivity.
Defined.

Lemma count_filter_fmap {A B} (p : B -> bool) (g : A -> B) (l : list A) :
  length (List.filter p (g <$> l)) = length (List.filter (fun x => p (g x)) l).
Proof.
  induction l as [|x l IH]; [reflexivity|].
  cbn [fmap list_fmap List.filter]. change (list_fmap A B g l) with (g <$> l).
  destruct (p (g x)); cbn [length]; now rewrite IH.
Qed.

Lemma count_filter_ext {A} (p q : A -> bool) (l : list A) :
  (forall x, p x = q x) -> length (List.filter p l) = length (List.filter q l).
Proof.
  intros H. induction l as [|x l IH]; [reflexivity|].
  cbn [List.filter]. rewrite H. destruct (q x); cbn [length]; now rewrite IH.
Qed.

Lemma count_filter_le {A} (p q : A -> bool) (l : list A) :
  (forall x, p x = true -> q x = true) ->
  (length (List.filter p l) <= length (List.filter q l))%nat.
Proof.
  intros H. induction l as [|x l IH]; [reflexivity|].
  cbn [List.filter]. destruct (p x) eqn:E.
  - rewrite (H x E). cbn [length]. lia.
  - destruct (q x); cbn [length]; lia.
Qed.

Lemma count_filter_or {A} (p q : A -> bool) (l : list A) :
  (forall x, p x = true -> q x = false) ->
  length (List.filter (fun x => p x || q x) l)
  = (length (List.filter p l) + length (List.filter q l))%nat.
Proof.
  intros H. induction l as [|x l IH]; [reflexivity|].
  cbn [List.filter]. destruct (p x) eqn:E.
  - rewrite (H x E). cbn [orb length]. lia.
  - destruct (q x); cbn [orb length]; lia.
Qed.

Lemma count_filter_total {A} (p : A -> bool) (l : list A) :
  (length (List.filter p l) <= length l)%nat.
Proof.
  induction l as [|x l IH]; [reflexivity|].
  cbn [List.filter]. destruct (p x); cbn [length]; lia.
Qed.

Lemma boolean_index_length (g : option cell -> bool) (c : string) (df : DataFrame) :
  length (boolean_index (g <$> col c df) df)
  = length (List.filter g (col c df)).
Proof.
  rewrite <- (length_fmap snd (boolean_index _ df)).
  change (snd <$> boolean_index (g <$> col c df) df)
    with (rows (filter_rows (g <$> col c df) df)).
  rewrite rows_filter_rows_col. unfold col. now rewrite count_filter_fmap.
Qed.

Section Badges.
Variable to_datetime : list (option cell) -> list (option Z).

Lemma badge_count (now : Z) (df : DataFrame) (exp_filter lab : string) (v : ExpiryView) :
  has_column "Expiry Date" df = true ->
  expiry_monitor to_datetime now df exp_filter = inr v ->
  lab ∈ labels ->
  badge v lab
  = length (List.filter (fun x => eq_str (expiry_status x) lab)
              (col "Days to Expiry" (expiry_frame to_datetime now df))).
Proof.
  intros Hcol Hv Hlab. rewrite (expiry_monitor_view to_datetime now df exp_filter Hcol) in Hv.
  apply (inj inr) in Hv. subst v.
  unfold badge. cbn [status_counts].
  unfold labels in Hlab. rewrite !elem_of_cons, elem_of_nil in Hlab.
  unfold labels. cbn [fmap list_fmap].
  destruct Hlab as [->|[->|[->|[->|[->|[]]]]]];
    cbn [List.find fst];
    repeat match goal with
           | |- context [String.eqb ?a ?b] =>
               let r := eval vm_compute in (String.eqb a b) in
               change (String.eqb a b) with r
           end;
    cbn [fmap option_fmap option_map snd default from_option id];
    rewrite col_assign_self by (now rewrite length_fmap, col_length);
    apply count_filter_fmap.
Qed.

Lemma listing_count (now : Z) (df : DataFrame) (exp_filter : string) (v : ExpiryView)
    (g : option cell -> bool) :
  has_column "Expiry Date" df = true ->
  expiry_monitor to_datetime now df exp_filter = inr v ->
  expiry_mask exp_filter (expiry_frame to_datetime now df)
  = g <$> col "Days to Expiry" (expiry_frame to_datetime now df) ->
  length (show v)
  = length (List.filter g (col "Days to Expiry" (expiry_frame to_datetime now df))).
Proof.
  intros Hcol Hv Hmask.
  rewrite (expiry_monitor_view to_datetime now df exp_filter Hcol) in Hv.
  apply (inj inr) in Hv. subst v. cbn [show]. rewrite Hmask.
  apply boolean_index_length.
Qed.

(** X20.  The status badges of the Expiry Monitor do not depend on the filter
    chosen and agree with the listings: the listing 'Expiring <30 days' has
    as many rows as the badge '<30 days' counts, the listing 'Expiring <90
    days' as many as the badges '<30 days' and '30-90 days' together, the
    listing 'Expired' at least as many as the badge 'Expired', and the five
    badges together count at most the rows of the table. *)
Theorem expiry_badges_match_listings (now : Z) (df : DataFrame) :
  has_column "Expiry Date" df = true ->
  exists v30 v90 vexp,
    expiry_monitor to_datetime now df "Expiring <30 days" = inr v30
    /\ expiry_monitor to_datetime now df "Expiring <90 days" = inr v90
    /\ expiry_monitor to_datetime now df "Expired (<=0 days)" = inr vexp
    /\ status_counts v90 = status_counts v30
    /\ status_counts vexp = status_counts v30
    /\ length (show v30) = badge v30 "<30 days"
    /\ length (show v90) = (badge v30 "<30 days" + badge v30 "30-90 days")%nat
    /\ (badge v30 "Expired" <= length (show vexp))%nat
    /\ (badge v30 "Expired" + badge v30 "<30 days" + badge v30 "30-90 days"
        + badge v30 "3-12 months" + badge v30 ">1 year" <= length (rows df))%nat.
Proof.
  intros Hcol.
  pose proof (expiry_monitor_view to_datetime now df "Expiring <30 days" Hcol) as H30.
  pose proof (expiry_monitor_view to_datetime now df "Expiring <90 days" Hcol) as H90.
  pose proof (expiry_monitor_view to_datetime now df "Expired (<=0 days)" Hcol) as Hexp.
  eexists _, _, _. split; [exact H30|]. split; [exact H90|]. split; [exact Hexp|].
  split; [reflexivity|]. split; [reflexivity|].
  rewrite !(badge_count now df _ _ _ Hcol H30) by (unfold labels; rewrite !elem_of_cons; auto 10).
  rewrite (listing_count now df _ _ _ Hcol H30 eq_refl).
  rewrite (listing_count now df _ _ _ Hcol H90 eq_refl).
  rewrite (listing_count now df _ _ _ Hcol Hexp eq_refl).
  set (days := col "Days to Expiry" (expiry_frame to_datetime now df)).
  assert (Hlen : length days = length (rows df)).
  { subst days. rewrite col_length. unfold expiry_frame.
    now rewrite !rows_assign_length. }
  assert (Hcase : forall x : option cell,
            (exists d, x = Some (Int d) /\ expiry_status x = Str <$> status_of_days d)
            \/ ((forall d, x <> Some (Int d)) /\ expiry_status x = Some (Str ">1 year"))).
  { intros [[s|z]|]; [right|left|right]; try (split; [congruence|reflexivity]).
    exists z. split; [reflexivity|apply expiry_status_days]. }
  split; [|split; [|split]].
  - apply count_filter_ext. intros x.
    destruct (Hcase x) as [(d & -> & ->)|[Hx ->]].
    + unfold status_of_days, gt_num, le_num.
      repeat match goal with
             | |- context [?a <? ?b] => destruct (Z.ltb_spec a b)
             | |- context [?a <=? ?b] => destruct (Z.leb_spec a b)
             end; cbn; try reflexivity; lia.
    + destruct x as [[s|z]|]; [reflexivity|now destruct (Hx z)|reflexivity].
  - rewrite <- count_filter_or.
    + apply count_filter_ext. intros x.
      destruct (Hcase x) as [(d & -> & ->)|[Hx ->]].
      * unfold status_of_days, gt_num, le_num.
        repeat match goal with
               | |- context [?a <? ?b] => destruct (Z.ltb_spec a b)
               | |- context [?a <=? ?b] => destruct (Z.leb_spec a b)
               end; cbn; try reflexivity; lia.
      * destruct x as [[s|z]|]; [reflexivity|now destruct (Hx z)|reflexivity].
    + intros x. destruct (expiry_status x) as [[s|z]|]; cbn; try discriminate.
      intros H%String.eqb_eq. subst s. reflexivity.
  - apply count_filter_le. intros x.
    destruct (Hcase x) as [(d & -> & ->)|[Hx ->]].
    + unfold status_of_days, le_num.
      repeat match goal with
             | |- context [?a <=? ?b] => destruct (Z.leb_spec a b)
             end; cbn; try reflexivity; try discriminate; lia.
    + discriminate.
  - rewrite <- Hlen.
    rewrite <- !count_filter_or.
    + apply count_filter_total.
    + intros x. destruct (expiry_status x) as [[s|z]|]; cbn; try discriminate.
      rewrite !orb_true_iff, !String.eqb_eq. intros [[[H|H]|H]|H]; subst s; reflexivity.
    + intros x. destruct (expiry_status x) as [[s|z]|]; cbn; try discriminate.
      rewrite !orb_true_iff, !String.eqb_eq. intros [[H|H]|H]; subst s; reflexivity.
    + intros x. destruct (expiry_status x) as [[s|z]|]; cbn; try discriminate.
      rewrite !orb_true_iff, !String.eqb_eq. intros [H|H]; subst s; reflexivity.
    + intros x. destruct (expiry_status x) as [[s|z]|]; cbn; try discriminate.
      intros H%String.eqb_eq. subst s. reflexivity.
Qed.
End Badges.


Lemma expiry_badges_match_listings_witness :
  has_column "Expiry Date" dated_items = true
  /\ exists v30 v90,
       expiry_monitor to_datetime_ymd sample_now dated_items "Expiring <30 days" = inr v30
       /\ expiry_monitor to_datetime_ymd sample_now dated_items "Expiring <90 days"
          = inr v90
       /\ length (show v90) = (badge v30 "<30 days" + badge v30 "30-90 days")%nat.
Proof.
  assert (H : has_column "Expiry Date" dated_items = true) by reflexivity.
  split; [exact H|].
  destruct (expiry_badges_match_listings to_datetime_ymd sample_now dated_items H)
    as (v30 & v90 & vexp & H30 & H90 & _ & _ & _ & _ & Hsum & _).
  exists v30, v90. auto.
Defined.

Lemma bulk_upload_table_columns (new_df table : DataFrame) :
  bulk_upload_table new_df = inr table -> columns table = columns new_df.
Proof.
  unfold bulk_upload_table, pure_bind.
  destruct (coerce_column "Quantity" new_df) as [e|d1] eqn:E1; [discriminate|].
  intros E2. rewrite (columns_coerce_column _ _ _ E2).
  apply (columns_coerce_column _ _ _ E1).
Qed.





(* ===================================================================== *)
(** ** Properties of the login gate and the session table *)
(* ===================================================================== *)

Import Script.

Lemma login_ui_returns (u p : string) (b : bool) (w : World) (ok : bool)
    (name : option string) :
  fst (login_ui u p b w) = inr (ok, name) ->
  name = (if ok then Some u else None)
  /\ (ok = true -> session_username (snd (login_ui u p b w)) = Some u)
  /\ session_inventory (snd (login_ui u p b w)) = session_inventory w
  /\ inventory_xlsx (snd (login_ui u p b w)) = inventory_xlsx w.
Proof.
  destruct b.
  - rewrite login_ui_run.
    destruct (List.filter _ (rows (users_table w))) as [|row rest].
    { cbn. intros [= <- <-]. repeat split. discriminate. }
    destruct (py_int (row !! "iterations")) as [e|it]; [discriminate|].
    destruct (verify_password_pbkdf2 p (row !! "salt") (row !! "hash") it)
      as [e|[|]]; [discriminate| |]; cbn; intros [= <- <-]; repeat split.
    discriminate.
  - cbn. intros [= <- <-]. repeat split. discriminate.
Qed.

Lemma login_ui_unchanged_session (u p : string) (b : bool) (w : World) :
  fst (login_ui u p b w) = inr (false, None) ->
  session_username (snd (login_ui u p b w)) = session_username w.
Proof.
  destruct b; [|reflexivity].
  rewrite login_ui_run.
  destruct (List.filter _ (rows (users_table w))) as [|row rest]; [reflexivity|].
  destruct (py_int (row !! "iterations")) as [e|it]; [discriminate|].
  destruct (verify_password_pbkdf2 p (row !! "salt") (row !! "hash") it)
    as [e|[|]]; [discriminate|discriminate|reflexivity].
Qed.

Lemma load_session_inventory_run (w : World) :
  load_session_inventory w
  = match session_inventory w with
    | Some df => (inr df, w)
    | None =>
        match load_inventory w with
        | (inr df, w') => (inr df, set_session_inventory df w')
        | (inl e, w') =>
            if is_Exception e
            then (inl Stop,
                  emit (st_error (String.append "Could not load inventory: "
                                    (exn_text e))) w')
            else (inl e, w')
        end
    end.
Proof.
  unfold load_session_inventory. unfold bind at 1, gets.
  destruct (session_inventory w) as [df|] eqn:E.
  - unfold bind at 1, ret. unfold bind at 1. now rewrite E.
  - unfold bind at 1, try_except. unfold bind at 1.
    destruct (load_inventory w) as [[e|df] w'].
    + destruct (is_Exception e); reflexivity.
    + cbn [modify]. unfold bind at 1. reflexivity.
Qed.

Lemma load_inventory_world (w : World) : snd (load_inventory w) = w.
Proof.
  unfold load_inventory, bind, gets, lift, ret.
  destruct (inventory_xlsx w) as [sheet|]; [|reflexivity].
  destruct (coerce_column "Quantity" (read_excel_str sheet)) as [e|d1]; [reflexivity|].
  destruct (coerce_column "Reorder Level" d1) as [e|d2]; reflexivity.
Qed.

Lemma load_inventory_raises (w : World) (e : exn) :
  fst (load_inventory w) = inl e -> is_Exception e = true.
Proof.
  unfold load_inventory, bind, gets, lift, ret.
  destruct (inventory_xlsx w) as [sheet|]; [|discriminate].
  destruct (coerce_column "Quantity" (read_excel_str sheet)) as [e1|d1] eqn:E1.
  { intros [= <-]. eapply coerce_column_raises, E1. }
  destruct (coerce_column "Reorder Level" d1) as [e2|d2] eqn:E2; [|discriminate].
  intros [= <-]. eapply coerce_column_raises, E2.
Qed.

Lemma enforce_login_run (s : Sidebar) (w : World) :
  enforce_login s w
  = match session_username w with
    | Some name =>
        let w1 := emit (st_write (cat ["Signed in as **"; name; "**"])) w in
        if logout_btn s then (inl Rerun, del_session_username w1)
        else (inr (Some name), w1)
    | None =>
        match login_ui (login_username s) (login_password s) (login_btn s) w with
        | (inl e, w1) => (inl e, w1)
        | (inr (ok, name), w1) =>
            if ok then (inr name, w1)
            else (inl Stop,
                  emit (st_info
                          "Please log in from the sidebar to view or manage inventory.")
                       w1)
        end
    end.
Proof.
  unfold enforce_login. unfold bind at 1, gets.
  destruct (session_username w) as [name|].
  - unfold bind at 1 2. cbn [render modify]. destruct (logout_btn s); reflexivity.
  - unfold bind at 1.
    destruct (login_ui (login_username s) (login_password s) (login_btn s) w)
      as [[e|[[|] nm]] w1]; reflexivity.
Qed.

Lemma load_session_inventory_ok (w : World) (df : DataFrame) :
  fst (load_session_inventory w) = inr df ->
  session_inventory (snd (load_session_inventory w)) = Some df
  /\ session_username (snd (load_session_inventory w)) = session_username w.
Proof.
  rewrite load_session_inventory_run.
  destruct (session_inventory w) as [d|] eqn:Es.
  - cbn. intros [= <-]. now split.
  - rewrite (surjective_pairing (load_inventory w)), load_inventory_world.
    destruct (fst (load_inventory w)) as [e|d] eqn:El.
    + rewrite (load_inventory_raises _ _ El). discriminate.
    + cbn. intros [= <-]. now split.
Qed.

(** X21.  The script reaches its tabs only with a signed-in user: whenever the
    login gate and the loading of the session table return, the username is
    a name held by the session, the table returned is the one in the
    session, and if the session had no username the login form has just
    accepted that name. With no username in the session and a login that
    fails or is not attempted, the script shows 'Please log in from the
    sidebar to view or manage inventory.' and stops, with no username in the
    session and the inventory neither loaded into the session nor written. *)
Theorem prelude_requires_login (s : Sidebar) (w : World) :
  (forall username df,
     fst (prelude s w) = inr (username, df) ->
     exists name,
       username = Some name
       /\ session_username (snd (prelude s w)) = Some name
       /\ session_inventory (snd (prelude s w)) = Some df
       /\ (session_username w = None ->
           fst (login_ui (login_username s) (login_password s) (login_btn s) w)
           = inr (true, Some name)))
  /\ (session_username w = None ->
      fst (login_ui (login_username s) (login_password s) (login_btn s) w)
      = inr (false, None) ->
      prelude s w
      = (inl Stop,
         emit (st_info "Please log in from the sidebar to view or manage inventory.")
              (snd (login_ui (login_username s) (login_password s) (login_btn s) w)))
      /\ session_username (snd (prelude s w)) = None
      /\ session_inventory (snd (prelude s w)) = session_inventory w
      /\ inventory_xlsx (snd (prelude s w)) = inventory_xlsx w).
Proof.
  assert (Hrun : prelude s w
    = match enforce_login s w with
      | (inl e, w1) => (inl e, w1)
      | (inr username, w1) =>
          match load_session_inventory w1 with
          | (inl e, w2) => (inl e, w2)
          | (inr df, w2) => (inr (username, df), w2)
          end
      end).
  { unfold prelude. unfold bind at 1.
    destruct (enforce_login s w) as [[e|u] w1]; [reflexivity|].
    unfold bind at 1. destruct (load_session_inventory w1) as [[e|df] w2]; reflexivity. }
  rewrite Hrun, enforce_login_run. clear Hrun. split.
  - intros username df.
    destruct (session_username w) as [name|] eqn:Eu.
    + cbv zeta. destruct (logout_btn s); [discriminate|].
      set (w1 := emit _ w).
      destruct (load_session_inventory w1) as [[e|d] w2] eqn:El; [discriminate|].
      cbn [fst snd]. intros [= <- <-].
      destruct (load_session_inventory_ok w1 d) as [Hs Hu]; [now rewrite El|].
      rewrite El in Hs, Hu. cbn [snd] in Hs, Hu.
      exists name. split; [reflexivity|]. split; [now rewrite Hu|].
      split; [exact Hs|]. intros H; discriminate H.
    + destruct (login_ui (login_username s) (login_password s) (login_btn s) w)
        as [[e|[ok nm]] w1] eqn:El; [discriminate|].
      destruct (login_ui_returns _ _ _ _ ok nm ltac:(now rewrite El))
        as (Hnm & Hsess & _).
      rewrite El in Hsess. cbn [snd] in Hsess.
      destruct ok; [|discriminate]. specialize (Hsess eq_refl).
      destruct (load_session_inventory w1) as [[e|d] w2] eqn:El2; [discriminate|].
      cbn [fst snd]. intros [= <- <-].
      destruct (load_session_inventory_ok w1 d) as [Hs Hu]; [now rewrite El2|].
      rewrite El2 in Hs, Hu. cbn [snd] in Hs, Hu.
      exists (login_username s). subst nm.
      split; [reflexivity|]. split; [now rewrite Hu|]. split; [exact Hs|].
      reflexivity.
  - intros Hu Hl. rewrite Hu.
    destruct (login_ui_returns _ _ _ _ false None Hl) as (_ & _ & Hs & Hi).
    destruct (login_ui (login_username s) (login_password s) (login_btn s) w)
      as [r w1] eqn:El. cbn [fst snd] in *. subst r.
    split; [reflexivity|]. cbn [snd session_username session_inventory inventory_xlsx emit].
    split; [|split; assumption].
    assert (H := f_equal snd El). cbn [snd] in H. rewrite <- H.
    rewrite login_ui_unchanged_session by (now rewrite El). exact Hu.
Qed.


Lemma prelude_requires_login_witness :
  fst (prelude (MkSidebar "alice" "pw" true false) fresh_world) = inl Stop
  /\ session_inventory (snd (prelude (MkSidebar "alice" "pw" true false) fresh_world))
     = None.
Proof.
  destruct (prelude_requires_login (MkSidebar "alice" "pw" true false) fresh_world)
    as [_ H].
  destruct (H eq_refl eq_refl) as (Hrun & _ & Hs & _).
  split; [now rewrite Hrun|exact Hs].
Defined.

(** X22.  A session that holds a username is not checked against the users file
    again: without Logout the login gate returns that username whatever the
    file holds, in particular after delete_user_from_csv has removed the
    user. With Logout the username is removed from the session, the script
    reruns, and the files, the session table and the audit log are
    untouched. *)
Theorem session_not_rechecked (s : Sidebar) (w : World) (name : string) :
  session_username w = Some name ->
  (logout_btn s = false ->
   enforce_login s w
   = (inr (Some name), emit (st_write (cat ["Signed in as **"; name; "**"])) w))
  /\ (logout_btn s = true ->
      fst (enforce_login s w) = inl Rerun
      /\ session_username (snd (enforce_login s w)) = None
      /\ session_inventory (snd (enforce_login s w)) = session_inventory w
      /\ users_csv (snd (enforce_login s w)) = users_csv w
      /\ inventory_xlsx (snd (enforce_login s w)) = inventory_xlsx w
      /\ audit_log (snd (enforce_login s w)) = audit_log w)
  /\ (forall w', session_username w' = Some name ->
        fst (enforce_login s w') = fst (enforce_login s w))
  /\ fst (enforce_login s (snd (delete_user_from_csv name w)))
     = fst (enforce_login s w).
Proof.
  intros Hu.
  assert (Hany : forall w', session_username w' = Some name ->
            fst (enforce_login s w') = if logout_btn s then inl Rerun
                                       else inr (Some name)).
  { intros w' Hw'. rewrite enforce_login_run, Hw'. cbv zeta.
    destruct (logout_btn s); reflexivity. }
  split; [|split; [|split]].
  - intros Hl. now rewrite enforce_login_run, Hu, Hl.
  - intros Hl. rewrite enforce_login_run, Hu, Hl. cbn. repeat split.
  - intros w' Hw'. now rewrite (Hany w' Hw'), (Hany w Hu).
  - rewrite (Hany w Hu). apply Hany.
    destruct (delete_user_frame name w) as (_ & _ & Hn & _). now rewrite Hn.
Qed.

Lemma session_not_rechecked_witness :
  session_username (signed_in "bob") = Some "bob"
  /\ str_in "bob" (col "username" (users_table (signed_in "bob"))) = false
  /\ fst (enforce_login (MkSidebar "" "" false false) (signed_in "bob"))
     = inr (Some "bob").
Proof.
  assert (H : session_username (signed_in "bob") = Some "bob") by reflexivity.
  split; [exact H|]. split; [reflexivity|].
  destruct (session_not_rechecked (MkSidebar "" "" false false) (signed_in "bob")
              "bob" H) as [H1 _].
  now rewrite (H1 eq_refl).
Defined.

(** X23.  The script works on the table held in the session: if the session has
    one it is returned as it is and the inventory file is not read (so right
    after save_inventory the next run gets the saved table itself);
    otherwise the table load_inventory returns is stored in the session and
    returned; and if load_inventory raises, the page shows 'Could not load
    inventory: ' followed by the error and the script stops, the session
    still without a table. *)
Theorem session_inventory_cached (w : World) :
  (forall df, session_inventory w = Some df ->
              load_session_inventory w = (inr df, w))
  /\ (session_inventory w = None ->
      (forall df, fst (load_inventory w) = inr df ->
                  load_session_inventory w = (inr df, set_session_inventory df w))
      /\ (forall e, fst (load_inventory w) = inl e ->
            load_session_inventory w
            = (inl Stop,
               emit (st_error (String.append "Could not load inventory: " (exn_text e)))
                    w)))
  /\ (forall df action_desc details,
        load_session_inventory (snd (save_inventory df action_desc details w))
        = (inr df, snd (save_inventory df action_desc details w))).
Proof.
  split; [|split].
  - intros df H. now rewrite load_session_inventory_run, H.
  - intros H. split.
    + intros df Hl. rewrite load_session_inventory_run, H.
      rewrite (surjective_pairing (load_inventory w)), load_inventory_world, Hl.
      reflexivity.
    + intros e Hl. rewrite load_session_inventory_run, H.
      rewrite (surjective_pairing (load_inventory w)), load_inventory_world, Hl.
      now rewrite (load_inventory_raises w e Hl).
  - intros df a d. rewrite load_session_inventory_run.
    destruct (save_inventory_stores df a d w) as (_ & _ & Hs). now rewrite Hs.
Qed.

Lemma session_inventory_cached_witness :
  load_session_inventory (world_with_inventory infinite_sheet)
  = (inl Stop,
     emit (st_error (String.append "Could not load inventory: "
                       "Cannot convert non-finite values (NA or inf) to integer"))
          (world_with_inventory infinite_sheet)).
Proof.
  destruct (session_inventory_cached (world_with_inventory infinite_sheet))
    as (_ & H & _).
  destruct (H eq_refl) as [_ He].
  apply (He (ValueError "Cannot convert non-finite values (NA or inf) to integer")).
  reflexivity.
Defined.


(* ===================================================================== *)
(** ** Properties of the Overview counts *)
(* ===================================================================== *)

Import Overview.

Lemma count_le_integers (a b : list (option cell)) :
  Forall (fun v => exists z, v = Some (Int z)) a ->
  Forall (fun v => exists z, v = Some (Int z)) b ->
  exists n, count_le a b = inr n /\ 0 <= n <= Z.of_nat (length a).
Proof.
  intros Ha. revert b. induction Ha as [|x a (z & ->) _ IH]; intros b Hb.
  - exists 0. split; [reflexivity|cbn; lia].
  - destruct Hb as [|y b (z' & ->) Hb].
    + exists 0. split; [reflexivity|cbn [length]; lia].
    + destruct (IH b Hb) as (n & Hn & Hr). cbn [count_le le_cell]. rewrite Hn.
      destruct (z <=? z'); eexists; (split; [reflexivity|cbn [length]; lia]).
Qed.

Lemma count_le_bounds (a b : list (option cell)) (n : Z) :
  count_le a b = inr n -> 0 <= n <= Z.of_nat (length a).
Proof.
  revert b n. induction a as [|x a IH]; intros b n.
  - cbn. intros [= <-]. lia.
  - destruct b as [|y b]; [cbn; intros [= <-]; lia|].
    cbn [count_le]. destruct (le_cell x y) as [e|t]; [discriminate|].
    destruct (count_le a b) as [e|m] eqn:E; [discriminate|].
    specialize (IH b m E). intros [= <-]. cbn [length]. destruct t; lia.
Qed.

Section OverviewFacts.
Variable to_datetime : list (option cell) -> list (option Z).

Lemma overview_counts_run (now : Z) (df : DataFrame) (low soon : Z) :
  overview_counts to_datetime now df = inr (low, soon) ->
  has_column "Expiry Date" df = true
  /\ 0 <= low <= Z.of_nat (length (rows df))
  /\ soon = Z.of_nat (length (List.filter (le_timestamp (now + 90 * day_us))
                                (col "Expiry Parsed"
                                   (assign "Expiry Parsed"
                                      ((fun t : option Z => Int <$> t)
                                         <$> to_datetime (col "Expiry Date" df))
                                      df)))).
Proof.
  unfold overview_counts.
  destruct (if has_column "Quantity" df && has_column "Reorder Level" df
            then count_le (col "Quantity" df) (col "Reorder Level" df)
            else inr 0) as [e|n] eqn:E; [discriminate|].
  destruct (has_column "Expiry Date" df) eqn:Ecol; [|discriminate].
  set (exp_df := assign "Expiry Parsed" _ df).
  assert (Hh : has_column "Expiry Date" exp_df = true)
    by (apply columns_assign_has; exact Ecol).
  rewrite Hh. intros [= <- <-]. split; [reflexivity|]. split.
  - destruct (has_column "Quantity" df && has_column "Reorder Level" df).
    + apply count_le_bounds in E. now rewrite col_length in E.
    + injection E as <-. lia.
  - now rewrite length_fmap, boolean_index_length.
Qed.

Lemma days_column (now : Z) (df : DataFrame) :
  col "Days to Expiry" (expiry_frame to_datetime now df)
  = days_to_expiry now
      <$> col "Expiry Parsed"
            (assign "Expiry Parsed"
               ((fun t : option Z => Int <$> t) <$> to_datetime (col "Expiry Date" df))
               df).
Proof.
  unfold expiry_frame. cbv zeta. apply col_assign_self.
  now rewrite length_fmap, col_length.
Qed.

(** X24.  When the Overview computes its counts, the low-stock count lies between
    0 and the number of rows, and the count behind the card 'Expiring <= 90
    days' has no lower bound on the date: it counts every item already
    expired. It is at least the number of rows the Expiry Monitor lists as
    Expired and at most that number plus the rows listed as Expiring <90
    days, for the same table at the same instant. *)
Theorem overview_soon_count (now : Z) (df : DataFrame) (low soon : Z) :
  overview_counts to_datetime now df = inr (low, soon) ->
  0 <= low <= Z.of_nat (length (rows df))
  /\ exists vexp v90,
       expiry_monitor to_datetime now df "Expired (<=0 days)" = inr vexp
       /\ expiry_monitor to_datetime now df "Expiring <90 days" = inr v90
       /\ Z.of_nat (length (show vexp)) <= soon
       /\ soon <= Z.of_nat (length (show vexp) + length (show v90)).
Proof.
  intros Hrun. destruct (overview_counts_run now df low soon Hrun) as (Hcol & Hlow & ->).
  split; [exact Hlow|].
  pose proof (expiry_monitor_view to_datetime now df "Expired (<=0 days)" Hcol) as Hexp.
  pose proof (expiry_monitor_view to_datetime now df "Expiring <90 days" Hcol) as H90.
  eexists _, _. split; [exact Hexp|]. split; [exact H90|].
  rewrite (listing_count to_datetime now df _ _ _ Hcol Hexp eq_refl).
  rewrite (listing_count to_datetime now df _ _ _ Hcol H90 eq_refl).
  rewrite days_column, !count_filter_fmap.
  set (P := col "Expiry Parsed" _).
  assert (Hday : 0 < day_us) by (unfold day_us; lia).
  split.
  - apply inj_le.
    apply (count_filter_le (fun v => le_num 0 (days_to_expiry now v))
             (le_timestamp (now + 90 * day_us)) P).
    intros [[s|t]|]; try discriminate.
    cbn [days_to_expiry le_num le_timestamp]. unfold timedelta_days.
    intros H%Z.leb_le. apply Z.leb_le.
    assert (t - now < day_us); [|lia].
    destruct (Z.lt_ge_cases (t - now) day_us) as [Hlt|Hge]; [exact Hlt|].
    assert (1 <= (t - now) / day_us); [|lia].
    apply Z.div_le_lower_bound; lia.
  - rewrite <- count_filter_or.
    + apply inj_le.
      apply (count_filter_le (le_timestamp (now + 90 * day_us))
               (fun v => le_num 0 (days_to_expiry now v)
                         || gt_num 0 (days_to_expiry now v)
                            && le_num 90 (days_to_expiry now v)) P).
      intros [[s|t]|]; try discriminate.
      cbn [days_to_expiry le_num gt_num le_timestamp]. unfold timedelta_days.
      intros H%Z.leb_le.
      assert (Hd : (t - now) / day_us <= 90).
      { apply Z.div_le_upper_bound; lia. }
      destruct (Z.leb_spec ((t - now) / day_us) 0) as [H0|H0]; [reflexivity|].
      cbn [orb]. apply andb_true_iff. split; [apply Z.ltb_lt|apply Z.leb_le]; lia.
    + intros [[s|t]|]; try discriminate.
      cbn [days_to_expiry le_num gt_num]. intros H%Z.leb_le.
      apply andb_false_iff. left. apply Z.ltb_ge. exact H.
Qed.
End OverviewFacts.

Section OverviewColumn.
Variable to_datetime : list (option cell) -> list (option Z).

Lemma coerce_column_cells (c : string) (df d' : DataFrame) :
  has_column c df = true ->
  coerce_column c df = inr d' ->
  Forall (fun v => exists z, v = Some (Int z)) (col c d').
Proof.
  intros Hc H. eapply coerced_col_Forall, col_coerce_column_eq; eassumption.
Qed.

Lemma bulk_upload_table_integers (new_df table : DataFrame) (c : string) :
  c ∈ numeric_cols ->
  has_column c table = true ->
  bulk_upload_table new_df = inr table ->
  Forall (fun v => exists z, v = Some (Int z)) (col c table).
Proof.
  intros Hc Hhas Ht.
  assert (Hcols : columns table = columns new_df)
    by apply (bulk_upload_table_columns _ _ Ht).
  assert (Hnew : has_column c new_df = true)
    by (unfold has_column in *; now rewrite <- Hcols).
  eapply coerced_col_Forall, uploaded_numeric_col; eassumption.
Qed.

(** X25.  On a table without an Expiry Date column the Overview raises an
    exception: the column is read one line before the test that it exists.
    When Quantity and Reorder Level hold integers (or are absent), as in
    every table a bulk upload has coerced, the exception is KeyError for
    'Expiry Date'. *)
Theorem overview_needs_expiry_column (now : Z) (df : DataFrame) :
  has_column "Expiry Date" df = false ->
  (exists e, overview_counts to_datetime now df = inl e)
  /\ ((forall c, c ∈ numeric_cols ->
                 Forall (fun v => exists z, v = Some (Int z)) (col c df)) ->
      overview_counts to_datetime now df = inl (Raised (KeyError "Expiry Date")))
  /\ (forall new_df,
        bulk_upload_table new_df = inr df ->
        overview_counts to_datetime now df = inl (Raised (KeyError "Expiry Date"))).
Proof.
  intros Hcol.
  assert (Hint : (forall c, c ∈ numeric_cols -> has_column c df = true ->
                            Forall (fun v => exists z, v = Some (Int z)) (col c df)) ->
                 overview_counts to_datetime now df
                 = inl (Raised (KeyError "Expiry Date"))).
  { intros H. unfold overview_counts. rewrite Hcol.
    destruct (has_column "Quantity" df) eqn:E1; [|reflexivity].
    destruct (has_column "Reorder Level" df) eqn:E2; [|reflexivity].
    destruct (count_le_integers (col "Quantity" df) (col "Reorder Level" df))
      as (n & -> & _); [apply H; [in_labels|exact E1] | apply H; [in_labels|exact E2] |].
    reflexivity. }
  split; [|split].
  - unfold overview_counts. rewrite Hcol.
    destruct (if has_column "Quantity" df && has_column "Reorder Level" df
              then count_le (col "Quantity" df) (col "Reorder Level" df)
              else inr 0) as [e|n]; eauto.
  - intros H. apply Hint. intros c Hc _. now apply H.
  - intros new_df Ht. apply Hint. intros c Hc Hhas.
    now apply (bulk_upload_table_integers new_df df c).
Qed.
End OverviewColumn.

Lemma overview_needs_expiry_column_witness :
  has_column "Expiry Date" duplicate_sheet = false
  /\ bulk_upload_table (read_excel duplicate_sheet) = inr duplicate_sheet
  /\ overview_counts to_datetime_ymd sample_now duplicate_sheet
     = inl (Raised (KeyError "Expiry Date")).
Proof.
  assert (H : has_column "Expiry Date" duplicate_sheet = false) by reflexivity.
  assert (Ht : bulk_upload_table (read_excel duplicate_sheet) = inr duplicate_sheet)
    by reflexivity.
  split; [exact H|]. split; [exact Ht|].
  destruct (overview_needs_expiry_column to_datetime_ymd sample_now duplicate_sheet H)
    as (_ & _ & Hup).
  apply (Hup (read_excel duplicate_sheet) Ht).
Defined.

Lemma overview_soon_count_witness :
  overview_counts to_datetime_ymd sample_now dated_items = inr (0, 1)
  /\ exists vexp v90,
       expiry_monitor to_datetime_ymd sample_now dated_items "Expired (<=0 days)"
       = inr vexp
       /\ expiry_monitor to_datetime_ymd sample_now dated_items "Expiring <90 days"
          = inr v90
       /\ 1 <= Z.of_nat (length (show vexp) + length (show v90)).
Proof.
  assert (H : overview_counts to_datetime_ymd sample_now dated_items = inr (0, 1))
    by reflexivity.
  split; [exact H|].
  destruct (overview_soon_count to_datetime_ymd sample_now dated_items 0 1 H)
    as (_ & vexp & v90 & H1 & H2 & _ & H4).
  exists vexp, v90. auto.
Defined.


(* ===================================================================== *)
(** ** Properties of the page header *)
(* ===================================================================== *)

Import Header.

Lemma b64_char_facts (n : Z) :
  0 <= n < 64 ->
  b64_val (b64_char n) = n
  /\ is_b64_char (b64_char n) = true.
Proof.
  intros Hn.
  assert (Hall : forallb (fun i : nat =>
            (b64_val (b64_char (Z.of_nat i)) =? Z.of_nat i)
            && is_b64_char (b64_char (Z.of_nat i))) (seq 0 64) = true)
    by (vm_compute; reflexivity).
  rewrite forallb_forall in Hall.
  specialize (Hall (Z.to_nat n) ltac:(apply in_seq; lia)).
  rewrite Z2Nat.id in Hall by lia.
  apply andb_true_iff in Hall as [H1 H2]. apply Z.eqb_eq in H1. auto.
Qed.

Lemma byte_val_range (x : byte) : 0 <= byte_val x < 256.
Proof.
  unfold byte_val. pose proof (Byte.to_N_bounded x). lia.
Qed.

Lemma byte_val_inj (x y : byte) : byte_val x = byte_val y -> x = y.
Proof.
  unfold byte_val. intros H. apply N2Z.inj in H.
  pose proof (Byte.of_to_N x) as Hx. rewrite H, Byte.of_to_N in Hx. congruence.
Qed.

Ltac sextets :=
  repeat match goal with
         | x : byte |- _ =>
             lazymatch goal with
             | _ : 0 <= byte_val x < 256 |- _ => fail
             | _ => pose proof (byte_val_range x)
             end
         end.

Lemma b64encode_length (b : list byte) :
  String.length (b64encode b) = (4 * ((length b + 2) / 3))%nat
  /\ all_b64 (b64encode b) = true.
Proof.
  induction b as [b IH] using (induction_ltof1 _ (@length byte)).
  unfold ltof in IH.
  destruct b as [|x [|y [|z r]]].
  - split; reflexivity.
  - sextets. cbn [b64encode String.length all_b64 length].
    destruct (b64_char_facts (byte_val x / 4)) as [_ ->];
      [split; [apply Z.div_pos|apply Z.div_lt_upper_bound]; lia|].
    destruct (b64_char_facts (byte_val x mod 4 * 16)) as [_ ->];
      [pose proof (Z.mod_pos_bound (byte_val x) 4); lia|].
    split; reflexivity.
  - sextets. cbn [b64encode String.length all_b64 length].
    destruct (b64_char_facts (byte_val x / 4)) as [_ ->];
      [split; [apply Z.div_pos|apply Z.div_lt_upper_bound]; lia|].
    destruct (b64_char_facts (byte_val x mod 4 * 16 + byte_val y / 16)) as [_ ->].
    { pose proof (Z.mod_pos_bound (byte_val x) 4).
      assert (0 <= byte_val y / 16 < 16)
        by (split; [apply Z.div_pos|apply Z.div_lt_upper_bound]; lia). lia. }
    destruct (b64_char_facts (byte_val y mod 16 * 4)) as [_ ->];
      [pose proof (Z.mod_pos_bound (byte_val y) 16); lia|].
    split; reflexivity.
  - sextets. cbn [b64encode String.length all_b64].
    destruct (IH r) as [Hl Ha]; [cbn [length]; lia|].
    destruct (b64_char_facts (byte_val x / 4)) as [_ ->];
      [split; [apply Z.div_pos|apply Z.div_lt_upper_bound]; lia|].
    destruct (b64_char_facts (byte_val x mod 4 * 16 + byte_val y / 16)) as [_ ->].
    { pose proof (Z.mod_pos_bound (byte_val x) 4).
      assert (0 <= byte_val y / 16 < 16)
        by (split; [apply Z.div_pos|apply Z.div_lt_upper_bound]; lia). lia. }
    destruct (b64_char_facts (byte_val y mod 16 * 4 + byte_val z / 64)) as [_ ->].
    { pose proof (Z.mod_pos_bound (byte_val y) 16).
      assert (0 <= byte_val z / 64 < 4)
        by (split; [apply Z.div_pos|apply Z.div_lt_upper_bound]; lia). lia. }
    destruct (b64_char_facts (byte_val z mod 64)) as [_ ->];
      [pose proof (Z.mod_pos_bound (byte_val z) 64); lia|].
    rewrite Ha, Hl. split; [|reflexivity].
    cbn [length]. replace (S (S (S (length r))) + 2)%nat with (length r + 2 + 1 * 3)%nat by lia.
    rewrite Nat.div_add by lia. lia.
Qed.


Lemma b64_char_inj (n m : Z) :
  0 <= n < 64 -> 0 <= m < 64 -> b64_char n = b64_char m -> n = m.
Proof.
  intros Hn Hm H. destruct (b64_char_facts n Hn) as [<- _].
  destruct (b64_char_facts m Hm) as [<- _]. now rewrite H.
Qed.

Lemma b64_char_not_pad (n : Z) : 0 <= n < 64 -> b64_char n <> "="%char.
Proof.
  intros Hn H. destruct (b64_char_facts n Hn) as [Hv _]. rewrite H in Hv.
  vm_compute in Hv. subst n. lia.
Qed.

Ltac sextet_range := sextets; Z.div_mod_to_equations; lia.

Ltac sextet_eqs :=
  repeat match goal with
         | H : b64_char ?a = b64_char ?b |- _ =>
             apply b64_char_inj in H; [|sextet_range|sextet_range]
         | H : "="%char = b64_char ?a |- _ =>
             exfalso; apply (b64_char_not_pad a); [sextet_range|now symmetry]
         | H : b64_char ?a = "="%char |- _ =>
             exfalso; apply (b64_char_not_pad a); [sextet_range|exact H]
         end.

Lemma b64encode_inj (a b : list byte) : b64encode a = b64encode b -> a = b.
Proof.
  revert b. induction a as [a IH] using (induction_ltof1 _ (@length byte)).
  unfold ltof in IH. intros b H.
  destruct a as [|x [|y [|z r]]]; destruct b as [|x' [|y' [|z' r']]];
    cbn [b64encode] in H; try discriminate H; try reflexivity;
    inversion H; clear H; sextet_eqs.
  - f_equal. apply byte_val_inj. sextet_range.
  - f_equal; [apply byte_val_inj; sextet_range|].
    f_equal. apply byte_val_inj. sextet_range.
  - assert (Hr : r = r') by (apply IH; [cbn [length]; lia|assumption]).
    subst r'.
    f_equal; [apply byte_val_inj; sextet_range|].
    f_equal; [apply byte_val_inj; sextet_range|].
    f_equal. apply byte_val_inj. sextet_range.
Qed.


Lemma append_cancel_r (a b s : string) :
  String.append a s = String.append b s -> a = b.
Proof.
  revert b. induction a as [|x a IH]; intros [|y b] H.
  - reflexivity.
  - exfalso. apply (f_equal String.length) in H.
    rewrite append_nil, append_length in H. cbn [String.length] in H. lia.
  - exfalso. apply (f_equal String.length) in H.
    rewrite append_nil, append_length in H. cbn [String.length] in H. lia.
  - rewrite !append_cons in H. injection H as -> H. f_equal. now apply IH.
Qed.

(** X26.  Without a logo file logo_html is empty. With one it is the img tag whose
    src is 'data:image/png;base64,' followed by the Base64 text of the file:
    four characters for every three bytes, rounded up, all of them letters,
    digits, '+', '/' or '=', so none is the quote that closes the attribute.
    Two different files never give the same tag. *)
Theorem logo_data_uri (logo : option (list byte)) :
  (logo = None -> logo_html logo = EmptyString)
  /\ (forall image,
        logo = Some image ->
        exists payload,
          get_base64_of_image logo = Some payload
          /\ logo_html logo
             = cat [ "<img src='data:image/png;base64,"; payload;
                     "' width='170' style='display:block;margin:0 auto 8px auto;'>" ]
          /\ String.length payload = (4 * ((length image + 2) / 3))%nat
          /\ all_b64 payload = true)
  /\ (forall image image',
        logo_html (Some image) = logo_html (Some image') -> image = image').
Proof.
  split; [now intros ->|]. split.
  - intros image ->. exists (b64encode image).
    destruct (b64encode_length image) as [Hl Ha]. repeat split; assumption.
  - intros image image' H. apply b64encode_inj.
    unfold logo_html, get_base64_of_image in H.
    cbn [fmap option_fmap option_map cat foldr] in H.
    rewrite !append_empty_r in H.
    change (String.append "<img src='data:image/png;base64," ?x)
      with (String.append "<img src='data:image/png;base64," x) in H.
    assert (Hp : forall p a b, String.append p a = String.append p b -> a = b).
    { induction p as [|c p IHp]; intros a b E; [now rewrite !append_nil in E|].
      rewrite !append_cons in E. injection E as E. now apply IHp. }
    apply Hp in H. now apply append_cancel_r in H.
Qed.

Lemma logo_data_uri_witness :
  logo_html None = EmptyString
  /\ exists payload,
       get_base64_of_image (Some (encode "Man")) = Some payload
       /\ String.length payload = 4%nat.
Proof.
  destruct (logo_data_uri None) as [H1 _].
  destruct (logo_data_uri (Some (encode "Man"))) as (_ & H2 & _).
  split; [now apply H1|].
  destruct (H2 (encode "Man") eq_refl) as (payload & Hp & _ & Hl & _).
  exists payload. split; [exact Hp|exact Hl].
Defined.


(* ===================================================================== *)
(** ** Properties of create_users.py *)
(* ===================================================================== *)

Import CreateUsers.

Lemma ITERATIONS_ok : 1 <= ITERATIONS <= 2 ^ 31 - 1.
Proof. unfold ITERATIONS. lia. Qed.

Lemma ITERATIONS_default : ITERATIONS = PBKDF2_ITER_DEFAULT.
Proof. reflexivity. Qed.

(** The message printed after a user is created. *)
Lemma create_user_run (u p : string) (c : Console) (w : World) :
  create_user u p (c, w)
  = let w' := advance_entropy 16 w in
    let dk := derived_key p (next_salt w) ITERATIONS in
    let row := user_record u (next_salt w) dk ITERATIONS in
    let c' := MkConsole (stdin c)
                (stdout c ++ [String.append (cat ["User '"; u; "' created successfully."])
                                            newline]) in
    match users_csv w with
    | Some csv =>
        if str_in u (get "username" (read_csv csv))
        then (inl (Raised (ValueError (cat ["User '"; u; "' already exists."]))), (c, w'))
        else (inr tt,
              (c', set_users_csv (to_csv (concat (read_csv csv) (frame_of_record row))) w'))
    | None => (inr tt, (c', set_users_csv (to_csv (frame_of_record row)) w'))
    end.
Proof.
  unfold create_user. unfold pbind at 1, on_files at 1, urandom. cbn [fst snd].
  fold (next_salt w).
  unfold pbind at 1, on_files at 1, lift at 1, binascii_unhexlify. cbn [fst snd].
  rewrite unhexlify_hexlify.
  unfold pbind at 1, on_files at 1, lift at 1. cbn [fst snd].
  rewrite (hashlib_pbkdf2_hmac_ok _ _ _ ITERATIONS_ok).
  unfold pbind at 1, on_files at 1, gets. cbn [fst snd users_csv advance_entropy].
  unfold derived_key.
  destruct (users_csv w) as [csv|]; [|reflexivity].
  destruct (str_in u (get "username" (read_csv csv))); reflexivity.
Qed.

Lemma add_user_default_run (u p : string) (w : World) :
  add_user_to_csv u p PBKDF2_ITER_DEFAULT w
  = let w' := advance_entropy 16 w in
    let dk := derived_key p (next_salt w) ITERATIONS in
    let row := user_record u (next_salt w) dk ITERATIONS in
    match users_csv w with
    | Some csv =>
        if str_in u (get "username" (read_csv csv))
        then (inl (ValueError "Username already exists."), w')
        else (inr tt,
              set_users_csv (to_csv (concat (read_csv csv) (frame_of_record row))) w')
    | None => (inr tt, set_users_csv (to_csv (frame_of_record row)) w')
    end.
Proof.
  rewrite add_user_to_csv_run. cbv zeta. rewrite <- ITERATIONS_default.
  now rewrite (hashlib_pbkdf2_hmac_ok _ _ _ ITERATIONS_ok).
Qed.

(** A name spelled like a missing value is never found in a users file,
    and nobody logs in under it once it has been added. *)
Lemma na_name_not_found (csv : Csv) (u : string) :
  is_na u = true -> str_in u (get "username" (read_csv csv)) = false.
Proof.
  intros Hna. apply str_in_false. intros v Hv. unfold get in Hv.
  destruct (has_column "username" (read_csv csv)); [|destruct Hv].
  unfold col in Hv. apply in_map_iff in Hv as (r & <- & Hr).
  destruct (read_csv_row csv r Hr) as (fields & ->).
  now apply na_cell_never.
Qed.

Lemma na_name_login (w : World) (u p attempt : string) (it : Z) :
  is_na u = true ->
  fst (add_user_to_csv u p it w) = inr tt ->
  login_ui u attempt true (snd (add_user_to_csv u p it w))
  = (inr (false, None),
     emit (st_error "Invalid username or password.")
          (snd (add_user_to_csv u p it w))).
Proof.
  intros Hna Hok. apply login_absent. apply str_in_false. intros v Hv.
  unfold col in Hv. apply in_map_iff in Hv as (r & <- & Hr).
  destruct (add_user_table_rows w u p it Hok) as (old & row & cols & Hrows & _).
  rewrite Hrows in Hr. apply in_map_iff in Hr as (r0 & <- & _).
  unfold reread. now apply na_cell_never.
Qed.

(** X27.  create_user of create_users.py leaves the users file exactly as
    add_user_to_csv of the dashboard does for the same username and password
    (200000 iterations), and succeeds exactly when it does. On success it
    prints 'User '<name>' created successfully.'; otherwise the only failure
    is the duplicate username, raised as ValueError 'User '<name>' already
    exists.' with nothing printed and the file unchanged. A user created by
    the script, under a name that is not spelled like a missing value, can
    log in on the dashboard with that password. *)
Theorem create_user_agrees (username password : string) (c : Console) (w : World) :
  let r := create_user username password (c, w) in
  let d := add_user_to_csv username password PBKDF2_ITER_DEFAULT w in
  snd (snd r) = snd d
  /\ (fst d = inr tt ->
      fst r = inr tt
      /\ fst (snd r)
         = MkConsole (stdin c)
             (stdout c ++ [String.append
                             (cat ["User '"; username; "' created successfully."])
                             newline]))
  /\ (fst d <> inr tt ->
      fst d = inl (ValueError "Username already exists.")
      /\ fst r = inl (Raised (ValueError (cat ["User '"; username; "' already exists."])))
      /\ fst (snd r) = c
      /\ users_csv (snd (snd r)) = users_csv w)
  /\ (is_na username = false ->
      fst r = inr tt ->
      fst (login_ui username password true (snd (snd r))) = inr (true, Some username)).
Proof.
  cbv zeta. rewrite create_user_run, add_user_default_run. cbv zeta.
  assert (Hlogin : is_na username = false ->
            fst (add_user_to_csv username password PBKDF2_ITER_DEFAULT w) = inr tt ->
            fst (login_ui username password true
                   (snd (add_user_to_csv username password PBKDF2_ITER_DEFAULT w)))
            = inr (true, Some username)).
  { intros Hna Hok. destruct (add_user_to_csv_ok _ _ _ _ Hok) as [Hit Hdup].
    destruct (login_after_add w username password password PBKDF2_ITER_DEFAULT
                Hit Hna Hdup) as [_ ->].
    now rewrite String.eqb_refl. }
  rewrite add_user_default_run in Hlogin. cbv zeta in Hlogin.
  destruct (users_csv w) as [csv|] eqn:Ecsv.
  - destruct (str_in username (get "username" (read_csv csv))); cbn [fst snd].
    + split; [reflexivity|]. split; [discriminate|]. split; [|discriminate].
      intros _. repeat split. exact Ecsv.
    + split; [reflexivity|]. split; [now split|]. split; [congruence|].
      intros Hna _. now apply Hlogin.
  - cbn [fst snd]. split; [reflexivity|]. split; [now split|]. split; [congruence|].
    intros Hna _. now apply Hlogin.
Qed.

Lemma lstrip_head (s : string) (c : ascii) (r : string) :
  lstrip s = String c r -> is_space c = false.
Proof.
  induction s as [|x s IH]; [discriminate|].
  cbn [lstrip]. destruct (is_space x) eqn:E; [exact IH|].
  intros [= <- _]. exact E.
Qed.

Lemma rstrip_cons (c : ascii) (s : string) :
  is_space c = false -> exists r, rstrip (String c s) = String c r.
Proof.
  intros Hc. cbn [rstrip]. destruct (rstrip s) as [|y t]; rewrite ?Hc; eauto.
Qed.

Lemma rstrip_last (s : string) (r : string) (c : ascii) :
  rstrip s = String.append r (String c EmptyString) -> is_space c = false.
Proof.
  revert r. induction s as [|x s IH]; intros r.
  - destruct r; [rewrite append_nil|rewrite append_cons]; discriminate.
  - cbn [rstrip]. destruct (rstrip s) as [|y t] eqn:E.
    + destruct (is_space x) eqn:Ex.
      * destruct r; [rewrite append_nil|rewrite append_cons]; discriminate.
      * destruct r as [|z r].
        -- rewrite append_nil. intros [= <-]. exact Ex.
        -- rewrite append_cons.
           destruct r; [rewrite append_nil|rewrite append_cons]; intros [=].
    + destruct r as [|z r].
      * rewrite append_nil. intros [=].
      * rewrite append_cons. intros [= _ H]. apply (IH r H).
Qed.

Lemma strip_ends (s : string) :
  (forall c r, strip s = String c r -> is_space c = false)
  /\ (forall r c, strip s = String.append r (String c EmptyString) ->
                  is_space c = false).
Proof.
  split.
  - intros c r H. unfold strip in H.
    destruct (lstrip s) as [|x t] eqn:E; [discriminate|].
    pose proof (lstrip_head s x t E) as Hx.
    destruct (rstrip_cons x t Hx) as [r' Hr]. rewrite Hr in H.
    injection H as <- _. exact Hx.
  - intros r c H. now apply (rstrip_last (lstrip s) r c).
Qed.

Lemma main_run (l1 l2 : string) (rest out : list string) (w : World) :
  main (MkConsole (l1 :: l2 :: rest) out, w)
  = create_user (strip l1) (strip l2)
      (MkConsole rest ((out ++ ["Enter new username: "]) ++ ["Enter password: "]), w).
Proof. reflexivity. Qed.

(** X28.  The main block of create_users.py reads two lines and creates the user
    under the username and password stripped of surrounding white space, so
    the stored username neither starts nor ends with a blank; the files end
    up as after add_user_to_csv with the stripped texts, and the script
    succeeds exactly when add_user_to_csv does. When it succeeds and the
    stripped username is not spelled like a missing value, the user can log
    in on the dashboard with the stripped texts; when the stripped username
    is spelled like a missing value (an empty line, NA, None, ...), the user
    is created every time and no login under that name succeeds. With fewer
    than two lines of input it raises EOFError and leaves the users file
    alone. *)
Theorem create_users_main (c : Console) (w : World) :
  (forall l1 l2 rest,
     stdin c = l1 :: l2 :: rest ->
     let username := strip l1 in
     let password := strip l2 in
     (forall x r, username = String x r -> is_space x = false)
     /\ (forall r x, username = String.append r (String x EmptyString) ->
                     is_space x = false)
     /\ snd (snd (main (c, w)))
        = snd (add_user_to_csv username password PBKDF2_ITER_DEFAULT w)
     /\ (fst (main (c, w)) = inr tt <->
         fst (add_user_to_csv username password PBKDF2_ITER_DEFAULT w) = inr tt)
     /\ (is_na username = false ->
         fst (main (c, w)) = inr tt ->
         fst (login_ui username password true (snd (snd (main (c, w)))))
         = inr (true, Some username))
     /\ (is_na username = true ->
         fst (main (c, w)) = inr tt
         /\ forall attempt,
              fst (login_ui username attempt true (snd (snd (main (c, w)))))
              = inr (false, None)))
  /\ ((length (stdin c) < 2)%nat ->
      fst (main (c, w)) = inl EOFError /\ snd (snd (main (c, w))) = w).
Proof.
  split.
  - intros l1 l2 rest Hin username password.
    destruct (strip_ends l1) as [Hhead Hlast].
    split; [exact Hhead|]. split; [exact Hlast|].
    destruct c as [inp out]. cbn [stdin] in Hin. subst inp.
    rewrite main_run. fold username password.
    set (c' := MkConsole rest _).
    assert (Hw : snd (snd (create_user username password (c', w)))
                 = snd (add_user_to_csv username password PBKDF2_ITER_DEFAULT w)).
    { rewrite create_user_run, add_user_default_run. cbv zeta.
      destruct (users_csv w) as [csv|]; [|reflexivity].
      destruct (str_in username (get "username" (read_csv csv))); reflexivity. }
    assert (Hiff : fst (create_user username password (c', w)) = inr tt <->
                   fst (add_user_to_csv username password PBKDF2_ITER_DEFAULT w)
                   = inr tt).
    { rewrite create_user_run, add_user_default_run. cbv zeta.
      destruct (users_csv w) as [csv|]; [|now split].
      destruct (str_in username (get "username" (read_csv csv))); cbn [fst];
        split; (discriminate || reflexivity). }
    split; [exact Hw|]. split; [exact Hiff|]. split.
    + intros Hna Hok. apply Hiff in Hok.
      rewrite Hw. destruct (add_user_to_csv_ok _ _ _ _ Hok) as [Hit Hdup].
      destruct (login_after_add w username password password PBKDF2_ITER_DEFAULT
                  Hit Hna Hdup) as [_ ->].
      now rewrite String.eqb_refl.
    + intros Hna.
      assert (Hok : fst (add_user_to_csv username password PBKDF2_ITER_DEFAULT w)
                    = inr tt).
      { rewrite add_user_default_run. cbv zeta.
        destruct (users_csv w) as [csv|]; [|reflexivity].
        now rewrite (na_name_not_found csv username Hna). }
      split; [now apply Hiff|]. intros attempt.
      now rewrite Hw, (na_name_login w username password attempt _ Hna Hok).
  - intros Hlen. destruct c as [[|l1 [|l2 rest]] out]; cbn [stdin length] in Hlen;
      [now split|now split|lia].
Qed.

(** Two lines with blanks around the texts; one line only; and an empty
    first line, which creates a user nobody can log in as. *)
Lemma create_users_main_witness :
  (forall x r, strip "  alice " = String x r -> is_space x = false)
  /\ fst (main (MkConsole ["  alice "] [], fresh_world)) = inl EOFError
  /\ strip "  " = EmptyString
  /\ forall attempt,
       fst (login_ui (strip "  ") attempt true
              (snd (snd (main (MkConsole ["  "; " pw"] [], fresh_world)))))
       = inr (false, None).
Proof.
  destruct (create_users_main (MkConsole ["  alice "; " pw"] []) fresh_world)
    as [H _].
  destruct (H "  alice " " pw" [] eq_refl) as (Hh & _).
  destruct (create_users_main (MkConsole ["  alice "] []) fresh_world) as [_ H2].
  destruct (create_users_main (MkConsole ["  "; " pw"] []) fresh_world) as [H3 _].
  destruct (H3 "  " " pw" [] eq_refl) as (_ & _ & _ & _ & _ & Hna).
  split; [exact Hh|]. split; [apply H2; cbn; lia|]. split; [reflexivity|].
  apply Hna. reflexivity.
Defined.


(* ===================================================================== *)
(** ** Properties of update_expiry_dates.py *)
(* ===================================================================== *)

Import UpdateExpiryDates.

Section UpdateFacts.
Variable randint : nat -> Z -> Z -> Z.
Variable random : nat -> Q.
Hypothesis randint_range : forall n a b, a <= b -> a <= randint n a b <= b.

Lemma repeat_draw_S {A} (m : G A) (k n : nat) :
  repeat_draw (S k) m n
  = (fst (m n) :: fst (repeat_draw k m (snd (m n))),
     snd (repeat_draw k m (snd (m n)))).
Proof.
  cbn [repeat_draw]. unfold gbind, gret.
  destruct (m n) as [x n1]. cbn [fst snd].
  destruct (repeat_draw k m n1) as [r n2]. reflexivity.
Qed.

Lemma repeat_draw_Forall {A} (P : A -> Prop) (m : G A) (k : nat) :
  (forall n, P (fst (m n))) ->
  forall n, Forall P (fst (repeat_draw k m n)) /\ length (fst (repeat_draw k m n)) = k.
Proof.
  intros Hm. induction k as [|k IH]; intros n; [now split|].
  rewrite repeat_draw_S. cbn [fst length].
  destruct (IH (snd (m n))) as [H2 H3]. split; [constructor; auto|now rewrite H3].
Qed.

Lemma restock_cell (n : nat) :
  exists k, -90 <= k <= 180
    /\ fst ((gbind (random_date_within randint 90 180) (fun t => gret (date_cell t))) n)
       = Some (Str (strftime_date (TODAY + days k))).
Proof.
  exists (randint n (-90) 180). split; [apply randint_range; lia|]. reflexivity.
Qed.

Lemma expiry_cell (n : nat) :
  exists k, (-90 <= k <= -1 \/ 1 <= k <= 90 \/ 120 <= k <= 720)
    /\ fst ((gbind (expiry_date randint random) (fun t => gret (date_cell t))) n)
       = Some (Str (strftime_date (TODAY + days k))).
Proof.
  unfold expiry_date, gbind at 1 2, draw_random.
  destruct (Qlt_bool (random n) (1 # 5)).
  - exists (- randint (S n) 1 90). split.
    + pose proof (randint_range (S n) 1 90 ltac:(lia)). lia.
    + unfold gbind, draw_randint, gret, date_cell. cbn [fst].
      do 3 f_equal. unfold days. lia.
  - destruct (Qlt_bool (random n) (1 # 2)).
    + exists (randint (S n) 1 90). split.
      * pose proof (randint_range (S n) 1 90 ltac:(lia)). lia.
      * reflexivity.
    + exists (randint (S n) 120 720). split.
      * pose proof (randint_range (S n) 120 720 ltac:(lia)). lia.
      * reflexivity.
Qed.

Lemma update_dates_run (df : DataFrame) :
  exists v1 v2,
    (Forall restocked v1 /\ length v1 = length (rows df))
    /\ (Forall expiring v2 /\ length v2 = length (rows df))
    /\ fst (update_dates randint random df 0%nat)
       = let d1 := if has_column "Last Restocked" df
                   then assign "Last Restocked" v1 df else df in
         if has_column "Expiry Date" d1 then assign "Expiry Date" v2 d1 else d1.
Proof.
  unfold update_dates.
  destruct (has_column "Last Restocked" df) eqn:E1.
  - unfold gbind at 1 2.
    destruct (repeat_draw_Forall restocked
                (gbind (random_date_within randint 90 180) (fun t => gret (date_cell t)))
                (length (rows df))
                ltac:(intros n; destruct (restock_cell n) as (k & Hk & ->); exists k; auto)
                0%nat) as [F1 L1].
    destruct (repeat_draw _ _ 0%nat) as [v1 n1]. cbn [fst gret] in *.
    destruct (has_column "Expiry Date" (assign "Last Restocked" v1 df)) eqn:E2.
    + unfold gbind at 1 2.
      destruct (repeat_draw_Forall expiring
                  (gbind (expiry_date randint random) (fun t => gret (date_cell t)))
                  (length (rows (assign "Last Restocked" v1 df)))
                  ltac:(intros n; destruct (expiry_cell n) as (k & Hk & ->); exists k; auto)
                  n1) as [F2 L2].
      destruct (repeat_draw _ _ n1) as [v2 n2]. cbn [fst gret] in *.
      exists v1, v2. rewrite rows_assign_length in L2. rewrite E2. auto.
    + exists v1, (replicate (length (rows df))
                    (Some (Str (strftime_date (TODAY + days 1))))).
      rewrite E2. split; [auto|]. split; [|reflexivity].
      split; [|apply length_replicate].
      apply Forall_replicate. exists 1. split; [lia|reflexivity].
  - unfold gbind at 1, gret at 1.
    destruct (has_column "Expiry Date" df) eqn:E2.
    + unfold gbind at 1 2.
      destruct (repeat_draw_Forall expiring
                  (gbind (expiry_date randint random) (fun t => gret (date_cell t)))
                  (length (rows df))
                  ltac:(intros n; destruct (expiry_cell n) as (k & Hk & ->); exists k; auto)
                  0%nat) as [F2 L2].
      destruct (repeat_draw _ _ 0%nat) as [v2 n2]. cbn [fst gret] in *.
      exists (replicate (length (rows df))
                (Some (Str (strftime_date (TODAY + days 1))))), v2.
      split; [|auto].
      split; [|apply length_replicate].
      apply Forall_replicate. exists 1. split; [lia|reflexivity].
    + exists (replicate (length (rows df))
                (Some (Str (strftime_date (TODAY + days 1))))),
             (replicate (length (rows df))
                (Some (Str (strftime_date (TODAY + days 1))))).
      repeat split; try apply length_replicate;
        apply Forall_replicate; exists 1; (split; [lia|reflexivity]).
Qed.
End UpdateFacts.


Lemma written_date_reads_back (k : Z) :
  -90 <= k <= 720 ->
  parse_ymd (strftime_date (TODAY + days k)) = Some (TODAY + days k)
  /\ String.length (strftime_date (TODAY + days k)) = 10%nat.
Proof.
  intros Hk.
  assert (Hall : forallb
            (fun i : nat =>
               let t := TODAY + days (Z.of_nat i - 90) in
               match parse_ymd (strftime_date t) with
               | Some t' => (t' =? t) && (String.length (strftime_date t) =? 10)%nat
               | None => false
               end) (seq 0 811) = true) by (vm_compute; reflexivity).
  rewrite forallb_forall in Hall.
  specialize (Hall (Z.to_nat (k + 90))).
  replace (Z.of_nat (Z.to_nat (k + 90)) - 90) with k in Hall by lia.
  cbv zeta in Hall.
  destruct (parse_ymd (strftime_date (TODAY + days k))) as [t'|].
  - assert (Hin : In (Z.to_nat (k + 90)) (seq 0 811)) by (apply in_seq; lia).
    apply Hall in Hin. apply andb_true_iff in Hin as [H1 H2].
    apply Z.eqb_eq in H1. apply Nat.eqb_eq in H2. subst t'.
    split; [reflexivity|exact H2].
  - assert (Hin : In (Z.to_nat (k + 90)) (seq 0 811)) by (apply in_seq; lia).
    apply Hall in Hin. discriminate.
Qed.

Section UpdateTheorems.
Variable randint : nat -> Z -> Z -> Z.
Variable random : nat -> Q.

Lemma script_date_columns :
  (forall n a b, a <= b -> a <= randint n a b <= b) ->
  forall sheet,
    exists out printed,
      script randint random (Some sheet) = inr (out, printed)
      /\ columns out = columns sheet
      /\ length (rows out) = length (rows sheet)
      /\ (forall c, c <> "Last Restocked" -> c <> "Expiry Date" ->
                    col c out = col c (read_excel sheet))
      /\ ("Last Restocked" ∈ columns sheet ->
          Forall restocked (col "Last Restocked" out))
      /\ ("Expiry Date" ∈ columns sheet ->
          Forall expiring (col "Expiry Date" out)).
Proof.
  intros Hrand sheet.
  destruct (update_dates_run randint random Hrand (read_excel sheet))
    as (v1 & v2 & [F1 L1] & [F2 L2] & Hrun).
  eexists _, _. split; [reflexivity|]. unfold to_excel. rewrite Hrun. cbv zeta.
  set (df := read_excel sheet) in *.
  assert (Hc : columns df = columns sheet) by reflexivity.
  assert (Hl : length (rows df) = length (rows sheet))
    by (subst df; unfold read_excel; cbn [rows]; apply length_fmap).
  set (d1 := if has_column "Last Restocked" df
             then assign "Last Restocked" v1 df else df).
  assert (Hc1 : columns d1 = columns df).
  { subst d1. destruct (has_column "Last Restocked" df) eqn:E; [|reflexivity].
    unfold assign. cbn [columns]. now rewrite E. }
  assert (Hl1 : length (rows d1) = length (rows df)).
  { subst d1. destruct (has_column "Last Restocked" df); [|reflexivity].
    apply rows_assign_length. }
  assert (Hh : forall c, has_column c d1 = has_column c df).
  { intros c. unfold has_column. now rewrite Hc1. }
  rewrite (Hh "Expiry Date").
  split; [|split; [|split; [|split]]].
  - destruct (has_column "Expiry Date" df) eqn:E; [|now rewrite Hc1].
    unfold assign. cbn [columns]. rewrite (Hh "Expiry Date"), E. now rewrite Hc1.
  - destruct (has_column "Expiry Date" df); [rewrite rows_assign_length|];
      now rewrite Hl1.
  - intros c H1 H2.
    assert (Hd1 : col c d1 = col c df).
    { subst d1. destruct (has_column "Last Restocked" df); [|reflexivity].
      apply col_assign_ne. intros E. now apply H1. }
    destruct (has_column "Expiry Date" df); [|exact Hd1].
    rewrite col_assign_ne by (intros E; now apply H2). exact Hd1.
  - intros Hin.
    assert (Hin' : has_column "Last Restocked" df = true)
      by (apply has_column_true; rewrite Hc; exact Hin).
    assert (Hd1 : col "Last Restocked" d1 = v1).
    { subst d1. rewrite Hin'. now apply col_assign_self. }
    destruct (has_column "Expiry Date" df).
    + rewrite col_assign_ne by discriminate. now rewrite Hd1.
    + now rewrite Hd1.
  - intros Hin.
    assert (Hin' : has_column "Expiry Date" df = true)
      by (apply has_column_true; rewrite Hc; exact Hin).
    rewrite Hin'.
    rewrite col_assign_self by (now rewrite L2, Hl1). exact F2.
Qed.

(** X29.  update_expiry_dates.py raises FileNotFoundError when the inventory file
    is missing. Otherwise, whatever numbers the random generator draws
    within the bounds asked for, it writes a sheet with the same columns and
    number of rows, every other column as read, every Last Restocked (if the
    column exists) a date between 90 days before and 180 days after
    2025-10-22, hence possibly in the future, and every Expiry Date a date 1
    to 90 days before, 1 to 90 days after or 120 to 720 days after
    2025-10-22, never that day itself. *)
Theorem update_expiry_dates_ranges :
  (forall n a b, a <= b -> a <= randint n a b <= b) ->
  script randint random None
  = inl (FileNotFoundError "Could not find biomedical_lab_inventory.xlsx")
  /\ forall sheet,
       exists out printed,
         script randint random (Some sheet) = inr (out, printed)
         /\ columns out = columns sheet
         /\ length (rows out) = length (rows sheet)
         /\ (forall c, c <> "Last Restocked" -> c <> "Expiry Date" ->
                       col c out = col c (read_excel sheet))
         /\ ("Last Restocked" ∈ columns sheet ->
             forall v, In v (col "Last Restocked" out) ->
               exists k, -90 <= k <= 180
                         /\ v = Some (Str (strftime_date (TODAY + days k))))
         /\ ("Expiry Date" ∈ columns sheet ->
             forall v, In v (col "Expiry Date" out) ->
               exists k, (-90 <= k <= -1 \/ 1 <= k <= 90 \/ 120 <= k <= 720)
                         /\ v = Some (Str (strftime_date (TODAY + days k)))).
Proof.
  intros Hrand. split; [reflexivity|]. intros sheet.
  destruct (script_date_columns Hrand sheet)
    as (out & printed & Hrun & Hc & Hl & Hother & Hr & He).
  exists out, printed. split; [exact Hrun|]. split; [exact Hc|]. split; [exact Hl|].
  split; [exact Hother|]. split.
  - intros Hin v Hv. specialize (Hr Hin). rewrite Forall_forall in Hr.
    apply (Hr v). now apply list_elem_of_In.
  - intros Hin v Hv. specialize (He Hin). rewrite Forall_forall in He.
    apply (He v). now apply list_elem_of_In.
Qed.

(** X30.  Every Last Restocked and Expiry Date that update_expiry_dates.py writes
    is a ten-character text in the layout YYYY-MM-DD, and a reader of that
    layout reads it back as the very day the script drew, so that no row of
    the written sheet is left without a parsed date. *)
Theorem update_expiry_dates_read_back :
  (forall n a b, a <= b -> a <= randint n a b <= b) ->
  forall sheet out printed c,
    script randint random (Some sheet) = inr (out, printed) ->
    c = "Last Restocked" \/ c = "Expiry Date" ->
    c ∈ columns sheet ->
    forall i v,
      col c out !! i = Some v ->
      exists k,
        -90 <= k <= 720
        /\ v = Some (Str (strftime_date (TODAY + days k)))
        /\ String.length (strftime_date (TODAY + days k)) = 10%nat
        /\ mjoin (to_datetime_ymd (col c out) !! i) = Some (TODAY + days k).
Proof.
  intros Hrand sheet out printed c Hrun Hc Hin i v Hv.
  destruct (script_date_columns Hrand sheet)
    as (out' & printed' & Hrun' & _ & _ & _ & Hr & He).
  rewrite Hrun in Hrun'. injection Hrun' as <- <-.
  assert (Hk : exists k, -90 <= k <= 720
                         /\ v = Some (Str (strftime_date (TODAY + days k)))).
  { destruct Hc as [-> | ->].
    - specialize (Hr Hin). rewrite Forall_forall in Hr.
      destruct (Hr v) as (k & Hk & ->); [eapply list_elem_of_lookup_2, Hv|].
      exists k. split; [lia|reflexivity].
    - specialize (He Hin). rewrite Forall_forall in He.
      destruct (He v) as (k & Hk & ->); [eapply list_elem_of_lookup_2, Hv|].
      exists k. split; [lia|reflexivity]. }
  destruct Hk as (k & Hk & ->). exists k.
  destruct (written_date_reads_back k Hk) as [Hp Hlen].
  split; [exact Hk|]. split; [reflexivity|]. split; [exact Hlen|].
  unfold to_datetime_ymd. rewrite list_lookup_fmap, Hv. cbn. exact Hp.
Qed.
End UpdateTheorems.


Lemma lowest_in_range (n : nat) (a b : Z) : a <= b -> a <= lowest n a b <= b.
Proof. unfold lowest. lia. Qed.

Lemma update_expiry_dates_ranges_witness :
  (forall n a b, a <= b -> a <= lowest n a b <= b)
  /\ script lowest no_chance None
     = inl (FileNotFoundError "Could not find biomedical_lab_inventory.xlsx")
  /\ exists out printed,
       script lowest no_chance (Some dated_items) = inr (out, printed)
       /\ length (rows out) = 2%nat.
Proof.
  split; [exact lowest_in_range|].
  destruct (update_expiry_dates_ranges lowest no_chance lowest_in_range) as [H1 H2].
  split; [exact H1|].
  destruct (H2 dated_items) as (out & printed & Hrun & _ & Hl & _).
  exists out, printed. split; [exact Hrun|exact Hl].
Defined.

Lemma update_expiry_dates_read_back_witness :
  (forall n a b, a <= b -> a <= lowest n a b <= b)
  /\ col "Expiry Date" updated_items !! 0%nat = Some (Some (Str "2025-10-21"))
  /\ exists k,
       Some (Str "2025-10-21") = Some (Str (strftime_date (TODAY + days k)))
       /\ mjoin (to_datetime_ymd (col "Expiry Date" updated_items) !! 0%nat)
          = Some (TODAY + days k).
Proof.
  split; [exact lowest_in_range|].
  assert (Hrun : script lowest no_chance (Some dated_items)
                 = inr (updated_items,
                        [String.append
                           "Updated inventory saved as biomedical_lab_inventory_updated.xlsx"
                           newline]))
    by (vm_compute; reflexivity).
  assert (Hv : col "Expiry Date" updated_items !! 0%nat
               = Some (Some (Str "2025-10-21"))) by (vm_compute; reflexivity).
  assert (Hin : "Expiry Date" ∈ columns dated_items) by (cbn; in_labels).
  split; [exact Hv|].
  destruct (update_expiry_dates_read_back lowest no_chance lowest_in_range
              dated_items _ _ "Expiry Date" Hrun (or_intror eq_refl) Hin
              0%nat _ Hv) as (k & _ & Hk & _ & Hp).
  exists k. split; [exact Hk|exact Hp].
Defined.


(* ===================================================================== *)
(** ** Further properties of the item forms *)
(* ===================================================================== *)

(** The row the forms read: the first one with the selected id. *)
Lemma selected_row_exists (df : DataFrame) (id : cell) :
  In (Some id) (col "Item ID" df) ->
  exists row rest,
    rows (filter_rows ((fun v => eq_cell v (Some id)) <$> col "Item ID" df) df)
    = row :: rest.
Proof.
  intros Hin.
  rewrite (rows_filter_rows_col (fun v => eq_cell v (Some id))).
  unfold col in Hin. apply in_map_iff in Hin as (r & Hr & Hin).
  destruct (List.filter _ (rows df)) as [|row rest] eqn:E; [|eauto].
  exfalso.
  assert (H : In r (List.filter
                      (fun r : gmap string cell => eq_cell (r !! "Item ID") (Some id))
                      (rows df))).
  { apply filter_In. split; [exact Hin|]. rewrite Hr. cbn.
    now apply bool_decide_eq_true. }
  rewrite E in H. destruct H.
Qed.

Lemma df_empty_false (df : DataFrame) (v : option cell) (c : string) :
  has_column c df = true -> In v (col c df) -> df_empty df = false.
Proof.
  intros Hc Hv. unfold df_empty.
  destruct (rows df) as [|r rs] eqn:E; [unfold col in Hv; rewrite E in Hv; destruct Hv|].
  pose proof (columns_nonempty c df Hc) as Hne.
  now destruct (columns df).
Qed.

Lemma edit_item_reads (df : DataFrame) (id : cell) (f : EditForm) (w : World)
    (row : gmap string cell) (rest : list (gmap string cell)) (e : exn) :
  has_column "Item ID" df = true ->
  In (Some id) (col "Item ID" df) ->
  truthy (Some id) = true ->
  rows (filter_rows ((fun v => eq_cell v (Some id)) <$> col "Item ID" df) df)
  = row :: rest ->
  edit_reads df row = inl e ->
  edit_item df (Some id) f w = (inl e, w).
Proof.
  intros Hid Hin Ht Hrow He. unfold edit_item.
  rewrite (df_empty_false df _ _ Hid Hin), Hid. cbn [negb]. rewrite Ht, Hrow.
  unfold bind at 1, lift. now rewrite He.
Qed.

Lemma delete_item_reads (df : DataFrame) (id : cell) (w : World)
    (row : gmap string cell) (rest : list (gmap string cell)) (e : exn) :
  has_column "Item ID" df = true ->
  In (Some id) (col "Item ID" df) ->
  truthy (Some id) = true ->
  rows (filter_rows ((fun v => eq_cell v (Some id)) <$> col "Item ID" df) df)
  = row :: rest ->
  delete_reads df row = inl e ->
  delete_item df (Some id) true w = (inl e, w).
Proof.
  intros Hid Hin Ht Hrow He. unfold delete_item.
  rewrite (df_empty_false df _ _ Hid Hin), Hid. cbn [negb]. rewrite Ht.
  cbn [andb]. rewrite Hrow. unfold bind at 1 2, lift. now rewrite He.
Qed.

(** Some read of the selected row fails when one of the four columns is
    missing. *)
Lemma edit_reads_missing (df : DataFrame) (row : gmap string cell) (c : string) :
  c ∈ ["Item Name"; "Quantity"; "Reorder Level"; "Remarks"] ->
  has_column c df = false ->
  exists e, edit_reads df row = inl e.
Proof.
  intros Hc Hmiss. unfold edit_reads, pure_bind, row_get.
  rewrite !elem_of_cons, elem_of_nil in Hc.
  destruct (has_column "Item Name" df) eqn:E1; [|eauto].
  destruct (has_column "Quantity" df) eqn:E2; [|eauto].
  destruct (int_or_zero (row !! "Quantity")); [eauto|].
  destruct (has_column "Reorder Level" df) eqn:E3; [|eauto].
  destruct (int_or_zero (row !! "Reorder Level")); [eauto|].
  destruct (has_column "Remarks" df) eqn:E4; [|eauto].
  destruct Hc as [->|[->|[->|[->|[]]]]]; congruence.
Qed.

(** X31.  Edit Item and Delete Item read the selected row before anything else. On
    a table that has the Item ID column but lacks Item Name (or, with Item
    Name present, lacks Quantity), selecting an existing id makes Edit Item
    raise KeyError for that column before its form is drawn, whatever the
    form holds, and makes Delete Item raise the same KeyError instead of
    deleting; on a table lacking any of Item Name, Quantity, Reorder Level
    or Remarks, Edit Item always raises. Nothing is written in these cases.
    A confirmed bulk upload of a sheet without these columns leaves such a
    table in the session. *)
Theorem item_forms_need_columns (df : DataFrame) (id : cell) (w : World) :
  has_column "Item ID" df = true ->
  In (Some id) (col "Item ID" df) ->
  truthy (Some id) = true ->
  (has_column "Item Name" df = false ->
   (forall f, edit_item df (Some id) f w = (inl (KeyError "Item Name"), w))
   /\ delete_item df (Some id) true w = (inl (KeyError "Item Name"), w))
  /\ (has_column "Item Name" df = true -> has_column "Quantity" df = false ->
      (forall f, edit_item df (Some id) f w = (inl (KeyError "Quantity"), w))
      /\ delete_item df (Some id) true w = (inl (KeyError "Quantity"), w))
  /\ (forall c, c ∈ ["Item Name"; "Quantity"; "Reorder Level"; "Remarks"] ->
        has_column c df = false ->
        forall f, exists e, edit_item df (Some id) f w = (inl e, w)
                            /\ is_Exception e = true).
Proof.
  intros Hid Hin Ht.
  destruct (selected_row_exists df id Hin) as (row & rest & Hrow).
  split; [|split].
  - intros Hname. split.
    + intros f. apply (edit_item_reads df id f w row rest _ Hid Hin Ht Hrow).
      unfold edit_reads, pure_bind, row_get. now rewrite Hname.
    + apply (delete_item_reads df id w row rest _ Hid Hin Ht Hrow).
      unfold delete_reads, pure_bind, row_get. now rewrite Hname.
  - intros Hname Hqty. split.
    + intros f. apply (edit_item_reads df id f w row rest _ Hid Hin Ht Hrow).
      unfold edit_reads, pure_bind, row_get. now rewrite Hname, Hqty.
    + apply (delete_item_reads df id w row rest _ Hid Hin Ht Hrow).
      unfold delete_reads, pure_bind, row_get. now rewrite Hname, Hqty.
  - intros c Hc Hmiss f.
    destruct (edit_reads_missing df row c Hc Hmiss) as [e He].
    exists e. split; [exact (edit_item_reads df id f w row rest e Hid Hin Ht Hrow He)|].
    exact (edit_reads_raises df row e He).
Qed.

(** A sheet of two rows that has the id column only, as a confirmed
    upload leaves it in the session. *)
Lemma item_forms_need_columns_witness :
  (has_column "Item ID" duplicate_sheet = true
   /\ In (Some (Str "LAB001")) (col "Item ID" duplicate_sheet)
   /\ truthy (Some (Str "LAB001")) = true
   /\ has_column "Item Name" duplicate_sheet = false)
  /\ session_inventory (snd (bulk_upload (Some duplicate_sheet) true "alice" fresh_world))
     = Some duplicate_sheet
  /\ edit_item duplicate_sheet (Some (Str "LAB001")) edit_form fresh_world
     = (inl (KeyError "Item Name"), fresh_world)
  /\ delete_item duplicate_sheet (Some (Str "LAB001")) true fresh_world
     = (inl (KeyError "Item Name"), fresh_world).
Proof.
  assert (H1 : has_column "Item ID" duplicate_sheet = true) by reflexivity.
  assert (H2 : In (Some (Str "LAB001")) (col "Item ID" duplicate_sheet))
    by (now left).
  assert (H3 : truthy (Some (Str "LAB001")) = true) by reflexivity.
  assert (H4 : has_column "Item Name" duplicate_sheet = false) by reflexivity.
  split; [auto|]. split; [reflexivity|].
  destruct (item_forms_need_columns duplicate_sheet (Str "LAB001") fresh_world
              H1 H2 H3) as (Hname & _).
  destruct (Hname H4) as [He Hd]. split; [apply He|exact Hd].
Defined.
